(** * pg-user-and-database-cdk: the custom-resource handlers

    A shallow embedding of [src/handler/main.ts] (the Lambda that creates,
    updates and deletes one PostgreSQL user and database), of
    [src/latest_secret_version_handler/main.ts] and of the property assembly
    of the [PostgresUserAndDatabase] construct.

    The handlers are [async] functions over two outside services: Secrets
    Manager, and the PostgreSQL server reached through [pg.Client].  They are embedded in a small state-and-exception monad whose state
    holds the outside world, the heap of lazily built client managers and the
    chronological trace of every call made to the outside.  Calls to [log]
    only write to the console and are left out. *)

From Stdlib Require Import String Ascii List Bool Arith NArith Lia.
Import ListNotations.
Open Scope string_scope.
Open Scope list_scope.

(** ** Values thrown by JavaScript code *)

(** What [isPostgresError] looks at in a thrown value: whether it is a
    non-null object, whether it has [message] and [name], and its [code]
    property (absent, a string, or something that is not a string). *)
Inductive CodeField :=
| NoCode
| StringCode (c : string)
| OtherCode.

Record Thrown := mkThrown {
  is_object : bool;
  has_message : bool;
  has_name : bool;
  code_field : CodeField;
  message : string
}.

(** [new Error(msg)] *)
Definition Error (msg : string) : Thrown := mkThrown true true true NoCode msg.

(** The error [pg] raises for a server error response, with its SQLSTATE. *)
Definition DatabaseError (sqlstate msg : string) : Thrown :=
  mkThrown true true true (StringCode sqlstate) msg.

Module PostgresErrorCodes.
Definition DUPLICATE_DATABASE := "42P04".
Definition DUPLICATE_OBJECT := "42710".
Definition INSUFFICIENT_PRIVILEGE := "42501".
Definition AUTHENTICATION_FAILED := "28P01".
End PostgresErrorCodes.

Definition isPostgresError (e : Thrown) : bool :=
  if negb (is_object e) then false
  else if negb (has_message e && has_name e) then false
  else match code_field e with
       | NoCode => false
       | StringCode _ => true
       | OtherCode => false
       end.

(** [e.code === c] for a string constant [c]. *)
Definition code_is (e : Thrown) (c : string) : bool :=
  match code_field e with
  | StringCode c' => String.eqb c' c
  | _ => false
  end.

(** ** The outside world *)

Record DbCredentials := { username : string; password : string }.

(** The options given to [new pg.Client]; [ssl] is the constant
    [{ rejectUnauthorized: false }]. *)
Record ClientConfig := {
  host : string;
  port : N;
  user : string;
  cfg_password : string;
  database : string
}.

(** A [pg.Client] object: the manager (heap index) that built it, and its
    configuration. *)
Record PgClient := { owner : nat; config : ClientConfig }.

(** One version of a secret as [ListSecretVersionIds] reports it. *)
Record SecretVersionsListEntry := {
  VersionId : option string;
  VersionStages : option (list string)
}.

(** The services the handlers call.  [getSecretValue] stands for
    [GetSecretValueCommand] followed by [JSON.parse] and the zod schema
    [{username: string, password: string}]: it yields the credentials or the
    value thrown by any of the three. *)
Class Backend (World : Type) := {
  getSecretValue : string -> World -> Thrown + DbCredentials;
  listSecretVersionIds :
    string -> World -> Thrown + option (list SecretVersionsListEntry);
  connect : PgClient -> World -> option Thrown * World;
  query : PgClient -> string -> World -> option Thrown * World;
  endClient : PgClient -> World -> option Thrown * World
}.

(** A call to the outside, recorded with the value it threw, if any. *)
Inductive IO :=
| GetSecretValue (arn : string)
| ListSecretVersionIds (arn : string)
| Connect (c : PgClient)
| Query (c : PgClient) (sql : string)
| End (c : PgClient).

Definition Trace := list (IO * option Thrown).

(** The SQL statements of a trace, in order, with the client they were sent on. *)
Fixpoint queries_of (t : Trace) : list (PgClient * string) :=
  match t with
  | [] => []
  | (Query c sql, _) :: t' => (c, sql) :: queries_of t'
  | _ :: t' => queries_of t'
  end.

(** The connections opened in a trace. *)
Fixpoint connects_of (t : Trace) : list PgClient :=
  match t with
  | [] => []
  | (Connect c, _) :: t' => c :: connects_of t'
  | _ :: t' => connects_of t'
  end.

(** The values thrown by the outside in a trace. *)
Fixpoint raised (t : Trace) : list Thrown :=
  match t with
  | [] => []
  | (_, Some e) :: t' => e :: raised t'
  | (_, None) :: t' => raised t'
  end.

(** ** The lazily connected client manager *)

Module Lazy.
Record Props := {
  dbSecretArn : string;
  dbClusterHostname : string;
  dbClusterPort : N;
  databaseName : string
}.

(** An object of class [LazyPostgresClientFromSecretsManager]. *)
Record t := {
  props : Props;
  client : option PgClient;
  credentials : option DbCredentials
}.

Definition set_client (c : PgClient) (o : t) : t :=
  {| props := props o; client := Some c; credentials := credentials o |}.

Definition set_credentials (d : DbCredentials) (o : t) : t :=
  {| props := props o; client := client o; credentials := Some d |}.

(** [new pg.Client({host, port, user, password, ssl, database})] built by
    the manager at heap index [this]. *)
Definition newClient (this : nat) (p : Props) (creds : DbCredentials) : PgClient :=
  {| owner := this;
     config := {| host := dbClusterHostname p;
                  port := dbClusterPort p;
                  user := username creds;
                  cfg_password := password creds;
                  database := databaseName p |} |}.
End Lazy.

(** ** The monad of an invocation *)

Inductive Outcome (A : Type) :=
| Resolved (a : A)
| Rejected (e : Thrown).
Arguments Resolved {A} a.
Arguments Rejected {A} e.

Section Invocation.
Context {World : Type} {B : Backend World}.

Record State := {
  world : World;
  heap : list Lazy.t;
  trace : Trace
}.

Definition M (A : Type) := State -> Outcome A * State.

Definition ret {A} (a : A) : M A := fun s => (Resolved a, s).

Definition bind {A C} (m : M A) (k : A -> M C) : M C :=
  fun s => match m s with
           | (Resolved a, s') => k a s'
           | (Rejected e, s') => (Rejected e, s')
           end.

Definition throw {A} (e : Thrown) : M A := fun s => (Rejected e, s).

(** [try { m } catch (e) { h e }] *)
Definition try_catch {A} (m : M A) (h : Thrown -> M A) : M A :=
  fun s => match m s with
           | (Resolved a, s') => (Resolved a, s')
           | (Rejected e, s') => h e s'
           end.

Definition record (io : IO) (r : option Thrown) (w : World) (s : State) : State :=
  {| world := w; heap := heap s; trace := trace s ++ [(io, r)] |}.

(** A call that may change the world and may throw. *)
Definition call (io : IO) (f : World -> option Thrown * World) : M unit :=
  fun s => let (r, w) := f (world s) in
           match r with
           | None => (Resolved tt, record io None w s)
           | Some e => (Rejected e, record io (Some e) w s)
           end.

(** A call that reads the world and yields a value or throws. *)
Definition ask {A} (io : IO) (f : World -> Thrown + A) : M A :=
  fun s => match f (world s) with
           | inr a => (Resolved a, record io None (world s) s)
           | inl e => (Rejected e, record io (Some e) (world s) s)
           end.

(** Running an invocation from a world: fresh heap, empty trace. *)
Definition run {A} (m : M A) (w : World) : Outcome A * World * Trace :=
  let (o, s) := m {| world := w; heap := []; trace := [] |} in
  (o, world s, trace s).
End Invocation.
Arguments State World : clear implicits.
Arguments M World A : clear implicits.

Declare Scope js_scope.
Delimit Scope js_scope with js.
Notation "x <- m ;; k" := (bind m (fun x => k))
  (at level 61, m at next level, right associativity) : js_scope.
Notation "m ;;; k" := (bind m (fun _ => k))
  (at level 61, right associativity) : js_scope.
Open Scope js_scope.

(** ** Methods of [LazyPostgresClientFromSecretsManager] *)

Fixpoint update_nth {A} (n : nat) (f : A -> A) (l : list A) : list A :=
  match l, n with
  | [], _ => []
  | x :: l', O => f x :: l'
  | x :: l', S n' => x :: update_nth n' f l'
  end.

Section LazyMethods.
Context {World : Type} {B : Backend World}.

(** [new LazyPostgresClientFromSecretsManager(props)]: a reference to a
    fresh object with neither client nor credentials. *)
Definition new (p : Lazy.Props) : M World nat :=
  fun s =>
    (Resolved (length (heap s)),
     {| world := world s;
        heap := heap s ++ [ {| Lazy.props := p;
                               Lazy.client := None;
                               Lazy.credentials := None |} ];
        trace := trace s |}).

Definition deref (this : nat) : M World Lazy.t :=
  fun s => match nth_error (heap s) this with
           | Some o => (Resolved o, s)
           | None => (Rejected (Error "no such object"), s)
           end.

Definition assign (this : nat) (f : Lazy.t -> Lazy.t) : M World unit :=
  fun s => (Resolved tt,
            {| world := world s;
               heap := update_nth this f (heap s);
               trace := trace s |}).

Definition getCredentials (this : nat) : M World DbCredentials :=
  o <- deref this ;;
  match Lazy.credentials o with
  | Some c => ret c
  | None =>
      let arn := Lazy.dbSecretArn (Lazy.props o) in
      c <- ask (GetSecretValue arn) (getSecretValue arn) ;;
      assign this (Lazy.set_credentials c) ;;;
      ret c
  end.

Definition getClient (this : nat) : M World PgClient :=
  o <- deref this ;;
  match Lazy.client o with
  | Some c => ret c
  | None =>
      creds <- match Lazy.credentials o with
               | Some d => ret d
               | None =>
                   d <- getCredentials this ;;
                   assign this (Lazy.set_credentials d) ;;;
                   ret d
               end ;;
      let c := Lazy.newClient this (Lazy.props o) creds in
      assign this (Lazy.set_client c) ;;;
      call (Connect c) (connect c) ;;;
      ret c
  end.

(** [end()] of the manager: closes the client if one was built. *)
Definition end_ (this : nat) : M World unit :=
  o <- deref this ;;
  match Lazy.client o with
  | Some c => call (End c) (endClient c)
  | None => ret tt
  end.

(** [client.query(sql)] and [client.end()] on a [pg.Client]. *)
Definition client_query (c : PgClient) (sql : string) : M World unit :=
  call (Query c sql) (query c sql).

Definition client_end (c : PgClient) : M World unit :=
  call (End c) (endClient c).
End LazyMethods.

(** ** Events *)

Module OnDelete.
Inductive t := Delete | Retain.
End OnDelete.

Module OnCreateIfExists.
Inductive t := Fail | Adopt | DeleteAndRecreate.

(** [===] on the three policy strings. *)
Definition eqb (a b : t) : bool :=
  match a, b with
  | Fail, Fail | Adopt, Adopt | DeleteAndRecreate, DeleteAndRecreate => true
  | _, _ => false
  end.
End OnCreateIfExists.

Module IfDoesNotExist.
Inductive t := Ignore | Create.
End IfDoesNotExist.

Module OnUpdateSet.
Inductive t := Always | Never.
End OnUpdateSet.

(** [z.infer<typeof customResourcePropertiesSchema>]; the port is the number
    the schema's [transform(Number)] yields. *)
Record CustomResourceProperties := {
  dbClusterHostname : string;
  dbClusterPort : N;
  dbSecretArn : string;
  userSecretArn : string;
  databaseName : string;
  onDelete : OnDelete.t;
  onCreateIfExists : OnCreateIfExists.t;
  onUpdateIfUserDoesNotExist : IfDoesNotExist.t;
  onUpdateIfDatabaseDoesNotExist : IfDoesNotExist.t;
  onUpdateSetUserPassword : OnUpdateSet.t;
  onUpdateSetUserPermissions : OnUpdateSet.t;
  onUpdateSetDatabaseOwnership : OnUpdateSet.t
}.

Module CreateEvent.
Record t := { ResourceProperties : CustomResourceProperties }.
End CreateEvent.

Module UpdateEvent.
Record t := {
  PhysicalResourceId : string;
  ResourceProperties : CustomResourceProperties
}.
End UpdateEvent.

Module DeleteEvent.
Record t := {
  PhysicalResourceId : string;
  ResourceProperties : CustomResourceProperties
}.
End DeleteEvent.

Inductive Event :=
| Create (e : CreateEvent.t)
| Update (e : UpdateEvent.t)
| Delete (e : DeleteEvent.t).

Record Response := { PhysicalResourceId : string }.

(** ** SQL text, as the template literals build it *)

Module Sql.
Definition createUser (c : DbCredentials) : string :=
  ("CREATE USER " ++ username c ++ " WITH PASSWORD '" ++ password c
     ++ "' CREATEDB LOGIN;")%string.
Definition alterUserPassword (c : DbCredentials) : string :=
  ("ALTER USER " ++ username c ++ " WITH PASSWORD '" ++ password c ++ "';")%string.
Definition alterUserPermissions (c : DbCredentials) : string :=
  ("ALTER USER " ++ username c ++ " WITH CREATEDB LOGIN;")%string.
Definition dropUser (c : DbCredentials) : string :=
  ("DROP USER " ++ username c ++ ";")%string.
Definition dropUserIfExists (c : DbCredentials) : string :=
  ("DROP USER IF EXISTS " ++ username c ++ ";")%string.
Definition createDatabase (db : string) : string :=
  ("CREATE DATABASE " ++ db ++ ";")%string.
Definition alterDatabaseOwner (db : string) (c : DbCredentials) : string :=
  ("ALTER DATABASE " ++ db ++ " OWNER TO " ++ username c ++ ";")%string.
Definition dropDatabase (db : string) : string :=
  ("DROP DATABASE " ++ db ++ ";")%string.
Definition dropDatabaseIfExists (db : string) : string :=
  ("DROP DATABASE IF EXISTS " ++ db ++ ";")%string.
End Sql.

(** [[host, databaseName, username].join('/')] *)
Definition physicalResourceId (rp : CustomResourceProperties) (c : DbCredentials) : string :=
  String.concat "/" [dbClusterHostname rp; databaseName rp; username c].

Definition collisionError : Thrown :=
  Error "Cannot create user with same name as the admin user".

Definition identityError : Thrown :=
  Error "Cannot change database name or username".

Definition adminProps (rp : CustomResourceProperties) : Lazy.Props :=
  {| Lazy.dbSecretArn := dbSecretArn rp;
     Lazy.dbClusterHostname := dbClusterHostname rp;
     Lazy.dbClusterPort := dbClusterPort rp;
     Lazy.databaseName := "postgres" |}.

Definition userProps (rp : CustomResourceProperties) : Lazy.Props :=
  {| Lazy.dbSecretArn := userSecretArn rp;
     Lazy.dbClusterHostname := dbClusterHostname rp;
     Lazy.dbClusterPort := dbClusterPort rp;
     Lazy.databaseName := databaseName rp |}.

(** ** The handlers of [src/handler/main.ts] *)

Section Handlers.
Context {World : Type} {B : Backend World}.

Import OnCreateIfExists IfDoesNotExist OnUpdateSet.

(** The [try]/[catch] around [CREATE USER] in [handleCreate]. *)
Definition createUserStep (policy : OnCreateIfExists.t) (adminClient : PgClient)
    (userCredentials : DbCredentials) : M World unit :=
  let createUserQuery := Sql.createUser userCredentials in
  try_catch (client_query adminClient createUserQuery)
    (fun e =>
       if negb (isPostgresError e) then throw e
       else if OnCreateIfExists.eqb policy Adopt
               && code_is e PostgresErrorCodes.DUPLICATE_OBJECT
       then
         client_query adminClient (Sql.alterUserPassword userCredentials) ;;;
         client_query adminClient (Sql.alterUserPermissions userCredentials)
       else if OnCreateIfExists.eqb policy DeleteAndRecreate
               && code_is e PostgresErrorCodes.DUPLICATE_OBJECT
       then
         client_query adminClient (Sql.dropUser userCredentials) ;;;
         client_query adminClient createUserQuery
       else throw e).

(** The [try]/[catch] around [CREATE DATABASE] in [handleCreate]. *)
Definition createDatabaseStep (policy : OnCreateIfExists.t)
    (adminClient userClient : PgClient) (db : string)
    (userCredentials : DbCredentials) : M World unit :=
  let createDatabaseQuery := Sql.createDatabase db in
  try_catch (client_query userClient createDatabaseQuery)
    (fun e =>
       if negb (isPostgresError e) then throw e
       else if OnCreateIfExists.eqb policy Adopt
               && code_is e PostgresErrorCodes.DUPLICATE_DATABASE
       then
         client_query adminClient (Sql.alterDatabaseOwner db userCredentials)
       else if OnCreateIfExists.eqb policy DeleteAndRecreate
       then
         if code_is e PostgresErrorCodes.DUPLICATE_DATABASE
         then client_query adminClient (Sql.dropDatabase db) ;;;
              client_query userClient createDatabaseQuery
         else ret tt
       else throw e).

Definition handleCreate (event : CreateEvent.t) : M World Response :=
  let rp := CreateEvent.ResourceProperties event in
  adminClientManager <- new (adminProps rp) ;;
  userClientManager <- new (userProps rp) ;;
  userCredentials <- getCredentials userClientManager ;;
  adminCredentials <- getCredentials adminClientManager ;;
  if String.eqb (username userCredentials) (username adminCredentials)
  then throw collisionError
  else
    adminClient <- getClient adminClientManager ;;
    createUserStep (onCreateIfExists rp) adminClient userCredentials ;;;
    userClient <- getClient userClientManager ;;
    createDatabaseStep (onCreateIfExists rp) adminClient userClient
      (databaseName rp) userCredentials ;;;
    client_end adminClient ;;;
    client_end userClient ;;;
    ret {| PhysicalResourceId := physicalResourceId rp userCredentials |}.

(** The five policy-guarded blocks of [handleUpdate], in source order. *)
Definition updateUserExists (rp : CustomResourceProperties)
    (adminClient : nat) (userCredentials : DbCredentials) : M World unit :=
  match onUpdateIfUserDoesNotExist rp with
  | Create =>
      try_catch
        (client <- getClient adminClient ;;
         client_query client (Sql.createUser userCredentials))
        (fun e =>
           if negb (isPostgresError e) then throw e
           else if negb (code_is e PostgresErrorCodes.DUPLICATE_OBJECT) then throw e
           else ret tt)
  | Ignore => ret tt
  end.

Definition updateUserPassword (rp : CustomResourceProperties)
    (adminClient : nat) (userCredentials : DbCredentials) : M World unit :=
  match onUpdateSetUserPassword rp with
  | Always =>
      client <- getClient adminClient ;;
      client_query client (Sql.alterUserPassword userCredentials)
  | Never => ret tt
  end.

Definition updateUserPermissions (rp : CustomResourceProperties)
    (adminClient : nat) (userCredentials : DbCredentials) : M World unit :=
  match onUpdateSetUserPermissions rp with
  | Always =>
      client <- getClient adminClient ;;
      client_query client (Sql.alterUserPermissions userCredentials)
  | Never => ret tt
  end.

Definition updateDatabaseExists (rp : CustomResourceProperties)
    (userClient : nat) : M World unit :=
  match onUpdateIfDatabaseDoesNotExist rp with
  | Create =>
      try_catch
        (client <- getClient userClient ;;
         client_query client (Sql.createDatabase (databaseName rp)))
        (fun e =>
           if negb (isPostgresError e) then throw e
           else if negb (code_is e PostgresErrorCodes.DUPLICATE_DATABASE) then throw e
           else ret tt)
  | Ignore => ret tt
  end.

Definition updateDatabaseOwnership (rp : CustomResourceProperties)
    (adminClient : nat) (userCredentials : DbCredentials) : M World unit :=
  match onUpdateSetDatabaseOwnership rp with
  | Always =>
      client <- getClient adminClient ;;
      client_query client (Sql.alterDatabaseOwner (databaseName rp) userCredentials)
  | Never => ret tt
  end.

Definition handleUpdate (event : UpdateEvent.t) : M World Response :=
  let rp := UpdateEvent.ResourceProperties event in
  userClient <- new (userProps rp) ;;
  userCredentials <- getCredentials userClient ;;
  if negb (String.eqb (UpdateEvent.PhysicalResourceId event)
             (physicalResourceId rp userCredentials))
  then throw identityError
  else
    adminClient <- new (adminProps rp) ;;
    updateUserExists rp adminClient userCredentials ;;;
    updateUserPassword rp adminClient userCredentials ;;;
    updateUserPermissions rp adminClient userCredentials ;;;
    updateDatabaseExists rp userClient ;;;
    updateDatabaseOwnership rp adminClient userCredentials ;;;
    end_ adminClient ;;;
    end_ userClient ;;;
    ret {| PhysicalResourceId := UpdateEvent.PhysicalResourceId event |}.

Definition handleDelete (event : DeleteEvent.t) : M World Response :=
  let rp := DeleteEvent.ResourceProperties event in
  match onDelete rp with
  | OnDelete.Retain =>
      ret {| PhysicalResourceId := DeleteEvent.PhysicalResourceId event |}
  | OnDelete.Delete =>
      adminClientManager <- new (adminProps rp) ;;
      userClientManager <- new (userProps rp) ;;
      userCredentials <- getCredentials userClientManager ;;
      adminCredentials <- getCredentials adminClientManager ;;
      if String.eqb (username userCredentials) (username adminCredentials)
      then throw collisionError
      else
        adminClient <- getClient adminClientManager ;;
        client_query adminClient (Sql.dropDatabaseIfExists (databaseName rp)) ;;;
        client_query adminClient (Sql.dropUserIfExists userCredentials) ;;;
        client_end adminClient ;;;
        ret {| PhysicalResourceId := DeleteEvent.PhysicalResourceId event |}
  end.
End Handlers.

(** ** Decoding the event *)

(** The [unknown] value a Lambda receives: a JSON value, of which the schemas
    only tell strings and objects from the rest.  An object is its list of
    fields, the first binding of a key being the one a lookup finds. *)
#[local] Unset Elimination Schemes.
Inductive Json :=
| JString (s : string)
| JObject (fields : list (string * Json))
| JOther.
#[local] Set Elimination Schemes.

Fixpoint lookup (k : string) (fields : list (string * Json)) : option Json :=
  match fields with
  | [] => None
  | (k', v) :: rest => if String.eqb k k' then Some v else lookup k rest
  end.

(** [obj[k]] for a value that should be an object. *)
Definition field (k : string) (j : Json) : option Json :=
  match j with
  | JObject fields => lookup k fields
  | _ => None
  end.

(** The error zod's [parse] throws: an [Error] without a [code]. *)
Definition ZodError : Thrown := Error "ZodError".

Module Zod.
(** [z.string()] on a field that may be absent. *)
Definition string_ (j : option Json) : option string :=
  match j with
  | Some (JString s) => Some s
  | _ => None
  end.

(** [z.enum([...])]: the string must be one of the listed values. *)
Fixpoint enum {A} (values : list (string * A)) (j : option Json) : option A :=
  match values with
  | [] => None
  | (name, a) :: rest =>
      match string_ j with
      | Some s => if String.eqb s name then Some a else enum rest j
      | None => None
      end
  end.

Definition is_digit (c : ascii) : bool :=
  let n := N_of_ascii c in (N.leb 48 n && N.leb n 57)%bool.

Fixpoint digits (acc : N) (s : string) : option N :=
  match s with
  | EmptyString => Some acc
  | String c s' =>
      if is_digit c then digits (acc * 10 + (N_of_ascii c - 48)) s' else None
  end.

(** [z.string().regex(/^\d+$/).transform(Number)]: a non-empty string of
    decimal digits, read as a number. *)
Definition digit_string (j : option Json) : option N :=
  match string_ j with
  | Some EmptyString => None
  | Some s => digits 0 s
  | None => None
  end.
End Zod.

Definition customResourcePropertiesSchema (j : option Json)
  : option CustomResourceProperties :=
  match j with
  | Some (JObject f) =>
      match Zod.string_ (lookup "dbClusterHostname" f),
            Zod.digit_string (lookup "dbClusterPort" f),
            Zod.string_ (lookup "dbSecretArn" f),
            Zod.string_ (lookup "userSecretArn" f),
            Zod.string_ (lookup "databaseName" f),
            Zod.enum [("Delete", OnDelete.Delete); ("Retain", OnDelete.Retain)]
              (lookup "onDelete" f),
            Zod.enum [("Fail", OnCreateIfExists.Fail); ("Adopt", OnCreateIfExists.Adopt);
                      ("DeleteAndRecreate", OnCreateIfExists.DeleteAndRecreate)]
              (lookup "onCreateIfExists" f),
            Zod.enum [("Ignore", IfDoesNotExist.Ignore); ("Create", IfDoesNotExist.Create)]
              (lookup "onUpdateIfUserDoesNotExist" f),
            Zod.enum [("Ignore", IfDoesNotExist.Ignore); ("Create", IfDoesNotExist.Create)]
              (lookup "onUpdateIfDatabaseDoesNotExist" f),
            Zod.enum [("Always", OnUpdateSet.Always); ("Never", OnUpdateSet.Never)]
              (lookup "onUpdateSetUserPassword" f),
            Zod.enum [("Always", OnUpdateSet.Always); ("Never", OnUpdateSet.Never)]
              (lookup "onUpdateSetUserPermissions" f),
            Zod.enum [("Always", OnUpdateSet.Always); ("Never", OnUpdateSet.Never)]
              (lookup "onUpdateSetDatabaseOwnership" f)
      with
      | Some h, Some p, Some a, Some u, Some d,
        Some od, Some oc, Some ou, Some odb, Some pw, Some pm, Some ow =>
          Some {| dbClusterHostname := h; dbClusterPort := p; dbSecretArn := a;
                  userSecretArn := u; databaseName := d; onDelete := od;
                  onCreateIfExists := oc; onUpdateIfUserDoesNotExist := ou;
                  onUpdateIfDatabaseDoesNotExist := odb;
                  onUpdateSetUserPassword := pw; onUpdateSetUserPermissions := pm;
                  onUpdateSetDatabaseOwnership := ow |}
      | _, _, _, _, _, _, _, _, _, _, _, _ => None
      end
  | _ => None
  end.

Inductive RequestType := RCreate | RUpdate | RDelete.

Definition decodeEvent (event : Json) : Thrown + Event :=
  match event with
  | JObject _ =>
      match Zod.enum [("Create", RCreate); ("Update", RUpdate); ("Delete", RDelete)]
              (field "RequestType" event) with
      | None => inl ZodError
      | Some RCreate =>
          match customResourcePropertiesSchema (field "ResourceProperties" event) with
          | Some rp => inr (Create {| CreateEvent.ResourceProperties := rp |})
          | None => inl ZodError
          end
      | Some RUpdate =>
          match Zod.string_ (field "PhysicalResourceId" event),
                customResourcePropertiesSchema (field "ResourceProperties" event) with
          | Some id, Some rp =>
              inr (Update {| UpdateEvent.PhysicalResourceId := id;
                             UpdateEvent.ResourceProperties := rp |})
          | _, _ => inl ZodError
          end
      | Some RDelete =>
          match Zod.string_ (field "PhysicalResourceId" event),
                customResourcePropertiesSchema (field "ResourceProperties" event) with
          | Some id, Some rp =>
              inr (Delete {| DeleteEvent.PhysicalResourceId := id;
                             DeleteEvent.ResourceProperties := rp |})
          | _, _ => inl ZodError
          end
      end
  | _ => inl ZodError
  end.

Section Handler.
Context {World : Type} {B : Backend World}.

Definition handler (event : Json) : M World Response :=
  match decodeEvent event with
  | inl e => throw e
  | inr (Create e) => handleCreate e
  | inr (Update e) => handleUpdate e
  | inr (Delete e) => handleDelete e
  end.
End Handler.

(** ** A scripted backend

    A test double for the outside world: a fixed secret store, and a script of
    the answers the database gives, one per [connect], [query] or [end] call
    in the order the calls are made.  When the script runs out every call
    succeeds. *)

Module Mock.
Record World := {
  secrets : list (string * DbCredentials);
  versions : list (string * option (list SecretVersionsListEntry));
  script : list (option Thrown)
}.

Fixpoint assoc {A} (k : string) (l : list (string * A)) : option A :=
  match l with
  | [] => None
  | (k', v) :: rest => if String.eqb k k' then Some v else assoc k rest
  end.

(** What the AWS SDK throws for an unknown secret. *)
Definition ResourceNotFoundException : Thrown :=
  mkThrown true true true NoCode "ResourceNotFoundException".

Definition answer (w : World) : option Thrown * World :=
  match script w with
  | [] => (None, w)
  | r :: rest =>
      (r, {| secrets := secrets w; versions := versions w; script := rest |})
  end.

#[export] Instance backend : Backend World := {|
  getSecretValue arn w :=
    match assoc arn (secrets w) with
    | Some c => inr c
    | None => inl ResourceNotFoundException
    end;
  listSecretVersionIds arn w :=
    match assoc arn (versions w) with
    | Some v => inr v
    | None => inl ResourceNotFoundException
    end;
  connect _ w := answer w;
  query _ _ w := answer w;
  endClient _ w := answer w
|}.
End Mock.

(** ** Example events *)

Module Examples.
Definition svc : DbCredentials := {| username := "svc"; password := "s3cret" |}.
Definition root : DbCredentials := {| username := "root"; password := "hunter2" |}.

Definition rp : CustomResourceProperties :=
  {| dbClusterHostname := "db.local";
     dbClusterPort := 5432;
     dbSecretArn := "arn:admin";
     userSecretArn := "arn:user";
     databaseName := "app";
     onDelete := OnDelete.Delete;
     onCreateIfExists := OnCreateIfExists.Fail;
     onUpdateIfUserDoesNotExist := IfDoesNotExist.Ignore;
     onUpdateIfDatabaseDoesNotExist := IfDoesNotExist.Ignore;
     onUpdateSetUserPassword := OnUpdateSet.Never;
     onUpdateSetUserPermissions := OnUpdateSet.Never;
     onUpdateSetDatabaseOwnership := OnUpdateSet.Never |}.

Definition with_onDelete (p : OnDelete.t) (r : CustomResourceProperties) :=
  {| dbClusterHostname := dbClusterHostname r;
     dbClusterPort := dbClusterPort r;
     dbSecretArn := dbSecretArn r;
     userSecretArn := userSecretArn r;
     databaseName := databaseName r;
     onDelete := p;
     onCreateIfExists := onCreateIfExists r;
     onUpdateIfUserDoesNotExist := onUpdateIfUserDoesNotExist r;
     onUpdateIfDatabaseDoesNotExist := onUpdateIfDatabaseDoesNotExist r;
     onUpdateSetUserPassword := onUpdateSetUserPassword r;
     onUpdateSetUserPermissions := onUpdateSetUserPermissions r;
     onUpdateSetDatabaseOwnership := onUpdateSetDatabaseOwnership r |}.

Definition with_onCreateIfExists (p : OnCreateIfExists.t) (r : CustomResourceProperties) :=
  {| dbClusterHostname := dbClusterHostname r;
     dbClusterPort := dbClusterPort r;
     dbSecretArn := dbSecretArn r;
     userSecretArn := userSecretArn r;
     databaseName := databaseName r;
     onDelete := onDelete r;
     onCreateIfExists := p;
     onUpdateIfUserDoesNotExist := onUpdateIfUserDoesNotExist r;
     onUpdateIfDatabaseDoesNotExist := onUpdateIfDatabaseDoesNotExist r;
     onUpdateSetUserPassword := onUpdateSetUserPassword r;
     onUpdateSetUserPermissions := onUpdateSetUserPermissions r;
     onUpdateSetDatabaseOwnership := onUpdateSetDatabaseOwnership r |}.

Definition with_password_always (r : CustomResourceProperties) :=
  {| dbClusterHostname := dbClusterHostname r;
     dbClusterPort := dbClusterPort r;
     dbSecretArn := dbSecretArn r;
     userSecretArn := userSecretArn r;
     databaseName := databaseName r;
     onDelete := onDelete r;
     onCreateIfExists := onCreateIfExists r;
     onUpdateIfUserDoesNotExist := onUpdateIfUserDoesNotExist r;
     onUpdateIfDatabaseDoesNotExist := onUpdateIfDatabaseDoesNotExist r;
     onUpdateSetUserPassword := OnUpdateSet.Always;
     onUpdateSetUserPermissions := onUpdateSetUserPermissions r;
     onUpdateSetDatabaseOwnership := onUpdateSetDatabaseOwnership r |}.

(** Both secrets name the same user. *)
Definition colliding : Mock.World :=
  {| Mock.secrets := [("arn:admin", svc); ("arn:user", svc)];
     Mock.versions := [];
     Mock.script := [] |}.

(** Secrets for distinct admin and user names, and a database that gives the
    listed answers. *)
Definition scripted (answers : list (option Thrown)) : Mock.World :=
  {| Mock.secrets := [("arn:admin", root); ("arn:user", svc)];
     Mock.versions := [];
     Mock.script := answers |}.

Definition adminClient : PgClient :=
  {| owner := 0;
     config := {| host := "db.local"; port := 5432; user := "root";
                  cfg_password := "hunter2"; database := "postgres" |} |}.

Definition userClient : PgClient :=
  {| owner := 1;
     config := {| host := "db.local"; port := 5432; user := "svc";
                  cfg_password := "s3cret"; database := "app" |} |}.

(** Every update policy switched on. *)
Definition rp_all : CustomResourceProperties :=
  {| dbClusterHostname := "db.local";
     dbClusterPort := 5432;
     dbSecretArn := "arn:admin";
     userSecretArn := "arn:user";
     databaseName := "app";
     onDelete := OnDelete.Delete;
     onCreateIfExists := OnCreateIfExists.Fail;
     onUpdateIfUserDoesNotExist := IfDoesNotExist.Create;
     onUpdateIfDatabaseDoesNotExist := IfDoesNotExist.Create;
     onUpdateSetUserPassword := OnUpdateSet.Always;
     onUpdateSetUserPermissions := OnUpdateSet.Always;
     onUpdateSetDatabaseOwnership := OnUpdateSet.Always |}.

Definition create (p : OnCreateIfExists.t) : CreateEvent.t :=
  {| CreateEvent.ResourceProperties := with_onCreateIfExists p rp |}.

Definition update_stale : UpdateEvent.t :=
  {| UpdateEvent.PhysicalResourceId := "stale";
     UpdateEvent.ResourceProperties := rp |}.

Definition update_password : UpdateEvent.t :=
  {| UpdateEvent.PhysicalResourceId := "db.local/app/svc";
     UpdateEvent.ResourceProperties := with_password_always rp |}.

Definition update_all : UpdateEvent.t :=
  {| UpdateEvent.PhysicalResourceId := "db.local/app/svc";
     UpdateEvent.ResourceProperties := rp_all |}.

Definition delete_app : DeleteEvent.t :=
  {| DeleteEvent.PhysicalResourceId := "db.local/app/svc";
     DeleteEvent.ResourceProperties := rp |}.

Definition delete_stale : DeleteEvent.t :=
  {| DeleteEvent.PhysicalResourceId := "stale";
     DeleteEvent.ResourceProperties := rp |}.

Definition delete_retain : DeleteEvent.t :=
  {| DeleteEvent.PhysicalResourceId := "db.local/app/svc";
     DeleteEvent.ResourceProperties := with_onDelete OnDelete.Retain rp |}.

Definition permission_denied : Thrown := DatabaseError "42501" "permission denied".
Definition role_exists : Thrown := DatabaseError "42710" "role already exists".

(** Events of the secret-version handler, and a secret with two versions. *)
Definition version_update : Json :=
  JObject [("RequestType", JString "Update");
           ("PhysicalResourceId", JString "arn:user");
           ("ResourceProperties",
            JObject [("secretArn", JString "arn:user");
                     ("datetime", JString "2024-02-28T00:00:00.000Z")])].

Definition rotated : Mock.World :=
  {| Mock.secrets := [];
     Mock.versions :=
       [("arn:user",
         Some [ {| VersionId := Some "v1"; VersionStages := Some ["AWSPREVIOUS"] |};
                {| VersionId := Some "v2"; VersionStages := Some ["AWSCURRENT"] |} ])];
     Mock.script := [] |}.
End Examples.

(** ** The secret-version handler of [src/latest_secret_version_handler/main.ts] *)

Module LatestSecretVersion.
Record ResourceProperties := { secretArn : string; datetime : string }.

(** The three event types.  [RequestType] is a literal in each and carries
    no information.  An object typed [OnCreateEvent] may hold a
    [PhysicalResourceId] besides: the one [onUpdate] builds by spreading an
    Update event does. *)
Module OnCreateEvent.
Record t := {
  ResourceProperties : ResourceProperties;
  PhysicalResourceId : option string
}.
End OnCreateEvent.

Module OnUpdateEvent.
Record t := {
  ResourceProperties : ResourceProperties;
  PhysicalResourceId : string
}.
End OnUpdateEvent.

Module OnDeleteEvent.
Record t := {
  ResourceProperties : ResourceProperties;
  PhysicalResourceId : string
}.
End OnDeleteEvent.

Record Data := { LatestVersionId : string }.
Record Response := { PhysicalResourceId : string; Data_ : Data }.

Definition resourcePropertiesSchema (j : option Json) : option ResourceProperties :=
  match j with
  | Some (JObject f) =>
      match Zod.string_ (lookup "secretArn" f), Zod.string_ (lookup "datetime" f) with
      | Some a, Some d => Some {| secretArn := a; datetime := d |}
      | _, _ => None
      end
  | _ => None
  end.

(** [z.literal(v)] *)
Definition literal (v : string) (j : option Json) : bool :=
  match Zod.string_ j with
  | Some s => String.eqb s v
  | None => false
  end.

(** [onCreateSchema.safeParse]: the parsed object keeps the schema's keys only. *)
Definition onCreateSchema (event : Json) : option OnCreateEvent.t :=
  match event with
  | JObject _ =>
      match resourcePropertiesSchema (field "ResourceProperties" event),
            literal "Create" (field "RequestType" event) with
      | Some rp, true =>
          Some {| OnCreateEvent.ResourceProperties := rp;
                  OnCreateEvent.PhysicalResourceId := None |}
      | _, _ => None
      end
  | _ => None
  end.

Definition onUpdateSchema (event : Json) : option OnUpdateEvent.t :=
  match event with
  | JObject _ =>
      match resourcePropertiesSchema (field "ResourceProperties" event),
            literal "Update" (field "RequestType" event),
            Zod.string_ (field "PhysicalResourceId" event) with
      | Some rp, true, Some id =>
          Some {| OnUpdateEvent.ResourceProperties := rp;
                  OnUpdateEvent.PhysicalResourceId := id |}
      | _, _, _ => None
      end
  | _ => None
  end.

Definition onDeleteSchema (event : Json) : option OnDeleteEvent.t :=
  match event with
  | JObject _ =>
      match resourcePropertiesSchema (field "ResourceProperties" event),
            literal "Delete" (field "RequestType" event),
            Zod.string_ (field "PhysicalResourceId" event) with
      | Some rp, true, Some id =>
          Some {| OnDeleteEvent.ResourceProperties := rp;
                  OnDeleteEvent.PhysicalResourceId := id |}
      | _, _, _ => None
      end
  | _ => None
  end.

(** [version.VersionStages?.includes('AWSCURRENT')] *)
Definition isCurrent (version : SecretVersionsListEntry) : bool :=
  match VersionStages version with
  | Some stages => existsb (String.eqb "AWSCURRENT") stages
  | None => false
  end.

(** [response.Versions?.find(isCurrent)?.VersionId] *)
Definition latestVersionIdOf (versions : option (list SecretVersionsListEntry))
  : option string :=
  match versions with
  | Some vs =>
      match find isCurrent vs with
      | Some v => VersionId v
      | None => None
      end
  | None => None
  end.

(** [{...event, RequestType: 'Create'}] *)
Definition asCreate (event : OnUpdateEvent.t) : OnCreateEvent.t :=
  {| OnCreateEvent.ResourceProperties := OnUpdateEvent.ResourceProperties event;
     OnCreateEvent.PhysicalResourceId := Some (OnUpdateEvent.PhysicalResourceId event) |}.

(** The same on the raw event. *)
Definition withRequestTypeCreate (event : Json) : Json :=
  match event with
  | JObject f => JObject (("RequestType", JString "Create") :: f)
  | _ => JObject [("RequestType", JString "Create")]
  end.

Section Handlers.
Context {World : Type} {B : Backend World}.

Definition onCreate (event : OnCreateEvent.t) : M World Response :=
  let secretArn := secretArn (OnCreateEvent.ResourceProperties event) in
  versions <- ask (ListSecretVersionIds secretArn) (listSecretVersionIds secretArn) ;;
  match latestVersionIdOf versions with
  | None | Some EmptyString =>
      throw (Error ("No latest version found for secret " ++ secretArn)%string)
  | Some latestVersionId =>
      ret {| PhysicalResourceId := secretArn;
             Data_ := {| LatestVersionId := latestVersionId |} |}
  end.

Definition onUpdate (event : OnUpdateEvent.t) : M World Response :=
  onCreate (asCreate event).

Definition onDelete (event : OnDeleteEvent.t) : M World Response :=
  ret {| PhysicalResourceId := secretArn (OnDeleteEvent.ResourceProperties event);
         Data_ := {| LatestVersionId := OnDeleteEvent.PhysicalResourceId event |} |}.

Definition handler (event : Json) : M World Response :=
  match onCreateSchema event with
  | Some e => onCreate e
  | None =>
      match onUpdateSchema event with
      | Some e => onUpdate e
      | None =>
          match onDeleteSchema event with
          | Some e => onDelete e
          | None => throw (Error "Unexpected event type")
          end
      end
  end.
End Handlers.
End LatestSecretVersion.

(** ** The custom-resource properties the construct sends

    [PostgresUserAndDatabase] (the TypeScript listed after the change log in
    [src/CHANGELOG.md]) passes a [properties] object to the custom resource.
    The cluster endpoint and the secret ARNs are deploy-time values and are
    taken here as CloudFormation delivers them to the handler, as strings. *)

Module Construct.
Record PostgresUserAndDatabaseProps := {
  databaseName : string;
  onCreateIfExists : option OnCreateIfExists.t;
  onDelete : option OnDelete.t;
  onUpdateIfUserDoesNotExist : option IfDoesNotExist.t;
  onUpdateIfDatabaseDoesNotExist : option IfDoesNotExist.t;
  onUpdateSetUserPassword : option OnUpdateSet.t;
  onUpdateSetUserPermissions : option OnUpdateSet.t;
  onUpdateSetDatabaseOwnership : option OnUpdateSet.t
}.

Record Deployed := {
  hostname : string;
  endpointPort : string;
  dbSecretArn : string;
  userSecretArn : string;
  secretLatestVersion : option string
}.

(** [a ?? b] *)
Definition nullish {A} (a : option A) (b : A) : A :=
  match a with
  | Some v => v
  | None => b
  end.

Definition onCreateIfExists_string (p : OnCreateIfExists.t) : string :=
  match p with
  | OnCreateIfExists.Fail => "Fail"
  | OnCreateIfExists.Adopt => "Adopt"
  | OnCreateIfExists.DeleteAndRecreate => "DeleteAndRecreate"
  end.

Definition onDelete_string (p : OnDelete.t) : string :=
  match p with
  | OnDelete.Delete => "Delete"
  | OnDelete.Retain => "Retain"
  end.

Definition ifDoesNotExist_string (p : IfDoesNotExist.t) : string :=
  match p with
  | IfDoesNotExist.Ignore => "Ignore"
  | IfDoesNotExist.Create => "Create"
  end.

Definition onUpdateSet_string (p : OnUpdateSet.t) : string :=
  match p with
  | OnUpdateSet.Always => "Always"
  | OnUpdateSet.Never => "Never"
  end.

Definition properties (d : Deployed) (props : PostgresUserAndDatabaseProps) : Json :=
  JObject
    ([ ("dbClusterHostname", JString (hostname d));
       ("dbClusterPort", JString (endpointPort d));
       ("dbSecretArn", JString (dbSecretArn d));
       ("userSecretArn", JString (userSecretArn d));
       ("databaseName", JString (databaseName props));
       ("onDelete",
        JString (onDelete_string (nullish (onDelete props) OnDelete.Delete)));
       ("onCreateIfExists",
        JString (onCreateIfExists_string
                   (nullish (onCreateIfExists props) OnCreateIfExists.Fail)));
       ("onUpdateIfUserDoesNotExist",
        JString (ifDoesNotExist_string
                   (nullish (onUpdateIfUserDoesNotExist props) IfDoesNotExist.Ignore)));
       ("onUpdateIfDatabaseDoesNotExist",
        JString (ifDoesNotExist_string
                   (nullish (onUpdateIfDatabaseDoesNotExist props) IfDoesNotExist.Ignore)));
       ("onUpdateSetUserPassword",
        JString (onUpdateSet_string
                   (nullish (onUpdateSetUserPassword props) OnUpdateSet.Never)));
       ("onUpdateSetUserPermissions",
        JString (onUpdateSet_string
                   (nullish (onUpdateSetUserPermissions props) OnUpdateSet.Never)));
       ("onUpdateSetDatabaseOwnership",
        JString (onUpdateSet_string
                   (nullish (onUpdateSetDatabaseOwnership props) OnUpdateSet.Never))) ]
     ++ match secretLatestVersion d with
        | None | Some EmptyString => []
        | Some v => [("secretLatestVersion", JString v)]
        end).

(** A deployment, and a caller who sets no policy at all. *)
Definition deployed : Deployed :=
  {| hostname := "db.local"; endpointPort := "5432";
     dbSecretArn := "arn:admin"; userSecretArn := "arn:user";
     secretLatestVersion := None |}.

Definition no_policies : PostgresUserAndDatabaseProps :=
  {| databaseName := "app";
     onCreateIfExists := None; onDelete := None;
     onUpdateIfUserDoesNotExist := None; onUpdateIfDatabaseDoesNotExist := None;
     onUpdateSetUserPassword := None; onUpdateSetUserPermissions := None;
     onUpdateSetDatabaseOwnership := None |}.
End Construct.

(** ** A model of the PostgreSQL server

    The server is not code of this repository.  For the properties that rest
    on what the server does with a statement (dropping what is absent, above
    all) it is modelled here after the PostgreSQL manual: roles with their
    attributes, databases with their owner, open sessions, and the nine
    statements the handlers send.  The text between the keywords and the
    closing semicolon is read as one name, as it stands: no quoting and no
    case folding. *)

Module Pg.
Record Role := {
  rolname : string;
  rolpassword : string;
  rolsuper : bool;
  rolcreaterole : bool;
  rolcreatedb : bool;
  rolcanlogin : bool
}.

Record Database := { datname : string; datdba : string }.

Record World := {
  secrets : list (string * DbCredentials);
  roles : list Role;
  databases : list Database;
  sessions : list PgClient
}.

Inductive Statement :=
| CreateUser (u p : string)
| AlterUserPassword (u p : string)
| AlterUserPermissions (u : string)
| DropUser (if_exists : bool) (u : string)
| CreateDatabase (d : string)
| AlterDatabaseOwner (d u : string)
| DropDatabase (if_exists : bool) (d : string).

(** *** Reading a statement *)

Fixpoint strip_prefix (p s : string) : option string :=
  match p, s with
  | EmptyString, _ => Some s
  | String a p', String b s' => if Ascii.eqb a b then strip_prefix p' s' else None
  | String _ _, EmptyString => None
  end.

Fixpoint strip_suffix (suf s : string) : option string :=
  if String.eqb s suf then Some EmptyString
  else match s with
       | EmptyString => None
       | String c s' => option_map (String c) (strip_suffix suf s')
       end.

(** The text before and after the first occurrence of [sep]. *)
Fixpoint split_on (sep s : string) : option (string * string) :=
  match strip_prefix sep s with
  | Some rest => Some (EmptyString, rest)
  | None =>
      match s with
      | EmptyString => None
      | String c s' =>
          option_map (fun ab => (String c (fst ab), snd ab)) (split_on sep s')
      end
  end.

Definition name_then (suf : string) (mk : string -> Statement) (rest : string)
  : option Statement :=
  option_map mk (strip_suffix suf rest).

Definition two_names (sep suf : string) (mk : string -> string -> Statement)
    (rest : string) : option Statement :=
  match split_on sep rest with
  | Some (a, rest') => option_map (mk a) (strip_suffix suf rest')
  | None => None
  end.

Definition alter_user (rest : string) : option Statement :=
  match strip_suffix " WITH CREATEDB LOGIN;" rest with
  | Some u => Some (AlterUserPermissions u)
  | None => two_names " WITH PASSWORD '" "';" AlterUserPassword rest
  end.

(** The first keyword that fits decides how the rest is read. *)
Fixpoint keywords (table : list (string * (string -> option Statement)))
    (sql : string) : option Statement :=
  match table with
  | [] => None
  | (kw, read) :: table' =>
      match strip_prefix kw sql with
      | Some rest => read rest
      | None => keywords table' sql
      end
  end.

Definition parse : string -> option Statement :=
  keywords
    [ ("DROP DATABASE IF EXISTS ", name_then ";" (DropDatabase true));
      ("DROP USER IF EXISTS ", name_then ";" (DropUser true));
      ("DROP DATABASE ", name_then ";" (DropDatabase false));
      ("DROP USER ", name_then ";" (DropUser false));
      ("CREATE DATABASE ", name_then ";" CreateDatabase);
      ("ALTER DATABASE ", two_names " OWNER TO " ";" AlterDatabaseOwner);
      ("CREATE USER ", two_names " WITH PASSWORD '" "' CREATEDB LOGIN;" CreateUser);
      ("ALTER USER ", alter_user) ].

(** *** What a statement does *)

Definition config_eqb (a b : ClientConfig) : bool :=
  String.eqb (host a) (host b) && N.eqb (port a) (port b)
  && String.eqb (user a) (user b)
  && String.eqb (cfg_password a) (cfg_password b)
  && String.eqb (database a) (database b).

Definition client_eqb (a b : PgClient) : bool :=
  Nat.eqb (owner a) (owner b) && config_eqb (config a) (config b).

Definition find_role (u : string) (rs : list Role) : option Role :=
  find (fun r => String.eqb (rolname r) u) rs.

Definition has_role (u : string) (rs : list Role) : bool :=
  existsb (fun r => String.eqb (rolname r) u) rs.

Definition has_database (d : string) (ds : list Database) : bool :=
  existsb (fun x => String.eqb (datname x) d) ds.

Definition owns_database (u : string) (ds : list Database) : bool :=
  existsb (fun x => String.eqb (datdba x) u) ds.

Definition is_owner (u d : string) (ds : list Database) : bool :=
  existsb (fun x => String.eqb (datname x) d && String.eqb (datdba x) u) ds.

Definition in_use (d : string) (ss : list PgClient) : bool :=
  existsb (fun c => String.eqb (database (config c)) d) ss.

Definition may_manage_roles (me : option Role) : bool :=
  match me with
  | Some r => rolsuper r || rolcreaterole r
  | None => false
  end.

Definition may_create_database (me : option Role) : bool :=
  match me with
  | Some r => rolsuper r || rolcreatedb r
  | None => false
  end.

Definition may_change_database (me : option Role) (d : string)
    (ds : list Database) : bool :=
  match me with
  | Some r => rolsuper r || is_owner (rolname r) d ds
  | None => false
  end.

Definition is_me (me : option Role) (u : string) : bool :=
  match me with
  | Some r => String.eqb (rolname r) u
  | None => false
  end.

Definition with_roles (rs : list Role) (w : World) : World :=
  {| secrets := secrets w; roles := rs;
     databases := databases w; sessions := sessions w |}.

Definition with_databases (ds : list Database) (w : World) : World :=
  {| secrets := secrets w; roles := roles w;
     databases := ds; sessions := sessions w |}.

Definition with_sessions (ss : list PgClient) (w : World) : World :=
  {| secrets := secrets w; roles := roles w;
     databases := databases w; sessions := ss |}.

Definition fails (sqlstate msg : string) (w : World) : option Thrown * World :=
  (Some (DatabaseError sqlstate msg), w).

Definition alter_role (u : string) (f : Role -> Role) (rs : list Role) : list Role :=
  map (fun r => if String.eqb (rolname r) u then f r else r) rs.

Definition exec (me : option Role) (current : string) (st : Statement) (w : World)
  : option Thrown * World :=
  match st with
  | CreateUser u p =>
      if negb (may_manage_roles me) then fails "42501" "permission denied" w
      else if has_role u (roles w) then fails "42710" "role already exists" w
      else (None,
            with_roles (roles w ++ [ {| rolname := u; rolpassword := p;
                                        rolsuper := false; rolcreaterole := false;
                                        rolcreatedb := true; rolcanlogin := true |} ]) w)
  | AlterUserPassword u p =>
      if negb (has_role u (roles w)) then fails "42704" "role does not exist" w
      else if negb (may_manage_roles me || is_me me u)
      then fails "42501" "permission denied" w
      else (None,
            with_roles
              (alter_role u
                 (fun r => {| rolname := rolname r; rolpassword := p;
                              rolsuper := rolsuper r; rolcreaterole := rolcreaterole r;
                              rolcreatedb := rolcreatedb r;
                              rolcanlogin := rolcanlogin r |}) (roles w)) w)
  | AlterUserPermissions u =>
      if negb (has_role u (roles w)) then fails "42704" "role does not exist" w
      else if negb (may_manage_roles me) then fails "42501" "permission denied" w
      else (None,
            with_roles
              (alter_role u
                 (fun r => {| rolname := rolname r; rolpassword := rolpassword r;
                              rolsuper := rolsuper r; rolcreaterole := rolcreaterole r;
                              rolcreatedb := true; rolcanlogin := true |}) (roles w)) w)
  | DropUser if_exists u =>
      if negb (may_manage_roles me) then fails "42501" "permission denied" w
      else if negb (has_role u (roles w))
      then if if_exists then (None, w) else fails "42704" "role does not exist" w
      else if is_me me u then fails "55006" "current user cannot be dropped" w
      else if owns_database u (databases w)
      then fails "2BP01" "role cannot be dropped because some objects depend on it" w
      else (None,
            with_roles (filter (fun r => negb (String.eqb (rolname r) u)) (roles w)) w)
  | CreateDatabase d =>
      if negb (may_create_database me) then fails "42501" "permission denied" w
      else if has_database d (databases w)
      then fails "42P04" "database already exists" w
      else match me with
           | Some r =>
               (None,
                with_databases
                  (databases w ++ [ {| datname := d; datdba := rolname r |} ]) w)
           | None => fails "42501" "permission denied" w
           end
  | AlterDatabaseOwner d u =>
      if negb (has_database d (databases w))
      then fails "3D000" "database does not exist" w
      else if negb (may_change_database me d (databases w))
      then fails "42501" "must be owner of database" w
      else if negb (has_role u (roles w)) then fails "42704" "role does not exist" w
      else (None,
            with_databases
              (map (fun x => if String.eqb (datname x) d
                             then {| datname := d; datdba := u |} else x)
                 (databases w)) w)
  | DropDatabase if_exists d =>
      if negb (has_database d (databases w))
      then if if_exists then (None, w) else fails "3D000" "database does not exist" w
      else if negb (may_change_database me d (databases w))
      then fails "42501" "must be owner of database" w
      else if String.eqb d current
      then fails "55006" "cannot drop the currently open database" w
      else if in_use d (sessions w)
      then fails "55006" "database is being accessed by other users" w
      else (None,
            with_databases
              (filter (fun x => negb (String.eqb (datname x) d)) (databases w)) w)
  end.

Definition pg_connect (c : PgClient) (w : World) : option Thrown * World :=
  match find_role (user (config c)) (roles w) with
  | None => fails "28P01" "password authentication failed" w
  | Some r =>
      if negb (String.eqb (rolpassword r) (cfg_password (config c)))
      then fails "28P01" "password authentication failed" w
      else if negb (rolcanlogin r) then fails "28000" "role is not permitted to log in" w
      else if negb (has_database (database (config c)) (databases w))
      then fails "3D000" "database does not exist" w
      else (None, with_sessions (c :: sessions w) w)
  end.

Definition pg_query (c : PgClient) (sql : string) (w : World) : option Thrown * World :=
  if negb (existsb (client_eqb c) (sessions w))
  then (Some (Error "Client is not connected"), w)
  else match parse sql with
       | None => fails "42601" "syntax error" w
       | Some st =>
           exec (find_role (user (config c)) (roles w)) (database (config c)) st w
       end.

Definition pg_end (c : PgClient) (w : World) : option Thrown * World :=
  (None, with_sessions (filter (fun c' => negb (client_eqb c c')) (sessions w)) w).

#[export] Instance backend : Backend World := {|
  getSecretValue arn w :=
    match Mock.assoc arn (secrets w) with
    | Some c => inr c
    | None => inl Mock.ResourceNotFoundException
    end;
  listSecretVersionIds _ _ := inl Mock.ResourceNotFoundException;
  connect := pg_connect;
  query := pg_query;
  endClient := pg_end
|}.

(** A new cluster: the superuser and the [postgres] database. *)
Definition master : Role :=
  {| rolname := "root"; rolpassword := "hunter2"; rolsuper := true;
     rolcreaterole := true; rolcreatedb := true; rolcanlogin := true |}.

Definition fresh : World :=
  {| secrets := [("arn:admin", Examples.root); ("arn:user", Examples.svc)];
     roles := [master];
     databases := [ {| datname := "postgres"; datdba := "root" |} ];
     sessions := [] |}.

(** The same cluster with the user [svc] and a database [app] of its own. *)
Definition populated : World :=
  {| secrets := [("arn:admin", Examples.root); ("arn:user", Examples.svc)];
     roles := [master;
               {| rolname := "svc"; rolpassword := "s3cret"; rolsuper := false;
                  rolcreaterole := false; rolcreatedb := true; rolcanlogin := true |}];
     databases := [ {| datname := "postgres"; datdba := "root" |};
                    {| datname := "app"; datdba := "svc" |} ];
     sessions := [] |}.

(** *** Names the server reads as written

    An unquoted identifier in lower case: letters, digits and underscores,
    not starting with a digit.  The server reads such a text as one name and
    does not fold it; other texts (upper case, quotes, blanks, [;]) it may
    read otherwise than [parse] does. *)
Definition name_start (c : ascii) : bool :=
  let n := N_of_ascii c in (N.leb 97 n && N.leb n 122) || N.eqb n 95.

Definition name_part (c : ascii) : bool :=
  let n := N_of_ascii c in name_start c || (N.leb 48 n && N.leb n 57).

Fixpoint name_rest (s : string) : bool :=
  match s with
  | EmptyString => true
  | String c s' => name_part c && name_rest s'
  end.

Definition plain_name (s : string) : bool :=
  match s with
  | EmptyString => false
  | String c s' => name_start c && name_rest s'
  end.

(** The cluster of [populated] in which [svc] owns a second database. *)
Definition two_databases : World :=
  {| secrets := [("arn:admin", Examples.root); ("arn:user", Examples.svc)];
     roles := [master;
               {| rolname := "svc"; rolpassword := "s3cret"; rolsuper := false;
                  rolcreaterole := false; rolcreatedb := true; rolcanlogin := true |}];
     databases := [ {| datname := "postgres"; datdba := "root" |};
                    {| datname := "app"; datdba := "svc" |};
                    {| datname := "reports"; datdba := "svc" |} ];
     sessions := [] |}.

Definition dependent_objects : Thrown :=
  DatabaseError "2BP01" "role cannot be dropped because some objects depend on it".
End Pg.

(** ** Where a rejection comes from

    [prov n known m]: from any state whose heap holds at least [n] objects,
    [m] only extends the trace, keeps the heap that large, and rejects only
    with a value of [known] or with one an outside call of its own threw. *)

Section ProvenanceDef.
Context {World : Type}.

Definition prov (n : nat) (known : list Thrown) {A} (m : M World A) : Prop :=
  forall s o s',
    n <= length (heap s) -> m s = (o, s') ->
    n <= length (heap s')
    /\ exists t', trace s' = trace s ++ t'
                 /\ forall e, o = Rejected e -> In e known \/ In e (raised t').
End ProvenanceDef.

(** The outcome of a run with the token of a successful response replaced. *)
Definition retoken (id : string) (o : Outcome Response) : Outcome Response :=
  match o with
  | Resolved _ => Resolved {| PhysicalResourceId := id |}
  | Rejected e => Rejected e
  end.

(** The statements an Update sends when nothing fails, by policy, in the order
    of the source.  In [handleUpdate] the user's manager is the first object
    built and the admin's the second. *)
Definition updatePlan (rp : CustomResourceProperties)
    (userCredentials adminCredentials : DbCredentials) : list (PgClient * string) :=
  let adminClient := Lazy.newClient 1 (adminProps rp) adminCredentials in
  let userClient := Lazy.newClient 0 (userProps rp) userCredentials in
  match onUpdateIfUserDoesNotExist rp with
  | IfDoesNotExist.Create => [(adminClient, Sql.createUser userCredentials)]
  | IfDoesNotExist.Ignore => []
  end
  ++ match onUpdateSetUserPassword rp with
     | OnUpdateSet.Always => [(adminClient, Sql.alterUserPassword userCredentials)]
     | OnUpdateSet.Never => []
     end
  ++ match onUpdateSetUserPermissions rp with
     | OnUpdateSet.Always => [(adminClient, Sql.alterUserPermissions userCredentials)]
     | OnUpdateSet.Never => []
     end
  ++ match onUpdateIfDatabaseDoesNotExist rp with
     | IfDoesNotExist.Create => [(userClient, Sql.createDatabase (databaseName rp))]
     | IfDoesNotExist.Ignore => []
     end
  ++ match onUpdateSetDatabaseOwnership rp with
     | OnUpdateSet.Always =>
         [(adminClient, Sql.alterDatabaseOwner (databaseName rp) userCredentials)]
     | OnUpdateSet.Never => []
     end.

(** The error test of the [catch] blocks: a Postgres error with the given code. *)
Definition isPostgresErrorWithCode (e : Thrown) (c : string) : bool :=
  isPostgresError e && code_is e c.

(** ** Further notions used by the properties *)

(** The connections the manager at heap index [r] opened in a trace. *)
Fixpoint connects_by (r : nat) (t : Trace) : nat :=
  match t with
  | [] => 0
  | (Connect c, _) :: t' =>
      (if Nat.eqb (owner c) r then 1 else 0) + connects_by r t'
  | _ :: t' => connects_by r t'
  end.

(** A string of decimal digits, possibly empty. *)
Fixpoint all_digits (s : string) : bool :=
  match s with
  | EmptyString => true
  | String c s' => Zod.is_digit c && all_digits s'
  end.

(** A string without ['/']. *)
Fixpoint no_slash (s : string) : bool :=
  match s with
  | EmptyString => true
  | String c s' => negb (Ascii.eqb c "/") && no_slash s'
  end.

(** The keys [customResourcePropertiesSchema] reads. *)
Definition requiredKeys : list string :=
  ["dbClusterHostname"; "dbClusterPort"; "dbSecretArn"; "userSecretArn";
   "databaseName"; "onDelete"; "onCreateIfExists"; "onUpdateIfUserDoesNotExist";
   "onUpdateIfDatabaseDoesNotExist"; "onUpdateSetUserPassword";
   "onUpdateSetUserPermissions"; "onUpdateSetDatabaseOwnership"].

(** No manager has connected more often than it holds a client: at most
    once when it holds one, never when it holds none. *)
Definition connects_once {World : Type} (s : State World) : Prop :=
  forall r,
    connects_by r (trace s)
    <= match nth_error (heap s) r with
       | Some o => match Lazy.client o with Some _ => 1 | None => 0 end
       | None => 0
       end.

(** [m] keeps the state invariant [I], whether it resolves or rejects. *)
Definition keeps {World : Type} {A : Type} (I : State World -> Prop) (m : M World A)
  : Prop :=
  forall s o s', I s -> m s = (o, s') -> I s'.

(** ** More example inputs *)

Module MoreExamples.
(** Properties that lack six of the seven policies. *)
Definition incomplete_properties : list (string * Json) :=
  [("dbClusterHostname", JString "db.local");
   ("dbClusterPort", JString "5432");
   ("dbSecretArn", JString "arn:admin");
   ("userSecretArn", JString "arn:user");
   ("databaseName", JString "app");
   ("onDelete", JString "Delete")].

Definition incomplete_delete : Json :=
  JObject [("RequestType", JString "Delete");
           ("PhysicalResourceId", JString "db.local/app/svc");
           ("ResourceProperties", JObject incomplete_properties)].

(** The fields the construct sends for a caller who set no policy. *)
Definition default_fields : list (string * Json) :=
  match Construct.properties Construct.deployed Construct.no_policies with
  | JObject f => f
  | _ => []
  end.
End MoreExamples.

Module MoreVersions.
(** A secret whose first version staged [AWSCURRENT] carries no id, although
    a later one does; and one with no current version at all. *)
Definition anonymous_current : Mock.World :=
  {| Mock.secrets := [];
     Mock.versions :=
       [("arn:user",
         Some [ {| VersionId := Some "v1"; VersionStages := Some ["AWSPREVIOUS"] |};
                {| VersionId := None; VersionStages := Some ["AWSCURRENT"] |};
                {| VersionId := Some "v3"; VersionStages := Some ["AWSCURRENT"] |} ])];
     Mock.script := [] |}.

Definition create_event : LatestSecretVersion.OnCreateEvent.t :=
  {| LatestSecretVersion.OnCreateEvent.ResourceProperties :=
       {| LatestSecretVersion.secretArn := "arn:user";
          LatestSecretVersion.datetime := "2024-02-28T00:00:00.000Z" |};
     LatestSecretVersion.OnCreateEvent.PhysicalResourceId := None |}.
End MoreVersions.

Module MoreStates.
(** The user's manager as [new] builds it, alone on the heap. *)
Definition user_manager : Lazy.t :=
  {| Lazy.props := userProps Examples.rp;
     Lazy.client := None;
     Lazy.credentials := None |}.

Definition at_start (answers : list (option Thrown)) : State Mock.World :=
  {| world := Examples.scripted answers; heap := [user_manager]; trace := [] |}.

(** A later state with the given heap, in a world that holds no secret. *)
Definition later (h : list Lazy.t) : State Mock.World :=
  {| world := Examples.rotated; heap := h; trace := [] |}.

Definition authentication_failed : Thrown :=
  DatabaseError PostgresErrorCodes.AUTHENTICATION_FAILED "password authentication failed".

(** An Update with every policy off, and one that only creates what is missing. *)
Definition update_noop : UpdateEvent.t :=
  {| UpdateEvent.PhysicalResourceId := "db.local/app/svc";
     UpdateEvent.ResourceProperties := Examples.rp |}.

Definition rp_create_user : CustomResourceProperties :=
  {| dbClusterHostname := "db.local";
     dbClusterPort := 5432;
     dbSecretArn := "arn:admin";
     userSecretArn := "arn:user";
     databaseName := "app";
     onDelete := OnDelete.Delete;
     onCreateIfExists := OnCreateIfExists.Fail;
     onUpdateIfUserDoesNotExist := IfDoesNotExist.Create;
     onUpdateIfDatabaseDoesNotExist := IfDoesNotExist.Ignore;
     onUpdateSetUserPassword := OnUpdateSet.Never;
     onUpdateSetUserPermissions := OnUpdateSet.Never;
     onUpdateSetDatabaseOwnership := OnUpdateSet.Never |}.

Definition rp_create_database : CustomResourceProperties :=
  {| dbClusterHostname := "db.local";
     dbClusterPort := 5432;
     dbSecretArn := "arn:admin";
     userSecretArn := "arn:user";
     databaseName := "app";
     onDelete := OnDelete.Delete;
     onCreateIfExists := OnCreateIfExists.Fail;
     onUpdateIfUserDoesNotExist := IfDoesNotExist.Ignore;
     onUpdateIfDatabaseDoesNotExist := IfDoesNotExist.Create;
     onUpdateSetUserPassword := OnUpdateSet.Never;
     onUpdateSetUserPermissions := OnUpdateSet.Never;
     onUpdateSetDatabaseOwnership := OnUpdateSet.Never |}.

Definition update_create_user : UpdateEvent.t :=
  {| UpdateEvent.PhysicalResourceId := "db.local/app/svc";
     UpdateEvent.ResourceProperties := rp_create_user |}.

Definition update_create_database : UpdateEvent.t :=
  {| UpdateEvent.PhysicalResourceId := "db.local/app/svc";
     UpdateEvent.ResourceProperties := rp_create_database |}.
End MoreStates.

(** The statements that touch roles only. *)
Definition role_statement (st : Pg.Statement) : bool :=
  match st with
  | Pg.CreateUser _ _ | Pg.AlterUserPassword _ _
  | Pg.AlterUserPermissions _ | Pg.DropUser _ _ => true
  | _ => false
  end.

(** A text that, when it reads as a statement at all, reads as one on roles. *)
Definition reads_role (sql : string) : Prop :=
  match Pg.parse sql with
  | Some st => role_statement st = true
  | None => True
  end.

(** ** Proof steps shared by the properties *)

(** Symbolic execution of a handler up to the next call to the outside. *)
Ltac js_eval :=
  cbv beta iota zeta delta
    [run handleCreate handleUpdate handleDelete createUserStep createDatabaseStep
     updateUserExists updateUserPassword updateUserPermissions
     updateDatabaseExists updateDatabaseOwnership
     bind ret throw try_catch record call ask new deref assign
     getCredentials getClient end_ client_query client_end
     world heap trace nth_error update_nth length app
     Lazy.props Lazy.client Lazy.credentials Lazy.set_client Lazy.set_credentials
     Lazy.dbSecretArn Lazy.dbClusterHostname Lazy.dbClusterPort Lazy.databaseName
     adminProps userProps negb andb OnCreateIfExists.eqb
     CreateEvent.ResourceProperties UpdateEvent.ResourceProperties
     UpdateEvent.PhysicalResourceId DeleteEvent.ResourceProperties
     DeleteEvent.PhysicalResourceId].

(** One case split on the answer of the next call to the outside. *)
Ltac js_case :=
  match goal with
  | |- context [getSecretValue ?a ?w] => destruct (getSecretValue a w) eqn:?
  | |- context [connect ?c ?w] => destruct (connect c w) as [[?|] ?] eqn:?
  | |- context [query ?c ?q ?w] => destruct (query c q w) as [[?|] ?] eqn:?
  | |- context [endClient ?c ?w] => destruct (endClient c w) as [[?|] ?] eqn:?
  end; js_eval.

(** Events are opened into their fields before a handler is evaluated. *)
Ltac open_event event :=
  destruct event;
  cbn [CreateEvent.ResourceProperties UpdateEvent.ResourceProperties
       UpdateEvent.PhysicalResourceId DeleteEvent.ResourceProperties
       DeleteEvent.PhysicalResourceId] in *.

(** Two recorded answers to the same call are the same answer. *)
Ltac same_answers :=
  repeat match goal with
    | Ha : ?f = (?ra, ?a), Hb : ?g = (?rb, ?b) |- _ =>
        tryif constr_eq a b then fail else
          (let E := fresh in
           assert (E : (ra, a) = (rb, b)) by exact (eq_trans (eq_sym Ha) Hb);
           first [ discriminate E | injection E; intros; subst; clear Hb ])
    end.

(** * Properties of the handlers *)

Section Identity.
Context {World : Type} {B : Backend World}.

(** C6.  A Delete request with [onDelete = Retain] calls nothing outside
    (no secret is read, no connection opened, no statement sent: the world
    is the one it started from) and answers with the [PhysicalResourceId]
    of the event. *)
Theorem handleDelete_retain (event : DeleteEvent.t) (w : World) :
  onDelete (DeleteEvent.ResourceProperties event) = OnDelete.Retain ->
  run (handleDelete event) w
  = (Resolved {| PhysicalResourceId := DeleteEvent.PhysicalResourceId event |}, w, []).
Proof.
  intros Hretain. unfold run, handleDelete. rewrite Hretain. reflexivity.
Qed.

Lemma handleCreate_rejects_collision (event : CreateEvent.t) (w : World)
    (userCredentials adminCredentials : DbCredentials) :
  let rp := CreateEvent.ResourceProperties event in
  getSecretValue (userSecretArn rp) w = inr userCredentials ->
  getSecretValue (dbSecretArn rp) w = inr adminCredentials ->
  username userCredentials = username adminCredentials ->
  run (handleCreate event) w
  = (Rejected collisionError, w,
     [(GetSecretValue (userSecretArn rp), None);
      (GetSecretValue (dbSecretArn rp), None)]).
Proof.
  intros rp Huser Hadmin Hsame. subst rp. open_event event.
  js_eval. rewrite Huser. js_eval. rewrite Hadmin. js_eval.
  rewrite Hsame, String.eqb_refl. reflexivity.
Qed.

Lemma handleDelete_rejects_collision (event : DeleteEvent.t) (w : World)
    (userCredentials adminCredentials : DbCredentials) :
  let rp := DeleteEvent.ResourceProperties event in
  onDelete rp = OnDelete.Delete ->
  getSecretValue (userSecretArn rp) w = inr userCredentials ->
  getSecretValue (dbSecretArn rp) w = inr adminCredentials ->
  username userCredentials = username adminCredentials ->
  run (handleDelete event) w
  = (Rejected collisionError, w,
     [(GetSecretValue (userSecretArn rp), None);
      (GetSecretValue (dbSecretArn rp), None)]).
Proof.
  intros rp Hdel Huser Hadmin Hsame. subst rp. open_event event.
  js_eval. rewrite Hdel. js_eval. rewrite Huser. js_eval. rewrite Hadmin. js_eval.
  rewrite Hsame, String.eqb_refl. reflexivity.
Qed.

(** C3.  A Create request whose two secrets resolve to the same username is
    rejected with the collision error after the two secrets were read and
    nothing else: no connection is opened and no statement is sent. *)
Theorem handleCreate_collision (event : CreateEvent.t) (w : World)
    (userCredentials adminCredentials : DbCredentials) :
  let rp := CreateEvent.ResourceProperties event in
  getSecretValue (userSecretArn rp) w = inr userCredentials ->
  getSecretValue (dbSecretArn rp) w = inr adminCredentials ->
  username userCredentials = username adminCredentials ->
  exists t,
    run (handleCreate event) w = (Rejected collisionError, w, t)
    /\ t = [(GetSecretValue (userSecretArn rp), None);
            (GetSecretValue (dbSecretArn rp), None)]
    /\ connects_of t = [] /\ queries_of t = [].
Proof.
  intros rp Huser Hadmin Hsame. eexists. split; [|split; [reflexivity|]].
  - exact (handleCreate_rejects_collision event w userCredentials adminCredentials
             Huser Hadmin Hsame).
  - split; reflexivity.
Qed.

Lemma handleUpdate_mismatch (event : UpdateEvent.t) (w : World)
    (userCredentials : DbCredentials) :
  let rp := UpdateEvent.ResourceProperties event in
  getSecretValue (userSecretArn rp) w = inr userCredentials ->
  UpdateEvent.PhysicalResourceId event <> physicalResourceId rp userCredentials ->
  run (handleUpdate event) w
  = (Rejected identityError, w, [(GetSecretValue (userSecretArn rp), None)]).
Proof.
  intros rp Huser Hne. subst rp. open_event event. js_eval. rewrite Huser. js_eval.
  apply String.eqb_neq in Hne. rewrite Hne. reflexivity.
Qed.

Lemma handleDelete_token_irrelevant (event : DeleteEvent.t) (id : string) (w : World) :
  run (handleDelete {| DeleteEvent.PhysicalResourceId := id;
                       DeleteEvent.ResourceProperties :=
                         DeleteEvent.ResourceProperties event |}) w
  = (retoken id (fst (fst (run (handleDelete event) w))),
     snd (fst (run (handleDelete event) w)),
     snd (run (handleDelete event) w)).
Proof.
  destruct event as [id0 rp]. cbn [DeleteEvent.ResourceProperties].
  unfold run, handleDelete.
  cbn [DeleteEvent.ResourceProperties DeleteEvent.PhysicalResourceId].
  destruct (onDelete rp); [|reflexivity].
  js_eval. js_case; [reflexivity|]. js_case; [reflexivity|].
  destruct (String.eqb _ _); [reflexivity|].
  js_eval. js_case; [reflexivity|]. js_case; [reflexivity|].
  js_case; [reflexivity|]. js_case; reflexivity.
Qed.

(** C1, as the code has it.  An Update request whose [PhysicalResourceId]
    is not [host/database/username] is rejected with the identity error as
    soon as the user's secret is read: no connection, no statement.  A
    Delete request is not checked against its [PhysicalResourceId] at all:
    whatever the token, [handleDelete] makes the same calls, leaves the
    same world and has the same outcome, a successful response echoing the
    token it was given. *)
Theorem identity_token_checked_on_update (w : World) :
  (forall (event : UpdateEvent.t) (userCredentials : DbCredentials),
      let rp := UpdateEvent.ResourceProperties event in
      getSecretValue (userSecretArn rp) w = inr userCredentials ->
      UpdateEvent.PhysicalResourceId event <> physicalResourceId rp userCredentials ->
      exists t,
        run (handleUpdate event) w = (Rejected identityError, w, t)
        /\ connects_of t = [] /\ queries_of t = [])
  /\ (forall (event : DeleteEvent.t) (id : string),
        run (handleDelete {| DeleteEvent.PhysicalResourceId := id;
                             DeleteEvent.ResourceProperties :=
                               DeleteEvent.ResourceProperties event |}) w
        = (retoken id (fst (fst (run (handleDelete event) w))),
           snd (fst (run (handleDelete event) w)),
           snd (run (handleDelete event) w))).
Proof.
  split.
  - intros event userCredentials rp Huser Hne. eexists. split.
    + exact (handleUpdate_mismatch event w userCredentials Huser Hne).
    + split; reflexivity.
  - intros event id. apply handleDelete_token_irrelevant.
Qed.
End Identity.

Lemma handleDelete_retain_witness :
  run (handleDelete (B := Pg.backend) Examples.delete_retain) Pg.populated
  = (Resolved {| PhysicalResourceId := "db.local/app/svc" |}, Pg.populated, []).
Proof.
  exact (handleDelete_retain (B := Pg.backend) Examples.delete_retain Pg.populated eq_refl).
Defined.

Lemma handleCreate_collision_witness :
  exists t,
    run (handleCreate (B := Mock.backend) (Examples.create OnCreateIfExists.Adopt))
      Examples.colliding
    = (Rejected collisionError, Examples.colliding, t)
    /\ t = [(GetSecretValue "arn:user", None); (GetSecretValue "arn:admin", None)]
    /\ connects_of t = [] /\ queries_of t = [].
Proof.
  exact (handleCreate_collision (B := Mock.backend)
           (Examples.create OnCreateIfExists.Adopt) Examples.colliding
           Examples.svc Examples.svc eq_refl eq_refl eq_refl).
Defined.

Lemma identity_token_checked_on_update_witness :
  exists t,
    run (handleUpdate (B := Pg.backend) Examples.update_stale) Pg.populated
    = (Rejected identityError, Pg.populated, t)
    /\ connects_of t = [] /\ queries_of t = [].
Proof.
  refine (proj1 (identity_token_checked_on_update (B := Pg.backend) Pg.populated)
            Examples.update_stale Examples.svc eq_refl _).
  intros H. discriminate H.
Defined.

(** C1, as stated, fails for Delete: against a cluster holding the user [svc]
    and its database [app], a Delete request carrying the token ["stale"],
    which is not [db.local/app/svc], is not rejected; both drops are sent and
    the user and the database are gone. *)
Lemma delete_accepts_stale_token :
  getSecretValue (Backend := Pg.backend) "arn:user" Pg.populated = inr Examples.svc
  /\ DeleteEvent.PhysicalResourceId Examples.delete_stale
     <> physicalResourceId (DeleteEvent.ResourceProperties Examples.delete_stale)
          Examples.svc
  /\ fst (run (handleDelete (B := Pg.backend) Examples.delete_stale) Pg.populated)
     = (Resolved {| PhysicalResourceId := "stale" |}, Pg.fresh)
  /\ queries_of (snd (run (handleDelete (B := Pg.backend) Examples.delete_stale)
                        Pg.populated))
     = [(Examples.adminClient, "DROP DATABASE IF EXISTS app;");
        (Examples.adminClient, "DROP USER IF EXISTS svc;")].
Proof.
  split; [reflexivity|]. split; [intros H; discriminate H|].
  split; vm_compute; reflexivity.
Qed.

Section CreateSteps.
Context {World : Type} {B : Backend World}.


(** When [CREATE USER] succeeds the step sends nothing else. *)
Lemma createUserStep_on_success (policy : OnCreateIfExists.t) (adminClient : PgClient)
    (userCredentials : DbCredentials) (s : State World) (w' : World) :
  query adminClient (Sql.createUser userCredentials) (world s) = (None, w') ->
  createUserStep policy adminClient userCredentials s
  = (Resolved tt, record (Query adminClient (Sql.createUser userCredentials)) None w' s).
Proof.
  intros Hq. unfold createUserStep, try_catch, client_query, call.
  rewrite Hq. reflexivity.
Qed.

(** What Create's database-creation step does when [CREATE DATABASE] fails
    with [e], policy by policy. *)
Lemma createDatabaseStep_on_error (policy : OnCreateIfExists.t)
    (adminClient userClient : PgClient) (db : string)
    (userCredentials : DbCredentials) (s : State World) (e : Thrown) (w' : World) :
  query userClient (Sql.createDatabase db) (world s) = (Some e, w') ->
  createDatabaseStep policy adminClient userClient db userCredentials s
  = let s' := record (Query userClient (Sql.createDatabase db)) (Some e) w' s in
    match policy with
    | OnCreateIfExists.Adopt =>
        if isPostgresErrorWithCode e PostgresErrorCodes.DUPLICATE_DATABASE
        then client_query adminClient (Sql.alterDatabaseOwner db userCredentials) s'
        else (Rejected e, s')
    | OnCreateIfExists.DeleteAndRecreate =>
        if isPostgresErrorWithCode e PostgresErrorCodes.DUPLICATE_DATABASE
        then (client_query adminClient (Sql.dropDatabase db) ;;;
              client_query userClient (Sql.createDatabase db)) s'
        else if isPostgresError e then (Resolved tt, s')
        else (Rejected e, s')
    | OnCreateIfExists.Fail => (Rejected e, s')
    end.
Proof.
  intros Hq. unfold createDatabaseStep, try_catch, client_query at 1, call.
  rewrite Hq. unfold isPostgresErrorWithCode.
  destruct (isPostgresError e), (code_is e _), policy; reflexivity.
Qed.

(** C2, where the code departs from it.  Under [DeleteAndRecreate], a
    Postgres error of [CREATE DATABASE] whose code is not 42P04 (duplicate
    database) is not re-raised: the step resolves, having sent nothing
    else. *)
Theorem createDatabaseStep_swallows_error (adminClient userClient : PgClient)
    (db : string) (userCredentials : DbCredentials) (s : State World)
    (e : Thrown) (w' : World) :
  query userClient (Sql.createDatabase db) (world s) = (Some e, w') ->
  isPostgresError e = true ->
  code_is e PostgresErrorCodes.DUPLICATE_DATABASE = false ->
  createDatabaseStep OnCreateIfExists.DeleteAndRecreate adminClient userClient db
    userCredentials s
  = (Resolved tt, record (Query userClient (Sql.createDatabase db)) (Some e) w' s).
Proof.
  intros Hq Hpg Hcode. rewrite (createDatabaseStep_on_error _ _ _ _ _ _ _ _ Hq).
  unfold isPostgresErrorWithCode. cbv zeta. now rewrite Hpg, Hcode.
Qed.

(** Under [Fail] and [Adopt] the same error is re-raised, as is, under every
    policy, a thrown value that is not a Postgres error. *)
Lemma createDatabaseStep_reraises (policy : OnCreateIfExists.t)
    (adminClient userClient : PgClient) (db : string)
    (userCredentials : DbCredentials) (s : State World) (e : Thrown) (w' : World) :
  query userClient (Sql.createDatabase db) (world s) = (Some e, w') ->
  isPostgresErrorWithCode e PostgresErrorCodes.DUPLICATE_DATABASE = false ->
  policy <> OnCreateIfExists.DeleteAndRecreate \/ isPostgresError e = false ->
  createDatabaseStep policy adminClient userClient db userCredentials s
  = (Rejected e, record (Query userClient (Sql.createDatabase db)) (Some e) w' s).
Proof.
  intros Hq Hdup Hor. rewrite (createDatabaseStep_on_error _ _ _ _ _ _ _ _ Hq).
  cbv zeta. rewrite Hdup.
  destruct policy; try reflexivity.
  destruct Hor as [Hp|Hpg]; [now contradiction Hp | now rewrite Hpg].
Qed.
End CreateSteps.


Lemma createDatabaseStep_swallows_error_witness :
  createDatabaseStep (B := Mock.backend) OnCreateIfExists.DeleteAndRecreate
    Examples.adminClient Examples.userClient "app" Examples.svc
    {| world := Examples.scripted [Some Examples.permission_denied];
       heap := []; trace := [] |}
  = (Resolved tt,
     {| world := Examples.scripted [];
        heap := [];
        trace := [(Query Examples.userClient "CREATE DATABASE app;",
                   Some Examples.permission_denied)] |}).
Proof.
  exact (createDatabaseStep_swallows_error (B := Mock.backend)
           Examples.adminClient Examples.userClient "app" Examples.svc
           {| world := Examples.scripted [Some Examples.permission_denied];
              heap := []; trace := [] |}
           Examples.permission_denied (Examples.scripted []) eq_refl eq_refl eq_refl).
Defined.

(** The whole Create on that input: the admin connects and creates the user,
    the user connects, [CREATE DATABASE] is refused with 42501, and the
    handler still closes both connections and answers with the token. *)
Example handleCreate_swallows_database_error :
  run (handleCreate (B := Mock.backend) (Examples.create OnCreateIfExists.DeleteAndRecreate))
    (Examples.scripted [None; None; None; Some Examples.permission_denied])
  = (Resolved {| PhysicalResourceId := "db.local/app/svc" |},
     Examples.scripted [],
     [(GetSecretValue "arn:user", None);
      (GetSecretValue "arn:admin", None);
      (Connect Examples.adminClient, None);
      (Query Examples.adminClient
         "CREATE USER svc WITH PASSWORD 's3cret' CREATEDB LOGIN;", None);
      (Connect Examples.userClient, None);
      (Query Examples.userClient "CREATE DATABASE app;", Some Examples.permission_denied);
      (End Examples.adminClient, None);
      (End Examples.userClient, None)]).
Proof. vm_compute. reflexivity. Qed.

(** The same refusal under [Fail] rejects the Create. *)
Example handleCreate_fail_reraises_database_error :
  fst (fst (run (handleCreate (B := Mock.backend) (Examples.create OnCreateIfExists.Fail))
              (Examples.scripted [None; None; None; Some Examples.permission_denied])))
  = Rejected Examples.permission_denied.
Proof. vm_compute. reflexivity. Qed.

(** A Create with [Adopt] against a cluster that holds the user and the
    database already: password reset, attributes granted, ownership moved,
    nothing dropped. *)
Example handleCreate_adopt :
  queries_of (snd (run (handleCreate (B := Pg.backend)
                          (Examples.create OnCreateIfExists.Adopt)) Pg.populated))
  = [(Examples.adminClient, "CREATE USER svc WITH PASSWORD 's3cret' CREATEDB LOGIN;");
     (Examples.adminClient, "ALTER USER svc WITH PASSWORD 's3cret';");
     (Examples.adminClient, "ALTER USER svc WITH CREATEDB LOGIN;");
     (Examples.userClient, "CREATE DATABASE app;");
     (Examples.adminClient, "ALTER DATABASE app OWNER TO svc;")]
  /\ fst (run (handleCreate (B := Pg.backend)
                 (Examples.create OnCreateIfExists.Adopt)) Pg.populated)
     = (Resolved {| PhysicalResourceId := "db.local/app/svc" |}, Pg.populated).
Proof. split; vm_compute; reflexivity. Qed.

Section Provenance.
Context {World : Type} {B : Backend World}.

Lemma raised_app (t1 t2 : Trace) : raised (t1 ++ t2) = raised t1 ++ raised t2.
Proof.
  induction t1 as [|[io [e|]] t1 IH]; simpl; [reflexivity | f_equal; exact IH | exact IH].
Qed.

Lemma update_nth_length {A} (n : nat) (f : A -> A) (l : list A) :
  length (update_nth n f l) = length l.
Proof.
  revert n. induction l as [|x l IH]; intros [|n]; simpl; auto.
Qed.

Lemma prov_ret {A} n known (a : A) : prov n known (ret (World := World) a).
Proof.
  intros s o s' Hn H. inversion H; subst. split; [exact Hn|].
  exists []. split; [now rewrite app_nil_r | intros e He; discriminate He].
Qed.

Lemma prov_throw {A} n known e :
  In e known -> prov n known (throw (World := World) (A := A) e).
Proof.
  intros Hin s o s' Hn H. inversion H; subst. split; [exact Hn|].
  exists []. split; [now rewrite app_nil_r |].
  intros e' He. inversion He; subst. now left.
Qed.

Lemma prov_bind {A C} n known (m : M World A) (k : A -> M World C) :
  prov n known m -> (forall a, prov n known (k a)) -> prov n known (bind m k).
Proof.
  intros Hm Hk s o s' Hn H. unfold bind in H.
  destruct (m s) as [[a|e] s1] eqn:Em.
  - destruct (Hm _ _ _ Hn Em) as (Hn1 & t1 & Ht1 & _).
    destruct (Hk a _ _ _ Hn1 H) as (Hn2 & t2 & Ht2 & Hr).
    split; [exact Hn2|]. exists (t1 ++ t2). split.
    + now rewrite Ht2, Ht1, app_assoc.
    + intros e He. destruct (Hr e He) as [?|?]; [now left|right].
      rewrite raised_app. apply in_or_app. now right.
  - inversion H; subst. destruct (Hm _ _ _ Hn Em) as (Hn1 & t1 & Ht1 & Hr).
    split; [exact Hn1|]. exists t1. split; [exact Ht1|].
    intros e' He'. inversion He'; subst. exact (Hr e' eq_refl).
Qed.

Lemma prov_try_catch {A} n known (m : M World A) (h : Thrown -> M World A) :
  prov n known m -> (forall e, prov n (e :: known) (h e)) ->
  prov n known (try_catch m h).
Proof.
  intros Hm Hh s o s' Hn H. unfold try_catch in H.
  destruct (m s) as [[a|e] s1] eqn:Em.
  - inversion H; subst. exact (Hm _ _ _ Hn Em).
  - destruct (Hm _ _ _ Hn Em) as (Hn1 & t1 & Ht1 & Hr1).
    destruct (Hh e _ _ _ Hn1 H) as (Hn2 & t2 & Ht2 & Hr2).
    split; [exact Hn2|]. exists (t1 ++ t2). split.
    + now rewrite Ht2, Ht1, app_assoc.
    + intros e' He'. rewrite raised_app.
      destruct (Hr2 e' He') as [[<-|Hk]|Hin].
      * destruct (Hr1 e eq_refl) as [?|?]; [now left|right].
        apply in_or_app. now left.
      * now left.
      * right. apply in_or_app. now right.
Qed.

Lemma prov_call n known io f : prov n known (call (World := World) io f).
Proof.
  intros s o s' Hn H. unfold call in H.
  destruct (f (world s)) as [[e|] w1]; inversion H; subst; (split; [exact Hn|]);
    eexists; (split; [reflexivity|]); intros e' He'; inversion He'; subst.
  right. simpl. now left.
Qed.

Lemma prov_ask {A} n known io (f : World -> Thrown + A) : prov n known (ask io f).
Proof.
  intros s o s' Hn H. unfold ask in H.
  destruct (f (world s)) as [e|a]; inversion H; subst; (split; [exact Hn|]);
    eexists; (split; [reflexivity|]); intros e' He'; inversion He'; subst.
  right. simpl. now left.
Qed.

Lemma prov_deref n known this : this < n -> prov n known (deref (World := World) this).
Proof.
  intros Hlt s o s' Hn H. unfold deref in H.
  destruct (nth_error (heap s) this) eqn:E.
  - inversion H; subst. split; [exact Hn|]. exists [].
    split; [now rewrite app_nil_r | intros e He; discriminate He].
  - apply nth_error_None in E. lia.
Qed.

Lemma prov_assign n known this f : prov n known (assign (World := World) this f).
Proof.
  intros s o s' Hn H. inversion H; subst. simpl. rewrite update_nth_length.
  split; [exact Hn|]. exists [].
  split; [now rewrite app_nil_r | intros e He; discriminate He].
Qed.

Lemma prov_new {C} n known p (k : nat -> M World C) :
  (forall r, n <= r -> prov (S r) known (k r)) -> prov n known (bind (new p) k).
Proof.
  intros Hk s o s' Hn H. unfold bind, new in H.
  match type of H with k ?r ?s1 = _ =>
    assert (Hlen : S r <= length (heap s1)) by (simpl; rewrite length_app; simpl; lia);
    destruct (Hk r Hn _ _ _ Hlen H) as (Hn2 & t2 & Ht2 & Hr)
  end.
  split; [lia|]. exists t2. split; [exact Ht2 | exact Hr].
Qed.

Lemma prov_getCredentials n known this : this < n -> prov n known (getCredentials this).
Proof.
  intros Hlt. unfold getCredentials. apply prov_bind; [now apply prov_deref|].
  intros o. destruct (Lazy.credentials o); [apply prov_ret|].
  apply prov_bind; [apply prov_ask|]. intros c.
  apply prov_bind; [apply prov_assign|]. intros _. apply prov_ret.
Qed.

Lemma prov_getClient n known this : this < n -> prov n known (getClient this).
Proof.
  intros Hlt. unfold getClient. apply prov_bind; [now apply prov_deref|].
  intros o. destruct (Lazy.client o); [apply prov_ret|].
  apply prov_bind.
  - destruct (Lazy.credentials o); [apply prov_ret|].
    apply prov_bind; [now apply prov_getCredentials|]. intros d.
    apply prov_bind; [apply prov_assign|]. intros _. apply prov_ret.
  - intros creds. apply prov_bind; [apply prov_assign|]. intros _.
    apply prov_bind; [apply prov_call|]. intros _. apply prov_ret.
Qed.

Lemma prov_end_ n known this : this < n -> prov n known (end_ this).
Proof.
  intros Hlt. unfold end_. apply prov_bind; [now apply prov_deref|].
  intros o. destruct (Lazy.client o); [apply prov_call | apply prov_ret].
Qed.

Lemma prov_in_hd {A} n known e : prov n (e :: known) (throw (World := World) (A := A) e).
Proof. apply prov_throw. now left. Qed.

Lemma prov_update_query n known this sql :
  this < n ->
  prov n known (client <- getClient this ;; client_query client sql).
Proof.
  intros Hlt. apply prov_bind; [now apply prov_getClient|].
  intros c. apply prov_call.
Qed.

Lemma prov_handleUpdate (event : UpdateEvent.t) :
  prov 0 [identityError] (handleUpdate event).
Proof.
  unfold handleUpdate. apply prov_new. intros userClient _.
  apply prov_bind; [apply prov_getCredentials; lia|]. intros userCredentials.
  destruct (negb _); [apply prov_throw; now left|].
  apply prov_new. intros adminClient Hadmin.
  assert (Hu : userClient < S adminClient) by lia.
  assert (Ha : adminClient < S adminClient) by lia.
  repeat (apply prov_bind; [|intros _]).
  - unfold updateUserExists. destruct (onUpdateIfUserDoesNotExist _); [apply prov_ret|].
    apply prov_try_catch; [now apply prov_update_query|].
    intros e. destruct (negb (isPostgresError e)); [apply prov_in_hd|].
    destruct (negb (code_is e _)); [apply prov_in_hd | apply prov_ret].
  - unfold updateUserPassword. destruct (onUpdateSetUserPassword _);
      [now apply prov_update_query | apply prov_ret].
  - unfold updateUserPermissions. destruct (onUpdateSetUserPermissions _);
      [now apply prov_update_query | apply prov_ret].
  - unfold updateDatabaseExists. destruct (onUpdateIfDatabaseDoesNotExist _); [apply prov_ret|].
    apply prov_try_catch; [now apply prov_update_query|].
    intros e. destruct (negb (isPostgresError e)); [apply prov_in_hd|].
    destruct (negb (code_is e _)); [apply prov_in_hd | apply prov_ret].
  - unfold updateDatabaseOwnership. destruct (onUpdateSetDatabaseOwnership _);
      [now apply prov_update_query | apply prov_ret].
  - now apply prov_end_.
  - now apply prov_end_.
  - apply prov_ret.
Qed.

Lemma run_provenance {A} known (m : M World A) (w : World) :
  prov 0 known m ->
  forall e, fst (fst (run m w)) = Rejected e ->
            In e known \/ In e (raised (snd (run m w))).
Proof.
  intros Hm e. unfold run.
  destruct (m _) as [o s'] eqn:E. simpl. intros ->.
  destruct (Hm _ _ _ (le_0_n _) E) as (_ & t' & Ht & Hr).
  simpl in Ht. rewrite Ht. exact (Hr e eq_refl).
Qed.
End Provenance.

Section QuietRuns.
Context {World : Type} {B : Backend World}.

(** A set of worlds in which the database answers every call with success,
    closed under those calls. *)
Variable Quiet : World -> Prop.
Hypothesis Quiet_connect :
  forall c w, Quiet w -> exists w', connect c w = (None, w') /\ Quiet w'.
Hypothesis Quiet_query :
  forall c sql w, Quiet w -> exists w', query c sql w = (None, w') /\ Quiet w'.
Hypothesis Quiet_end :
  forall c w, Quiet w -> exists w', endClient c w = (None, w') /\ Quiet w'.

Ltac quiet_step :=
  match goal with
  | HQ : Quiet ?w |- context [connect ?c ?w] =>
      let w' := fresh "w" in let E := fresh "E" in let Q := fresh "HQ" in
      destruct (Quiet_connect c w HQ) as (w' & E & Q); rewrite E; clear E
  | HQ : Quiet ?w |- context [query ?c ?sql ?w] =>
      let w' := fresh "w" in let E := fresh "E" in let Q := fresh "HQ" in
      destruct (Quiet_query c sql w HQ) as (w' & E & Q); rewrite E; clear E
  | HQ : Quiet ?w |- context [endClient ?c ?w] =>
      let w' := fresh "w" in let E := fresh "E" in let Q := fresh "HQ" in
      destruct (Quiet_end c w HQ) as (w' & E & Q); rewrite E; clear E
  | HQ : Quiet ?w, HS : forall w', Quiet w' -> getSecretValue ?a w' = _
    |- context [getSecretValue ?a ?w] =>
      rewrite (HS w HQ)
  end; js_eval.

Lemma handleUpdate_quiet (event : UpdateEvent.t) (w : World)
    (userCredentials adminCredentials : DbCredentials) :
  let rp := UpdateEvent.ResourceProperties event in
  Quiet w ->
  getSecretValue (userSecretArn rp) w = inr userCredentials ->
  (forall w', Quiet w' -> getSecretValue (dbSecretArn rp) w' = inr adminCredentials) ->
  UpdateEvent.PhysicalResourceId event = physicalResourceId rp userCredentials ->
  exists w' t,
    run (handleUpdate event) w
    = (Resolved {| PhysicalResourceId := UpdateEvent.PhysicalResourceId event |}, w', t)
    /\ queries_of t = updatePlan rp userCredentials adminCredentials.
Proof.
  intros rp HQ Huser Hadmin Htoken. subst rp.
  destruct event as [id rp].
  cbn [UpdateEvent.ResourceProperties UpdateEvent.PhysicalResourceId] in *.
  unfold updatePlan.
  js_eval. rewrite Huser. js_eval. rewrite Htoken, String.eqb_refl. js_eval.
  destruct (onUpdateIfUserDoesNotExist rp), (onUpdateSetUserPassword rp),
    (onUpdateSetUserPermissions rp), (onUpdateIfDatabaseDoesNotExist rp),
    (onUpdateSetDatabaseOwnership rp);
    js_eval; repeat quiet_step; (do 2 eexists; split; reflexivity).
Qed.

(** C10.  [handleUpdate] has no check of the user's name against the
    admin's.  With both secrets resolving to the same username and a valid
    token, on a database that accepts every call, the Update resolves with
    the token of the event after sending exactly the statements its
    policies select.  From any world, whatever [handleUpdate] rejects with
    is the identity error or a value thrown by a call to the outside: the
    collision error, which is a different value, is never raised by the
    handler itself.  In the same world and for the same properties a Create,
    and a Delete with [onDelete = Delete], are rejected with the collision
    error. *)
Theorem handleUpdate_no_collision_check (event : UpdateEvent.t) (w : World)
    (userCredentials adminCredentials : DbCredentials) :
  let rp := UpdateEvent.ResourceProperties event in
  let id := UpdateEvent.PhysicalResourceId event in
  Quiet w ->
  getSecretValue (userSecretArn rp) w = inr userCredentials ->
  (forall w', Quiet w' -> getSecretValue (dbSecretArn rp) w' = inr adminCredentials) ->
  username userCredentials = username adminCredentials ->
  id = physicalResourceId rp userCredentials ->
  (exists w' t,
      run (handleUpdate event) w = (Resolved {| PhysicalResourceId := id |}, w', t)
      /\ queries_of t = updatePlan rp userCredentials adminCredentials)
  /\ (forall (w0 : World) (e : Thrown),
        fst (fst (run (handleUpdate event) w0)) = Rejected e ->
        e = identityError \/ In e (raised (snd (run (handleUpdate event) w0))))
  /\ identityError <> collisionError
  /\ fst (fst (run (handleCreate {| CreateEvent.ResourceProperties := rp |}) w))
     = Rejected collisionError
  /\ (onDelete rp = OnDelete.Delete ->
      fst (fst (run (handleDelete {| DeleteEvent.PhysicalResourceId := id;
                                     DeleteEvent.ResourceProperties := rp |}) w))
      = Rejected collisionError).
Proof.
  intros rp id HQ Huser Hadmin Hsame Htoken. split; [|split; [|split; [|split]]].
  - exact (handleUpdate_quiet event w userCredentials adminCredentials
             HQ Huser Hadmin Htoken).
  - intros w0 e He.
    destruct (run_provenance [identityError] (handleUpdate event) w0
                (prov_handleUpdate event) e He) as [[<-|[]]|Hin];
      [now left | now right].
  - intros H. discriminate H.
  - rewrite (handleCreate_rejects_collision {| CreateEvent.ResourceProperties := rp |}
               w userCredentials adminCredentials Huser (Hadmin w HQ) Hsame).
    reflexivity.
  - intros Hdel.
    rewrite (handleDelete_rejects_collision
               {| DeleteEvent.PhysicalResourceId := id;
                  DeleteEvent.ResourceProperties := rp |}
               w userCredentials adminCredentials Hdel Huser (Hadmin w HQ) Hsame).
    reflexivity.
Qed.
End QuietRuns.

Section PasswordOnly.
Context {World : Type} {B : Backend World}.

(** C7.  An Update request whose token validates, with
    [onUpdateSetUserPassword = Always] and every other update policy
    [Ignore] or [Never]: whatever the outside answers, every statement sent
    is the [ALTER USER ... WITH PASSWORD] statement, on the admin's client,
    and there is at most one; when the handler resolves, exactly that one
    statement was sent and the response carries the [PhysicalResourceId] of
    the event; and it does resolve when the admin's secret is read, the
    connection opens, the statement succeeds and the connection closes. *)
Theorem handleUpdate_password_only (event : UpdateEvent.t) (w : World)
    (userCredentials : DbCredentials) :
  let rp := UpdateEvent.ResourceProperties event in
  let id := UpdateEvent.PhysicalResourceId event in
  let sql := Sql.alterUserPassword userCredentials in
  onUpdateIfUserDoesNotExist rp = IfDoesNotExist.Ignore ->
  onUpdateSetUserPassword rp = OnUpdateSet.Always ->
  onUpdateSetUserPermissions rp = OnUpdateSet.Never ->
  onUpdateIfDatabaseDoesNotExist rp = IfDoesNotExist.Ignore ->
  onUpdateSetDatabaseOwnership rp = OnUpdateSet.Never ->
  getSecretValue (userSecretArn rp) w = inr userCredentials ->
  id = physicalResourceId rp userCredentials ->
  let r := run (handleUpdate event) w in
  (forall c q, In (c, q) (queries_of (snd r)) ->
     q = sql
     /\ exists adminCredentials,
          getSecretValue (dbSecretArn rp) w = inr adminCredentials
          /\ c = Lazy.newClient 1 (adminProps rp) adminCredentials)
  /\ length (queries_of (snd r)) <= 1
  /\ (forall response, fst (fst r) = Resolved response ->
        PhysicalResourceId response = id /\ map snd (queries_of (snd r)) = [sql])
  /\ (forall adminCredentials w1 w2 w3,
        getSecretValue (dbSecretArn rp) w = inr adminCredentials ->
        let c := Lazy.newClient 1 (adminProps rp) adminCredentials in
        connect c w = (None, w1) ->
        query c sql w1 = (None, w2) ->
        endClient c w2 = (None, w3) ->
        r = (Resolved {| PhysicalResourceId := id |}, w3,
             [(GetSecretValue (userSecretArn rp), None);
              (GetSecretValue (dbSecretArn rp), None);
              (Connect c, None); (Query c sql, None); (End c, None)])).
Proof.
  intros rp id sql H1 H2 H3 H4 H5 Huser Htoken r. subst rp id sql r.
  open_event event.
  js_eval. rewrite H1, H2, H3, H4, H5, Huser. js_eval.
  rewrite Htoken, String.eqb_refl. js_eval.
  repeat js_case; cbn [fst snd queries_of In length map].
  all: split; [|split; [|split]].
  all: try lia.
  all: try (intros cl stmt Hin; repeat destruct Hin as [Hin|Hin]; try contradiction;
      inversion Hin; subst; split; [reflexivity | eexists; split; reflexivity]).
  all: try (intros response Hr; inversion Hr; split; reflexivity).
  all: intros ac' w1' w2' w3' Ha Hc Hq He; try discriminate Ha;
    injection Ha as <-; same_answers; try reflexivity.
Qed.
End PasswordOnly.

(** On the scripted backend, the worlds whose script has run out and whose
    two secrets both name [svc]. *)
Lemma handleUpdate_no_collision_check_witness :
  (exists w' t,
      run (handleUpdate (B := Mock.backend) Examples.update_all) Examples.colliding
      = (Resolved {| PhysicalResourceId := "db.local/app/svc" |}, w', t)
      /\ queries_of t
         = updatePlan Examples.rp_all Examples.svc Examples.svc)
  /\ (forall (w0 : Mock.World) (e : Thrown),
        fst (fst (run (handleUpdate (B := Mock.backend) Examples.update_all) w0))
        = Rejected e ->
        e = identityError
        \/ In e (raised (snd (run (handleUpdate (B := Mock.backend)
                                     Examples.update_all) w0))))
  /\ identityError <> collisionError
  /\ fst (fst (run (handleCreate (B := Mock.backend)
                     {| CreateEvent.ResourceProperties := Examples.rp_all |})
                 Examples.colliding))
     = Rejected collisionError
  /\ (OnDelete.Delete = OnDelete.Delete ->
      fst (fst (run (handleDelete (B := Mock.backend)
                       {| DeleteEvent.PhysicalResourceId := "db.local/app/svc";
                          DeleteEvent.ResourceProperties := Examples.rp_all |})
                  Examples.colliding))
      = Rejected collisionError).
Proof.
  refine (handleUpdate_no_collision_check (B := Mock.backend)
            (fun w => Mock.script w = []
                      /\ Mock.secrets w = Mock.secrets Examples.colliding)
            _ _ _ Examples.update_all Examples.colliding Examples.svc Examples.svc
            (conj eq_refl eq_refl) eq_refl _ eq_refl eq_refl).
  - intros c w [Hs Hk]. exists w. simpl. unfold Mock.answer. rewrite Hs. now split.
  - intros c sql w [Hs Hk]. exists w. simpl. unfold Mock.answer. rewrite Hs. now split.
  - intros c w [Hs Hk]. exists w. simpl. unfold Mock.answer. rewrite Hs. now split.
  - intros w' [Hs Hk]. simpl. rewrite Hk. reflexivity.
Defined.

Lemma handleUpdate_password_only_witness :
  run (handleUpdate (B := Pg.backend) Examples.update_password) Pg.populated
  = (Resolved {| PhysicalResourceId := "db.local/app/svc" |}, Pg.populated,
     [(GetSecretValue "arn:user", None);
      (GetSecretValue "arn:admin", None);
      (Connect (Lazy.newClient 1 (adminProps Examples.rp) Examples.root), None);
      (Query (Lazy.newClient 1 (adminProps Examples.rp) Examples.root)
         "ALTER USER svc WITH PASSWORD 's3cret';", None);
      (End (Lazy.newClient 1 (adminProps Examples.rp) Examples.root), None)]).
Proof.
  exact (proj2 (proj2 (proj2
           (handleUpdate_password_only (B := Pg.backend) Examples.update_password
              Pg.populated Examples.svc eq_refl eq_refl eq_refl eq_refl eq_refl
              eq_refl eq_refl)))
           Examples.root
           (Pg.with_sessions [Lazy.newClient 1 (adminProps Examples.rp) Examples.root]
              Pg.populated)
           (Pg.with_sessions [Lazy.newClient 1 (adminProps Examples.rp) Examples.root]
              Pg.populated)
           Pg.populated eq_refl eq_refl eq_refl eq_refl).
Defined.

Section DeleteRuns.
Context {World : Type} {B : Backend World}.

(** A Delete that resolves has read both secrets, found the names distinct,
    connected as the admin, and had both drops and the [end] succeed. *)
Lemma handleDelete_resolved_inv (event : DeleteEvent.t) (w w' : World)
    (response : Response) (t : Trace) :
  let rp := DeleteEvent.ResourceProperties event in
  onDelete rp = OnDelete.Delete ->
  run (handleDelete event) w = (Resolved response, w', t) ->
  exists userCredentials adminCredentials wa wb wc,
    let c := Lazy.newClient 0 (adminProps rp) adminCredentials in
    getSecretValue (userSecretArn rp) w = inr userCredentials
    /\ getSecretValue (dbSecretArn rp) w = inr adminCredentials
    /\ String.eqb (username userCredentials) (username adminCredentials) = false
    /\ connect c w = (None, wa)
    /\ query c (Sql.dropDatabaseIfExists (databaseName rp)) wa = (None, wb)
    /\ query c (Sql.dropUserIfExists userCredentials) wb = (None, wc)
    /\ endClient c wc = (None, w')
    /\ response = {| PhysicalResourceId := DeleteEvent.PhysicalResourceId event |}
    /\ queries_of t = [(c, Sql.dropDatabaseIfExists (databaseName rp));
                       (c, Sql.dropUserIfExists userCredentials)].
Proof.
  intros rp Hdel. subst rp. open_event event. revert Hdel.
  js_eval. intros ->. js_eval.
  js_case; [discriminate|]. js_case; [discriminate|].
  destruct (String.eqb _ _) eqn:Hne; [discriminate|]. js_eval.
  js_case; [discriminate|]. js_case; [discriminate|].
  js_case; [discriminate|]. js_case; [discriminate|].
  intros H. inversion H; subst.
  do 5 eexists. cbv zeta.
  repeat (split; [first [eassumption | reflexivity]|]). reflexivity.
Qed.

Lemma handleDelete_resolved_intro (event : DeleteEvent.t) (w w' : World)
    (userCredentials adminCredentials : DbCredentials) (wa wb wc : World) :
  let rp := DeleteEvent.ResourceProperties event in
  let c := Lazy.newClient 0 (adminProps rp) adminCredentials in
  onDelete rp = OnDelete.Delete ->
  getSecretValue (userSecretArn rp) w = inr userCredentials ->
  getSecretValue (dbSecretArn rp) w = inr adminCredentials ->
  String.eqb (username userCredentials) (username adminCredentials) = false ->
  connect c w = (None, wa) ->
  query c (Sql.dropDatabaseIfExists (databaseName rp)) wa = (None, wb) ->
  query c (Sql.dropUserIfExists userCredentials) wb = (None, wc) ->
  endClient c wc = (None, w') ->
  exists t,
    run (handleDelete event) w
    = (Resolved {| PhysicalResourceId := DeleteEvent.PhysicalResourceId event |}, w', t)
    /\ queries_of t = [(c, Sql.dropDatabaseIfExists (databaseName rp));
                       (c, Sql.dropUserIfExists userCredentials)].
Proof.
  intros rp c Hdel Hu Ha Hne Hc Hq1 Hq2 He. subst rp c. open_event event.
  cbv beta delta [adminProps] in Hc, Hq1, Hq2, He.
  js_eval. rewrite Hdel. js_eval. rewrite Hu. js_eval. rewrite Ha. js_eval.
  rewrite Hne. js_eval. rewrite Hc. js_eval. rewrite Hq1. js_eval.
  rewrite Hq2. js_eval. rewrite He. js_eval.
  eexists. split; reflexivity.
Qed.
End DeleteRuns.

(** ** Facts about the server model *)

Module PgFacts.
Import Pg.

Lemma length_append (a b : string) :
  String.length (a ++ b) = String.length a + String.length b.
Proof. induction a as [|c a IH]; simpl; [reflexivity | now rewrite IH]. Qed.

Lemma strip_suffix_unfold (suf s : string) :
  strip_suffix suf s
  = if String.eqb s suf then Some EmptyString
    else match s with
         | EmptyString => None
         | String c s' => option_map (String c) (strip_suffix suf s')
         end.
Proof. destruct s; reflexivity. Qed.

Lemma strip_suffix_app (suf d : string) : strip_suffix suf (d ++ suf) = Some d.
Proof.
  induction d as [|c d IH]; rewrite strip_suffix_unfold.
  - simpl. now rewrite String.eqb_refl.
  - destruct (String.eqb_spec ((String c d ++ suf)%string) suf) as [E|_].
    + apply (f_equal String.length) in E. simpl in E.
      rewrite length_append in E. lia.
    + simpl. now rewrite IH.
Qed.

Lemma parse_dropDatabaseIfExists (d : string) :
  parse (Sql.dropDatabaseIfExists d) = Some (DropDatabase true d).
Proof.
  unfold parse, Sql.dropDatabaseIfExists. cbn -[strip_suffix].
  unfold name_then. now rewrite strip_suffix_app.
Qed.

Lemma parse_dropUserIfExists (c : DbCredentials) :
  parse (Sql.dropUserIfExists c) = Some (DropUser true (username c)).
Proof.
  unfold parse, Sql.dropUserIfExists. cbn -[strip_suffix].
  unfold name_then. now rewrite strip_suffix_app.
Qed.

Lemma config_eqb_refl (c : ClientConfig) : config_eqb c c = true.
Proof.
  unfold config_eqb. now rewrite !String.eqb_refl, N.eqb_refl.
Qed.

Lemma client_eqb_refl (c : PgClient) : client_eqb c c = true.
Proof.
  unfold client_eqb. now rewrite Nat.eqb_refl, config_eqb_refl.
Qed.

Lemma find_role_name (u : string) (rs : list Role) (r : Role) :
  find_role u rs = Some r -> rolname r = u.
Proof.
  intros H. apply find_some in H. now apply String.eqb_eq.
Qed.

Lemma has_database_dropped (d : string) (ds : list Database) :
  has_database d (filter (fun x => negb (String.eqb (datname x) d)) ds) = false.
Proof.
  induction ds as [|x ds IH]; simpl; [reflexivity|].
  destruct (String.eqb (datname x) d) eqn:E; simpl; [exact IH|].
  now rewrite E.
Qed.

Lemma has_database_kept (d d' : string) (ds : list Database) :
  String.eqb d' d = false ->
  has_database d' (filter (fun x => negb (String.eqb (datname x) d)) ds)
  = has_database d' ds.
Proof.
  intros Hne. induction ds as [|x ds IH]; simpl; [reflexivity|].
  destruct (String.eqb (datname x) d) eqn:E; simpl.
  - apply String.eqb_eq in E. rewrite E, String.eqb_sym, Hne. exact IH.
  - now rewrite IH.
Qed.

Lemma has_role_dropped (u : string) (rs : list Role) :
  has_role u (filter (fun r => negb (String.eqb (rolname r) u)) rs) = false.
Proof.
  induction rs as [|x rs IH]; simpl; [reflexivity|].
  destruct (String.eqb (rolname x) u) eqn:E; simpl; [exact IH|].
  now rewrite E.
Qed.

Lemma find_role_kept (u u' : string) (rs : list Role) :
  String.eqb u' u = false ->
  find_role u' (filter (fun r => negb (String.eqb (rolname r) u)) rs)
  = find_role u' rs.
Proof.
  intros Hne. induction rs as [|x rs IH]; simpl; [reflexivity|].
  destruct (String.eqb (rolname x) u) eqn:E; simpl.
  - apply String.eqb_eq in E. rewrite E, String.eqb_sym, Hne. exact IH.
  - destruct (String.eqb (rolname x) u'); [reflexivity | exact IH].
Qed.

(** What a successful [connect] tells about the world. *)
Lemma pg_connect_ok (c : PgClient) (w wa : World) :
  pg_connect c w = (None, wa) ->
  exists r,
    find_role (user (config c)) (roles w) = Some r
    /\ String.eqb (rolpassword r) (cfg_password (config c)) = true
    /\ rolcanlogin r = true
    /\ has_database (database (config c)) (databases w) = true
    /\ wa = with_sessions (c :: sessions w) w.
Proof.
  unfold pg_connect, fails. intros H.
  destruct (find_role _ _) as [r|]; [|discriminate].
  destruct (String.eqb (rolpassword r) _) eqn:Hpw; [|discriminate].
  destruct (rolcanlogin r) eqn:Hlogin; [|discriminate].
  destruct (has_database _ _) eqn:Hdb; [|discriminate].
  simpl in H. inversion H. exists r. repeat split; assumption || reflexivity.
Qed.

(** What a successful [DROP DATABASE IF EXISTS d] leaves behind. *)
Lemma drop_database_if_exists_ok (me : option Role) (current d : string) (w w' : World) :
  exec me current (DropDatabase true d) w = (None, w') ->
  has_database d (databases w') = false
  /\ secrets w' = secrets w /\ roles w' = roles w /\ sessions w' = sessions w
  /\ (has_database current (databases w) = true ->
      has_database current (databases w') = true).
Proof.
  unfold exec, fails. intros H.
  destruct (has_database d (databases w)) eqn:Hd; simpl in H.
  - destruct (may_change_database _ _ _); simpl in H; [|discriminate].
    destruct (String.eqb d current) eqn:Hcur; [discriminate|].
    destruct (in_use _ _); [discriminate|].
    inversion H; subst; simpl. rewrite has_database_dropped.
    repeat split; try reflexivity.
    rewrite has_database_kept; [tauto|]. now rewrite String.eqb_sym.
  - inversion H; subst. repeat split; try assumption; try reflexivity. tauto.
Qed.

(** What a successful [DROP USER IF EXISTS u] leaves behind. *)
Lemma drop_user_if_exists_ok (r : Role) (current u : string) (w w' : World) :
  String.eqb (rolname r) u = false ->
  find_role (rolname r) (roles w) = Some r ->
  exec (Some r) current (DropUser true u) w = (None, w') ->
  may_manage_roles (Some r) = true
  /\ has_role u (roles w') = false
  /\ find_role (rolname r) (roles w') = Some r
  /\ secrets w' = secrets w /\ databases w' = databases w
  /\ sessions w' = sessions w.
Proof.
  unfold exec, fails. intros Hne Hr H.
  destruct (may_manage_roles (Some r)); simpl in H; [|discriminate].
  destruct (has_role u (roles w)) eqn:Hu; simpl in H.
  - rewrite Hne in H.
    destruct (owns_database _ _); [discriminate|].
    inversion H; subst; simpl. rewrite has_role_dropped, find_role_kept by exact Hne.
    repeat split; try reflexivity. exact Hr.
  - inversion H; subst. repeat split; try assumption; reflexivity.
Qed.
End PgFacts.

Module PgDelete.
Import Pg PgFacts.

Lemma filter_again {A} (f : A -> bool) (l : list A) :
  filter f (filter f l) = filter f l.
Proof.
  induction l as [|x l IH]; simpl; [reflexivity|].
  destruct (f x) eqn:E; simpl; [now rewrite E, IH | exact IH].
Qed.

(** After the two drops succeeded once, the database and the role are gone;
    connecting again and sending them again succeeds, changes nothing, and
    the closing of that connection leaves the world as the first run left
    it. *)
Lemma drops_again (c : PgClient) (u : DbCredentials) (d : string)
    (w wa wb wc w1 : World) :
  String.eqb (username u) (user (config c)) = false ->
  connect c w = (None, wa) ->
  query c (Sql.dropDatabaseIfExists d) wa = (None, wb) ->
  query c (Sql.dropUserIfExists u) wb = (None, wc) ->
  endClient c wc = (None, w1) ->
  secrets w1 = secrets w
  /\ has_database d (databases w1) = false
  /\ has_role (username u) (roles w1) = false
  /\ exists wa',
       connect c w1 = (None, wa')
       /\ query c (Sql.dropDatabaseIfExists d) wa' = (None, wa')
       /\ query c (Sql.dropUserIfExists u) wa' = (None, wa')
       /\ endClient c wa' = (None, w1).
Proof.
  intros Hne Hc Hq1 Hq2 He.
  cbn [connect query endClient backend] in *.
  apply pg_connect_ok in Hc as (r & Hr & Hpw & Hlogin & Hdb & ->).
  pose proof (find_role_name _ _ _ Hr) as Hname.
  unfold pg_query in Hq1. cbn [sessions with_sessions roles existsb] in Hq1.
  rewrite client_eqb_refl, parse_dropDatabaseIfExists in Hq1. cbn [negb orb] in Hq1.
  apply drop_database_if_exists_ok in Hq1 as (Hd & Hsecrets & Hroles & Hsessions & Hkeep).
  cbn [secrets roles sessions databases with_sessions] in *.
  unfold pg_query in Hq2. rewrite Hsessions, Hroles, Hr in Hq2.
  cbn [existsb] in Hq2.
  rewrite client_eqb_refl, parse_dropUserIfExists in Hq2. cbn [negb orb] in Hq2.
  assert (Hru : String.eqb (rolname r) (username u) = false)
    by (now rewrite Hname, String.eqb_sym).
  apply drop_user_if_exists_ok in Hq2
      as (Hmanage & Hgone & Hr' & Hsecrets' & Hdatabases' & Hsessions');
    [| exact Hru | now rewrite Hname, Hroles].
  unfold pg_end in He. inversion He; subst w1; clear He.
  cbn [secrets roles sessions databases with_sessions].
  split; [now rewrite Hsecrets', Hsecrets|].
  split; [now rewrite Hdatabases'|]. split; [exact Hgone|].
  rewrite Hname in Hr'.
  eexists. split; [|split; [|split]].
  - unfold pg_connect. cbn [roles databases with_sessions].
    rewrite Hr', Hpw, Hlogin, Hdatabases', (Hkeep Hdb). reflexivity.
  - unfold pg_query. cbn [sessions roles databases with_sessions existsb].
    rewrite client_eqb_refl, parse_dropDatabaseIfExists. cbn [negb orb].
    unfold exec. cbn [databases with_sessions]. now rewrite Hdatabases', Hd.
  - unfold pg_query. cbn [sessions roles databases with_sessions existsb].
    rewrite client_eqb_refl, parse_dropUserIfExists, Hr'. cbn [negb orb].
    unfold exec. cbn [roles with_sessions]. now rewrite Hmanage, Hgone.
  - unfold pg_end, with_sessions.
    cbn [secrets roles sessions databases filter].
    rewrite client_eqb_refl. cbn [negb]. now rewrite filter_again.
Qed.

End PgDelete.



Section Defaults.

Lemma enum_onDelete (v : OnDelete.t) :
  Zod.enum [("Delete", OnDelete.Delete); ("Retain", OnDelete.Retain)]
    (Some (JString (Construct.onDelete_string v))) = Some v.
Proof. destruct v; reflexivity. Qed.

Lemma enum_onCreateIfExists (v : OnCreateIfExists.t) :
  Zod.enum [("Fail", OnCreateIfExists.Fail); ("Adopt", OnCreateIfExists.Adopt);
            ("DeleteAndRecreate", OnCreateIfExists.DeleteAndRecreate)]
    (Some (JString (Construct.onCreateIfExists_string v))) = Some v.
Proof. destruct v; reflexivity. Qed.

Lemma enum_ifDoesNotExist (v : IfDoesNotExist.t) :
  Zod.enum [("Ignore", IfDoesNotExist.Ignore); ("Create", IfDoesNotExist.Create)]
    (Some (JString (Construct.ifDoesNotExist_string v))) = Some v.
Proof. destruct v; reflexivity. Qed.

Lemma enum_onUpdateSet (v : OnUpdateSet.t) :
  Zod.enum [("Always", OnUpdateSet.Always); ("Never", OnUpdateSet.Never)]
    (Some (JString (Construct.onUpdateSet_string v))) = Some v.
Proof. destruct v; reflexivity. Qed.

(** The object the construct sends passes the handler's schema, each policy
    being the caller's when given and the default otherwise. *)
Lemma properties_decoded (d : Construct.Deployed) (props : Construct.PostgresUserAndDatabaseProps) (p : N) :
  Zod.digit_string (Some (JString (Construct.endpointPort d))) = Some p ->
  customResourcePropertiesSchema (Some (Construct.properties d props))
  = Some {| dbClusterHostname := Construct.hostname d;
            dbClusterPort := p;
            dbSecretArn := Construct.dbSecretArn d;
            userSecretArn := Construct.userSecretArn d;
            databaseName := Construct.databaseName props;
            onDelete := Construct.nullish (Construct.onDelete props) OnDelete.Delete;
            onCreateIfExists :=
              Construct.nullish (Construct.onCreateIfExists props) OnCreateIfExists.Fail;
            onUpdateIfUserDoesNotExist :=
              Construct.nullish (Construct.onUpdateIfUserDoesNotExist props) IfDoesNotExist.Ignore;
            onUpdateIfDatabaseDoesNotExist :=
              Construct.nullish (Construct.onUpdateIfDatabaseDoesNotExist props)
                IfDoesNotExist.Ignore;
            onUpdateSetUserPassword :=
              Construct.nullish (Construct.onUpdateSetUserPassword props) OnUpdateSet.Never;
            onUpdateSetUserPermissions :=
              Construct.nullish (Construct.onUpdateSetUserPermissions props) OnUpdateSet.Never;
            onUpdateSetDatabaseOwnership :=
              Construct.nullish (Construct.onUpdateSetDatabaseOwnership props) OnUpdateSet.Never |}.
Proof.
  intros Hport. unfold customResourcePropertiesSchema, Construct.properties.
  cbn [lookup app String.eqb Ascii.eqb Bool.eqb].
  rewrite Hport, enum_onDelete, enum_onCreateIfExists, !enum_ifDoesNotExist,
    !enum_onUpdateSet.
  reflexivity.
Qed.

(** The handler's schema itself has no default: an object without one of
    the seven policies is refused. *)
Lemma schema_has_no_default (f : list (string * Json)) :
  lookup "onDelete" f = None \/ lookup "onCreateIfExists" f = None
  \/ lookup "onUpdateIfUserDoesNotExist" f = None
  \/ lookup "onUpdateIfDatabaseDoesNotExist" f = None
  \/ lookup "onUpdateSetUserPassword" f = None
  \/ lookup "onUpdateSetUserPermissions" f = None
  \/ lookup "onUpdateSetDatabaseOwnership" f = None ->
  customResourcePropertiesSchema (Some (JObject f)) = None.
Proof.
  unfold customResourcePropertiesSchema.
  intros [H|[H|[H|[H|[H|[H|H]]]]]]; rewrite H; cbn [Zod.enum Zod.string_];
    repeat match goal with
      | |- context [match ?x with Some _ => _ | None => _ end] => destruct x
      end; reflexivity.
Qed.

(** C8.  Each of the seven policies the caller of the construct leaves out
    reaches the handler as the safe choice: the [properties] object the
    construct builds passes the handler's schema, and in the decoded
    properties an absent [onCreateIfExists] is [Fail], [onDelete] is
    [Delete], [onUpdateIfUserDoesNotExist] and
    [onUpdateIfDatabaseDoesNotExist] are [Ignore], and
    [onUpdateSetUserPassword], [onUpdateSetUserPermissions] and
    [onUpdateSetDatabaseOwnership] are [Never]. *)
Theorem policy_defaults (d : Construct.Deployed)
    (props : Construct.PostgresUserAndDatabaseProps) (p : N) :
  Zod.digit_string (Some (JString (Construct.endpointPort d))) = Some p ->
  exists rp,
    customResourcePropertiesSchema (Some (Construct.properties d props)) = Some rp
    /\ (Construct.onCreateIfExists props = None ->
        onCreateIfExists rp = OnCreateIfExists.Fail)
    /\ (Construct.onDelete props = None -> onDelete rp = OnDelete.Delete)
    /\ (Construct.onUpdateIfUserDoesNotExist props = None ->
        onUpdateIfUserDoesNotExist rp = IfDoesNotExist.Ignore)
    /\ (Construct.onUpdateIfDatabaseDoesNotExist props = None ->
        onUpdateIfDatabaseDoesNotExist rp = IfDoesNotExist.Ignore)
    /\ (Construct.onUpdateSetUserPassword props = None ->
        onUpdateSetUserPassword rp = OnUpdateSet.Never)
    /\ (Construct.onUpdateSetUserPermissions props = None ->
        onUpdateSetUserPermissions rp = OnUpdateSet.Never)
    /\ (Construct.onUpdateSetDatabaseOwnership props = None ->
        onUpdateSetDatabaseOwnership rp = OnUpdateSet.Never).
Proof.
  intros Hport. eexists. split; [exact (properties_decoded d props p Hport)|].
  cbn [onCreateIfExists onDelete onUpdateIfUserDoesNotExist
       onUpdateIfDatabaseDoesNotExist onUpdateSetUserPassword
       onUpdateSetUserPermissions onUpdateSetDatabaseOwnership].
  repeat split; intros ->; reflexivity.
Qed.
End Defaults.

Lemma policy_defaults_witness :
  exists rp,
    customResourcePropertiesSchema
      (Some (Construct.properties Construct.deployed Construct.no_policies)) = Some rp
    /\ onCreateIfExists rp = OnCreateIfExists.Fail
    /\ onDelete rp = OnDelete.Delete
    /\ onUpdateIfUserDoesNotExist rp = IfDoesNotExist.Ignore
    /\ onUpdateIfDatabaseDoesNotExist rp = IfDoesNotExist.Ignore
    /\ onUpdateSetUserPassword rp = OnUpdateSet.Never
    /\ onUpdateSetUserPermissions rp = OnUpdateSet.Never
    /\ onUpdateSetDatabaseOwnership rp = OnUpdateSet.Never.
Proof.
  destruct (policy_defaults Construct.deployed Construct.no_policies 5432 eq_refl)
    as (rp & Hrp & H1 & H2 & H3 & H4 & H5 & H6 & H7).
  exists rp. split; [exact Hrp|].
  repeat split; [apply H1 | apply H2 | apply H3 | apply H4 | apply H5 | apply H6 | apply H7];
    reflexivity.
Defined.


(** Through [decodeEvent]: a Create event carrying the construct's object for
    a caller who set no policy is the event with the seven defaults, and an
    event whose properties lack the policies is refused. *)
Example decodeEvent_defaults :
  decodeEvent
    (JObject [("RequestType", JString "Create");
              ("ResourceProperties",
               Construct.properties Construct.deployed Construct.no_policies)])
  = inr (Create {| CreateEvent.ResourceProperties := Examples.rp |}).
Proof. vm_compute. reflexivity. Qed.

Example decodeEvent_requires_policies :
  decodeEvent
    (JObject [("RequestType", JString "Create");
              ("ResourceProperties",
               JObject [("dbClusterHostname", JString "db.local");
                        ("dbClusterPort", JString "5432");
                        ("dbSecretArn", JString "arn:admin");
                        ("userSecretArn", JString "arn:user");
                        ("databaseName", JString "app")])])
  = inl ZodError.
Proof. vm_compute. reflexivity. Qed.

Section SecretVersion.
Import LatestSecretVersion.
Context {World : Type} {B : Backend World}.

Lemma handler_update_as_create (event : Json) (e : OnUpdateEvent.t) (w : World) :
  onUpdateSchema event = Some e ->
  run (handler event) w = run (onCreate (asCreate e)) w
  /\ run (handler (withRequestTypeCreate event)) w = run (onCreate (asCreate e)) w.
Proof.
  destruct event as [s|f|]; try discriminate. intros H.
  unfold run, handler, withRequestTypeCreate, onCreateSchema, onUpdateSchema, field,
    literal in *.
  cbn [lookup String.eqb Ascii.eqb Bool.eqb] in *.
  destruct (resourcePropertiesSchema (lookup "ResourceProperties" f)) as [rp|];
    [|discriminate].
  destruct (Zod.string_ (lookup "RequestType" f)) as [t|]; [|discriminate].
  destruct (String.eqb t "Update") eqn:Ht; [|discriminate].
  apply String.eqb_eq in Ht. subst t.
  destruct (Zod.string_ (lookup "PhysicalResourceId" f)) as [id|]; [|discriminate].
  inversion H; subst e. cbn. split; reflexivity.
Qed.

Lemma handler_delete (event : Json) (e : OnDeleteEvent.t) (w : World) :
  onDeleteSchema event = Some e ->
  run (handler event) w = run (onDelete e) w.
Proof.
  destruct event as [s|f|]; try discriminate. intros H.
  unfold run, handler, onCreateSchema, onUpdateSchema, onDeleteSchema, field,
    literal in *.
  destruct (resourcePropertiesSchema (lookup "ResourceProperties" f)) as [rp|];
    [|discriminate].
  destruct (Zod.string_ (lookup "RequestType" f)) as [t|]; [|discriminate].
  destruct (String.eqb t "Delete") eqn:Ht; [|discriminate].
  apply String.eqb_eq in Ht. subst t.
  destruct (Zod.string_ (lookup "PhysicalResourceId" f)) as [id|]; [|discriminate].
  inversion H; subst e. reflexivity.
Qed.

(** C9.  In the secret-version handler an Update is the Create of the same
    event with its [RequestType] replaced: [onUpdate] is [onCreate] on the
    spread event, and for every raw event the Update schema accepts the
    handler answers as it answers that event with [RequestType] set to
    ['Create'].  A Delete looks nothing up: it calls nothing outside and
    answers with the secret's ARN as [PhysicalResourceId] and the
    [PhysicalResourceId] of the event as [LatestVersionId]. *)
Theorem secret_version_update_and_delete (w : World) :
  (forall e : OnUpdateEvent.t, run (onUpdate e) w = run (onCreate (asCreate e)) w)
  /\ (forall (event : Json) (e : OnUpdateEvent.t),
        onUpdateSchema event = Some e ->
        run (handler event) w = run (handler (withRequestTypeCreate event)) w)
  /\ (forall e : OnDeleteEvent.t,
        run (onDelete e) w
        = (Resolved
             {| PhysicalResourceId := secretArn (OnDeleteEvent.ResourceProperties e);
                Data_ := {| LatestVersionId := OnDeleteEvent.PhysicalResourceId e |} |},
           w, []))
  /\ (forall (event : Json) (e : OnDeleteEvent.t),
        onDeleteSchema event = Some e ->
        run (handler event) w = run (onDelete e) w).
Proof.
  split; [reflexivity|]. split; [|split; [reflexivity|]].
  - intros event e He.
    destruct (handler_update_as_create event e w He) as [H1 H2]. now rewrite H1, H2.
  - intros event e He. exact (handler_delete event e w He).
Qed.
End SecretVersion.

Lemma secret_version_update_and_delete_witness :
  run (LatestSecretVersion.handler (B := Mock.backend) Examples.version_update)
    Examples.rotated
  = run (LatestSecretVersion.handler (B := Mock.backend)
           (LatestSecretVersion.withRequestTypeCreate Examples.version_update))
      Examples.rotated.
Proof.
  exact (proj1 (proj2 (secret_version_update_and_delete (B := Mock.backend)
                         Examples.rotated))
           Examples.version_update
           {| LatestSecretVersion.OnUpdateEvent.ResourceProperties :=
                {| LatestSecretVersion.secretArn := "arn:user";
                   LatestSecretVersion.datetime := "2024-02-28T00:00:00.000Z" |};
              LatestSecretVersion.OnUpdateEvent.PhysicalResourceId := "arn:user" |}
           eq_refl).
Defined.

(** What that Update answers: the version staged [AWSCURRENT]. *)
Example secret_version_update_run :
  run (LatestSecretVersion.handler (B := Mock.backend) Examples.version_update)
    Examples.rotated
  = (Resolved {| LatestSecretVersion.PhysicalResourceId := "arn:user";
                 LatestSecretVersion.Data_ :=
                   {| LatestSecretVersion.LatestVersionId := "v2" |} |},
     Examples.rotated,
     [(ListSecretVersionIds "arn:user", None)]).
Proof. vm_compute. reflexivity. Qed.


(** * Further properties *)

(** ** The client manager *)

Section LazyManager.
Context {World : Type} {B : Backend World}.

Lemma nth_error_update_nth {A} (n : nat) (f : A -> A) (l : list A) :
  nth_error (update_nth n f l) n = option_map f (nth_error l n).
Proof.
  revert n. induction l as [|x l IH]; intros [|n]; simpl; auto.
Qed.

(** X1.  [getCredentials] memoizes: once it has resolved, every later call on the
    same manager resolves with the same credentials and calls nothing
    outside, whatever happened to the world and the trace meanwhile. *)
Theorem getCredentials_memoized (this : nat) (s s1 : State World) (c : DbCredentials) :
  getCredentials this s = (Resolved c, s1) ->
  forall s2, heap s2 = heap s1 -> getCredentials this s2 = (Resolved c, s2).
Proof.
  unfold getCredentials, bind, deref, ask, assign, ret. intros H s2 Hheap.
  rewrite Hheap.
  destruct (nth_error (heap s) this) as [o|] eqn:Ho; [|discriminate].
  destruct (Lazy.credentials o) as [c0|] eqn:Hc.
  - inversion H; subst. now rewrite Ho, Hc.
  - destruct (getSecretValue _ (world s)) as [e|a]; [discriminate|].
    inversion H; subst. cbn [heap record].
    rewrite nth_error_update_nth, Ho. reflexivity.
Qed.

(** X2.  [getClient] memoizes: once it has resolved, every later call on the same
    manager resolves with the same client and neither reads a secret nor
    connects. *)
Theorem getClient_memoized (this : nat) (s s1 : State World) (c : PgClient) :
  getClient this s = (Resolved c, s1) ->
  forall s2, heap s2 = heap s1 -> getClient this s2 = (Resolved c, s2).
Proof.
  intros H s2 Hheap.
  assert (Hcached : exists o, nth_error (heap s1) this = Some o /\ Lazy.client o = Some c).
  { revert H. unfold getClient, getCredentials, bind, deref, ask, assign, ret, call.
    destruct (nth_error (heap s) this) as [o|] eqn:Ho; [|discriminate].
    destruct (Lazy.client o) as [c0|] eqn:Hc.
    - intros H. inversion H; subst. now exists o.
    - destruct (Lazy.credentials o) as [d|] eqn:Hd.
      + cbn [heap world record]. destruct (connect _ _) as [[e|] w1]; [discriminate|].
        intros H. inversion H; subst. cbn [heap record].
        rewrite nth_error_update_nth, Ho. eexists. split; reflexivity.
      + rewrite Ho, Hd.
        destruct (getSecretValue _ (world s)) as [e|a]; [discriminate|].
        cbn [heap world record]. destruct (connect _ _) as [[e|] w1]; [discriminate|].
        intros H. inversion H; subst. cbn [heap record].
        rewrite !nth_error_update_nth, Ho. eexists. split; reflexivity. }
  destruct Hcached as (o & Ho & Hc).
  unfold getClient, bind, deref, ret. now rewrite Hheap, Ho, Hc.
Qed.

(** X3.  A failed [connect] leaves the manager holding the client it built: when
    the credentials are there and [connect] throws, [getClient] rejects with
    the value thrown, and the next [getClient] on that manager resolves with
    the unconnected client without connecting again. *)
Theorem getClient_after_failed_connect (this : nat) (s s0 : State World)
    (o : Lazy.t) (creds : DbCredentials) (e : Thrown) (w' : World) :
  nth_error (heap s) this = Some o ->
  Lazy.client o = None ->
  getCredentials this s = (Resolved creds, s0) ->
  let c := Lazy.newClient this (Lazy.props o) creds in
  connect c (world s0) = (Some e, w') ->
  exists s1,
    getClient this s = (Rejected e, s1)
    /\ trace s1 = trace s0 ++ [(Connect c, Some e)]
    /\ forall s2, heap s2 = heap s1 -> getClient this s2 = (Resolved c, s2).
Proof.
  intros Ho Hnone Hcreds c Hconnect. subst c.
  revert Hcreds. unfold getClient at 1, getCredentials, bind, deref, ask, assign, ret, call.
  rewrite Ho, Hnone.
  destruct (Lazy.credentials o) as [d|] eqn:Hd.
  - intros H. inversion H; subst. cbn [heap world record].
    eexists. rewrite Hconnect. split; [reflexivity|]. split; [reflexivity|].
    intros s2 Hheap. unfold getClient, bind, deref, ret. rewrite Hheap.
    cbn [heap record]. rewrite nth_error_update_nth, Ho. reflexivity.
  - destruct (getSecretValue _ (world s)) as [e0|a] eqn:Hsecret; [discriminate|].
    intros H. inversion H; subst. rewrite Ho, Hd, Hsecret. cbn [heap world record] in *.
    eexists. rewrite Hconnect. split; [reflexivity|]. split; [reflexivity|].
    intros s2 Hheap. unfold getClient, bind, deref, ret. rewrite Hheap.
    cbn [heap record]. rewrite !nth_error_update_nth, Ho. reflexivity.
Qed.
End LazyManager.

(** The theorems on the user's manager, with its client not yet built. *)
Lemma getCredentials_memoized_witness :
  getCredentials (B := Mock.backend) 0
    (MoreStates.later
       (heap (snd (getCredentials (B := Mock.backend) 0 (MoreStates.at_start [])))))
  = (Resolved Examples.svc,
     MoreStates.later
       (heap (snd (getCredentials (B := Mock.backend) 0 (MoreStates.at_start []))))).
Proof.
  exact (getCredentials_memoized (B := Mock.backend) 0 (MoreStates.at_start [])
           (snd (getCredentials (B := Mock.backend) 0 (MoreStates.at_start [])))
           Examples.svc eq_refl
           (MoreStates.later
              (heap (snd (getCredentials (B := Mock.backend) 0
                            (MoreStates.at_start [])))))
           eq_refl).
Defined.

Lemma getClient_memoized_witness :
  getClient (B := Mock.backend) 0
    (MoreStates.later
       (heap (snd (getClient (B := Mock.backend) 0 (MoreStates.at_start [None])))))
  = (Resolved (Lazy.newClient 0 (userProps Examples.rp) Examples.svc),
     MoreStates.later
       (heap (snd (getClient (B := Mock.backend) 0 (MoreStates.at_start [None]))))).
Proof.
  exact (getClient_memoized (B := Mock.backend) 0 (MoreStates.at_start [None])
           (snd (getClient (B := Mock.backend) 0 (MoreStates.at_start [None])))
           (Lazy.newClient 0 (userProps Examples.rp) Examples.svc) eq_refl
           (MoreStates.later
              (heap (snd (getClient (B := Mock.backend) 0
                            (MoreStates.at_start [None])))))
           eq_refl).
Defined.

Lemma getClient_after_failed_connect_witness :
  exists s1,
    getClient (B := Mock.backend) 0
      (MoreStates.at_start [Some MoreStates.authentication_failed])
    = (Rejected MoreStates.authentication_failed, s1)
    /\ trace s1
       = [(GetSecretValue "arn:user", None);
          (Connect (Lazy.newClient 0 (userProps Examples.rp) Examples.svc),
           Some MoreStates.authentication_failed)]
    /\ forall s2, heap s2 = heap s1 ->
         getClient (B := Mock.backend) 0 s2
         = (Resolved (Lazy.newClient 0 (userProps Examples.rp) Examples.svc), s2).
Proof.
  exact (getClient_after_failed_connect (B := Mock.backend) 0
           (MoreStates.at_start [Some MoreStates.authentication_failed])
           (snd (getCredentials (B := Mock.backend) 0
                   (MoreStates.at_start [Some MoreStates.authentication_failed])))
           MoreStates.user_manager Examples.svc MoreStates.authentication_failed
           (Examples.scripted []) eq_refl eq_refl eq_refl eq_refl).
Defined.

(** ** More on the three handlers *)

Section HandlerRuns.
Context {World : Type} {B : Backend World}.

(** X4.  An Update with every policy switched off and a valid token reads the
    user's secret and does nothing else: no admin secret, no connection, no
    statement, nothing to close. *)
Theorem handleUpdate_all_off (event : UpdateEvent.t) (w : World)
    (userCredentials : DbCredentials) :
  let rp := UpdateEvent.ResourceProperties event in
  onUpdateIfUserDoesNotExist rp = IfDoesNotExist.Ignore ->
  onUpdateSetUserPassword rp = OnUpdateSet.Never ->
  onUpdateSetUserPermissions rp = OnUpdateSet.Never ->
  onUpdateIfDatabaseDoesNotExist rp = IfDoesNotExist.Ignore ->
  onUpdateSetDatabaseOwnership rp = OnUpdateSet.Never ->
  getSecretValue (userSecretArn rp) w = inr userCredentials ->
  UpdateEvent.PhysicalResourceId event = physicalResourceId rp userCredentials ->
  run (handleUpdate event) w
  = (Resolved {| PhysicalResourceId := UpdateEvent.PhysicalResourceId event |}, w,
     [(GetSecretValue (userSecretArn rp), None)]).
Proof.
  intros rp H1 H2 H3 H4 H5 Huser Htoken. subst rp. open_event event.
  js_eval. rewrite H1, H2, H3, H4, H5, Huser. js_eval.
  rewrite Htoken, String.eqb_refl. reflexivity.
Qed.

(** X5.  Whatever the policies and whatever the outside answers, an Update that
    resolves answers with the [PhysicalResourceId] it was given, and that
    token is [host/database/username] for the user's secret as read at the
    start. *)
Theorem handleUpdate_resolves_with_token (event : UpdateEvent.t) (w w' : World)
    (response : Response) (t : Trace) :
  let rp := UpdateEvent.ResourceProperties event in
  run (handleUpdate event) w = (Resolved response, w', t) ->
  response = {| PhysicalResourceId := UpdateEvent.PhysicalResourceId event |}
  /\ exists userCredentials,
       getSecretValue (userSecretArn rp) w = inr userCredentials
       /\ UpdateEvent.PhysicalResourceId event = physicalResourceId rp userCredentials.
Proof.
  intros rp. subst rp. open_event event.
  cbv beta iota zeta delta
    [run handleUpdate bind ret throw record ask new deref assign getCredentials
     world heap trace nth_error update_nth length app
     Lazy.props Lazy.credentials Lazy.set_credentials Lazy.dbSecretArn userProps negb].
  destruct (getSecretValue _ w) as [e|uc] eqn:Huser; [discriminate|].
  cbv beta iota.
  destruct (String.eqb _ _) eqn:Htoken; [|discriminate].
  apply String.eqb_eq in Htoken.
  destruct (updateUserExists _ _ _ _) as [[[]|?] ?]; [|discriminate].
  destruct (updateUserPassword _ _ _ _) as [[[]|?] ?]; [|discriminate].
  destruct (updateUserPermissions _ _ _ _) as [[[]|?] ?]; [|discriminate].
  destruct (updateDatabaseExists _ _ _) as [[[]|?] ?]; [|discriminate].
  destruct (updateDatabaseOwnership _ _ _ _) as [[[]|?] ?]; [|discriminate].
  destruct (end_ 1 _) as [[[]|?] ?]; [|discriminate].
  destruct (end_ 0 _) as [[[]|?] ?]; [|discriminate].
  intros H. inversion H; subst. split; [reflexivity|].
  exists uc. split; [reflexivity | exact Htoken].
Qed.

(** X6.  When [CREATE USER] throws in a Create and the catch block does not take
    over (the policy is [Fail], or the value thrown is not a Postgres error
    with code 42710), the Create is rejected with that very value: the user
    never connects and [CREATE DATABASE] is never sent. *)
Theorem handleCreate_stops_at_user_error (event : CreateEvent.t) (w w1 w2 : World)
    (userCredentials adminCredentials : DbCredentials) (e : Thrown) :
  let rp := CreateEvent.ResourceProperties event in
  let adminClient := Lazy.newClient 0 (adminProps rp) adminCredentials in
  getSecretValue (userSecretArn rp) w = inr userCredentials ->
  getSecretValue (dbSecretArn rp) w = inr adminCredentials ->
  username userCredentials <> username adminCredentials ->
  connect adminClient w = (None, w1) ->
  query adminClient (Sql.createUser userCredentials) w1 = (Some e, w2) ->
  onCreateIfExists rp = OnCreateIfExists.Fail
  \/ isPostgresErrorWithCode e PostgresErrorCodes.DUPLICATE_OBJECT = false ->
  run (handleCreate event) w
  = (Rejected e, w2,
     [(GetSecretValue (userSecretArn rp), None);
      (GetSecretValue (dbSecretArn rp), None);
      (Connect adminClient, None);
      (Query adminClient (Sql.createUser userCredentials), Some e)]).
Proof.
  intros rp adminClient Huser Hadmin Hne Hc Hq Hor. subst rp adminClient.
  open_event event. cbv beta delta [adminProps] in Hc, Hq.
  apply String.eqb_neq in Hne.
  js_eval. rewrite Huser. js_eval. rewrite Hadmin. js_eval. rewrite Hne. js_eval.
  rewrite Hc. js_eval. rewrite Hq. js_eval.
  unfold isPostgresErrorWithCode in Hor.
  destruct (isPostgresError e); [|reflexivity].
  destruct Hor as [->|Hcode]; [reflexivity|].
  cbn [andb] in Hcode. rewrite Hcode.
  destruct (onCreateIfExists _); reflexivity.
Qed.

(** X7.  Whatever the policy and whatever the outside answers, a Create that
    resolves answers with [host/database/username] of the user's secret, has
    opened exactly two connections, the admin's and then the user's, and
    has closed both, in that order, as the last two calls it made. *)
Theorem handleCreate_resolved (event : CreateEvent.t) (w w' : World)
    (response : Response) (t : Trace) :
  let rp := CreateEvent.ResourceProperties event in
  run (handleCreate event) w = (Resolved response, w', t) ->
  exists userCredentials adminCredentials t0,
    let adminClient := Lazy.newClient 0 (adminProps rp) adminCredentials in
    let userClient := Lazy.newClient 1 (userProps rp) userCredentials in
    getSecretValue (userSecretArn rp) w = inr userCredentials
    /\ getSecretValue (dbSecretArn rp) w = inr adminCredentials
    /\ username userCredentials <> username adminCredentials
    /\ response = {| PhysicalResourceId := physicalResourceId rp userCredentials |}
    /\ connects_of t = [adminClient; userClient]
    /\ t = t0 ++ [(End adminClient, None); (End userClient, None)].
Proof.
  intros rp. subst rp. open_event event.
  js_eval.
  js_case; [discriminate|]. js_case; [discriminate|].
  destruct (String.eqb _ _) eqn:Hne; [discriminate|]. js_eval.
  apply String.eqb_neq in Hne.
  destruct (onCreateIfExists _);
    repeat first
      [ js_case
      | match goal with
        | |- context [isPostgresError ?e] => destruct (isPostgresError e) eqn:?
        | |- context [code_is ?e ?c] => destruct (code_is e c) eqn:?
        end; js_eval ];
    intros H; try discriminate H; inversion H; subst;
    do 2 eexists; eexists; cbv zeta;
    (split; [reflexivity|]); (split; [reflexivity|]); (split; [exact Hne|]);
    (split; [reflexivity|]); (split; [reflexivity|]);
    match goal with
    | |- ?l = ?f ?t0 ?tl => unify t0 (removelast (removelast l)); reflexivity
    end.
Qed.

(** X8.  Whatever the outside answers, a Delete sends nothing but the two
    [IF EXISTS] drops, each at most once and the database's first, and only
    on the client the admin's manager built. *)
Theorem handleDelete_only_drops (event : DeleteEvent.t) (w : World) :
  let rp := DeleteEvent.ResourceProperties event in
  let qs := queries_of (snd (run (handleDelete event) w)) in
  qs = []
  \/ exists userCredentials adminCredentials,
       let adminClient := Lazy.newClient 0 (adminProps rp) adminCredentials in
       getSecretValue (userSecretArn rp) w = inr userCredentials
       /\ getSecretValue (dbSecretArn rp) w = inr adminCredentials
       /\ (qs = [(adminClient, Sql.dropDatabaseIfExists (databaseName rp))]
           \/ qs = [(adminClient, Sql.dropDatabaseIfExists (databaseName rp));
                    (adminClient, Sql.dropUserIfExists userCredentials)]).
Proof.
  intros rp qs. subst rp qs. open_event event.
  js_eval. destruct (onDelete _); [|now left]. js_eval.
  js_case; [now left|]. js_case; [now left|].
  destruct (String.eqb _ _); [now left|]. js_eval.
  js_case; [now left|].
  repeat js_case;
    (right; do 2 eexists; cbv zeta; split; [reflexivity|]; split; [reflexivity|];
     first [left; reflexivity | right; reflexivity]).
Qed.
End HandlerRuns.

(** The theorems on a cluster that already holds the user and its database. *)
Lemma handleUpdate_all_off_witness :
  run (handleUpdate (B := Pg.backend) MoreStates.update_noop) Pg.populated
  = (Resolved {| PhysicalResourceId := "db.local/app/svc" |}, Pg.populated,
     [(GetSecretValue "arn:user", None)]).
Proof.
  exact (handleUpdate_all_off (B := Pg.backend) MoreStates.update_noop Pg.populated
           Examples.svc eq_refl eq_refl eq_refl eq_refl eq_refl eq_refl eq_refl).
Defined.

Lemma handleUpdate_resolves_with_token_witness :
  {| PhysicalResourceId := "db.local/app/svc" |}
  = {| PhysicalResourceId := UpdateEvent.PhysicalResourceId Examples.update_password |}
  /\ exists userCredentials,
       getSecretValue (Backend := Pg.backend) "arn:user" Pg.populated
       = inr userCredentials
       /\ "db.local/app/svc" = physicalResourceId Examples.rp userCredentials.
Proof.
  exact (handleUpdate_resolves_with_token (B := Pg.backend) Examples.update_password
           Pg.populated Pg.populated {| PhysicalResourceId := "db.local/app/svc" |}
           (snd (run (handleUpdate (B := Pg.backend) Examples.update_password)
                   Pg.populated))
           eq_refl).
Defined.

Lemma handleCreate_stops_at_user_error_witness :
  run (handleCreate (B := Pg.backend) (Examples.create OnCreateIfExists.Fail))
    Pg.populated
  = (Rejected Examples.role_exists,
     Pg.with_sessions [Examples.adminClient] Pg.populated,
     [(GetSecretValue "arn:user", None);
      (GetSecretValue "arn:admin", None);
      (Connect Examples.adminClient, None);
      (Query Examples.adminClient
         "CREATE USER svc WITH PASSWORD 's3cret' CREATEDB LOGIN;",
       Some Examples.role_exists)]).
Proof.
  refine (handleCreate_stops_at_user_error (B := Pg.backend)
            (Examples.create OnCreateIfExists.Fail) Pg.populated
            (Pg.with_sessions [Examples.adminClient] Pg.populated)
            (Pg.with_sessions [Examples.adminClient] Pg.populated)
            Examples.svc Examples.root Examples.role_exists
            eq_refl eq_refl _ eq_refl eq_refl (or_introl eq_refl)).
  intros H. discriminate H.
Defined.

Lemma handleCreate_resolved_witness :
  exists userCredentials adminCredentials t0,
    getSecretValue (Backend := Pg.backend) "arn:user" Pg.populated = inr userCredentials
    /\ getSecretValue (Backend := Pg.backend) "arn:admin" Pg.populated
       = inr adminCredentials
    /\ username userCredentials <> username adminCredentials
    /\ {| PhysicalResourceId := "db.local/app/svc" |}
       = {| PhysicalResourceId := physicalResourceId Examples.rp userCredentials |}
    /\ connects_of
         (snd (run (handleCreate (B := Pg.backend)
                      (Examples.create OnCreateIfExists.Adopt)) Pg.populated))
       = [Lazy.newClient 0 (adminProps Examples.rp) adminCredentials;
          Lazy.newClient 1 (userProps Examples.rp) userCredentials]
    /\ snd (run (handleCreate (B := Pg.backend)
                   (Examples.create OnCreateIfExists.Adopt)) Pg.populated)
       = t0 ++ [(End (Lazy.newClient 0 (adminProps Examples.rp) adminCredentials), None);
                (End (Lazy.newClient 1 (userProps Examples.rp) userCredentials), None)].
Proof.
  exact (handleCreate_resolved (B := Pg.backend)
           (Examples.create OnCreateIfExists.Adopt) Pg.populated Pg.populated
           {| PhysicalResourceId := "db.local/app/svc" |}
           (snd (run (handleCreate (B := Pg.backend)
                        (Examples.create OnCreateIfExists.Adopt)) Pg.populated))
           eq_refl).
Defined.

Section QuietCreate.
Context {World : Type} {B : Backend World}.

(** As for Update: a set of worlds in which the database answers every call
    with success, closed under those calls. *)
Variable Quiet : World -> Prop.
Hypothesis Quiet_connect :
  forall c w, Quiet w -> exists w', connect c w = (None, w') /\ Quiet w'.
Hypothesis Quiet_query :
  forall c sql w, Quiet w -> exists w', query c sql w = (None, w') /\ Quiet w'.
Hypothesis Quiet_end :
  forall c w, Quiet w -> exists w', endClient c w = (None, w') /\ Quiet w'.

Ltac quiet_create_step :=
  match goal with
  | HQ : Quiet ?w |- context [connect ?c ?w] =>
      let w' := fresh "w" in let E := fresh "E" in let Q := fresh "HQ" in
      destruct (Quiet_connect c w HQ) as (w' & E & Q); rewrite E; clear E
  | HQ : Quiet ?w |- context [query ?c ?sql ?w] =>
      let w' := fresh "w" in let E := fresh "E" in let Q := fresh "HQ" in
      destruct (Quiet_query c sql w HQ) as (w' & E & Q); rewrite E; clear E
  | HQ : Quiet ?w |- context [endClient ?c ?w] =>
      let w' := fresh "w" in let E := fresh "E" in let Q := fresh "HQ" in
      destruct (Quiet_end c w HQ) as (w' & E & Q); rewrite E; clear E
  end; js_eval.

(** X9.  On a database that accepts every call, a Create with distinct admin and
    user names resolves with [host/database/username] whatever the policy:
    the admin connects and sends [CREATE USER], the user connects to the
    target database and sends [CREATE DATABASE], both connections are
    closed, and nothing else is sent. *)
Theorem handleCreate_quiet (event : CreateEvent.t) (w : World)
    (userCredentials adminCredentials : DbCredentials) :
  let rp := CreateEvent.ResourceProperties event in
  let adminClient := Lazy.newClient 0 (adminProps rp) adminCredentials in
  let userClient := Lazy.newClient 1 (userProps rp) userCredentials in
  Quiet w ->
  getSecretValue (userSecretArn rp) w = inr userCredentials ->
  getSecretValue (dbSecretArn rp) w = inr adminCredentials ->
  username userCredentials <> username adminCredentials ->
  exists w',
    Quiet w'
    /\ run (handleCreate event) w
       = (Resolved {| PhysicalResourceId := physicalResourceId rp userCredentials |}, w',
          [(GetSecretValue (userSecretArn rp), None);
           (GetSecretValue (dbSecretArn rp), None);
           (Connect adminClient, None);
           (Query adminClient (Sql.createUser userCredentials), None);
           (Connect userClient, None);
           (Query userClient (Sql.createDatabase (databaseName rp)), None);
           (End adminClient, None);
           (End userClient, None)]).
Proof.
  intros rp adminClient userClient HQ Huser Hadmin Hne.
  subst rp adminClient userClient. open_event event.
  apply String.eqb_neq in Hne.
  js_eval. rewrite Huser. js_eval. rewrite Hadmin. js_eval. rewrite Hne. js_eval.
  repeat quiet_create_step.
  eexists. split; [eassumption | reflexivity].
Qed.
End QuietCreate.

Lemma handleCreate_quiet_witness :
  exists w',
    Mock.script w' = []
    /\ run (handleCreate (B := Mock.backend) (Examples.create OnCreateIfExists.Fail))
         (Examples.scripted [])
       = (Resolved {| PhysicalResourceId := "db.local/app/svc" |}, w',
          [(GetSecretValue "arn:user", None);
           (GetSecretValue "arn:admin", None);
           (Connect Examples.adminClient, None);
           (Query Examples.adminClient
              "CREATE USER svc WITH PASSWORD 's3cret' CREATEDB LOGIN;", None);
           (Connect Examples.userClient, None);
           (Query Examples.userClient "CREATE DATABASE app;", None);
           (End Examples.adminClient, None);
           (End Examples.userClient, None)]).
Proof.
  refine (handleCreate_quiet (B := Mock.backend) (fun w => Mock.script w = []) _ _ _
            (Examples.create OnCreateIfExists.Fail) (Examples.scripted [])
            Examples.svc Examples.root eq_refl eq_refl eq_refl _).
  - intros c w Hs. exists w. simpl. unfold Mock.answer. rewrite Hs. now split.
  - intros c sql w Hs. exists w. simpl. unfold Mock.answer. rewrite Hs. now split.
  - intros c w Hs. exists w. simpl. unfold Mock.answer. rewrite Hs. now split.
  - intros H. discriminate H.
Defined.

Section MoreProvenance.
Context {World : Type} {B : Backend World}.

Lemma prov_client_query n known c sql :
  prov n known (client_query (World := World) c sql).
Proof. apply prov_call. Qed.

Lemma prov_handleCreate (event : CreateEvent.t) :
  prov 0 [collisionError] (handleCreate event).
Proof.
  unfold handleCreate. apply prov_new. intros adminClientManager _.
  apply prov_new. intros userClientManager Huser.
  apply prov_bind; [apply prov_getCredentials; lia|]. intros userCredentials.
  apply prov_bind; [apply prov_getCredentials; lia|]. intros adminCredentials.
  destruct (String.eqb _ _); [apply prov_throw; now left|].
  apply prov_bind; [apply prov_getClient; lia|]. intros adminClient.
  apply prov_bind.
  { unfold createUserStep. apply prov_try_catch; [apply prov_client_query|].
    intros e. destruct (negb (isPostgresError e)); [apply prov_in_hd|].
    destruct (_ && _).
    - apply prov_bind; [apply prov_client_query|]. intros _. apply prov_client_query.
    - destruct (_ && _); [|apply prov_in_hd].
      apply prov_bind; [apply prov_client_query|]. intros _. apply prov_client_query. }
  intros _. apply prov_bind; [apply prov_getClient; lia|]. intros userClient.
  apply prov_bind.
  { unfold createDatabaseStep. apply prov_try_catch; [apply prov_client_query|].
    intros e. destruct (negb (isPostgresError e)); [apply prov_in_hd|].
    destruct (_ && _); [apply prov_client_query|].
    destruct (OnCreateIfExists.eqb _ _); [|apply prov_in_hd].
    destruct (code_is _ _); [|apply prov_ret].
    apply prov_bind; [apply prov_client_query|]. intros _. apply prov_client_query. }
  intros _. apply prov_bind; [apply prov_call|]. intros _.
  apply prov_bind; [apply prov_call|]. intros _. apply prov_ret.
Qed.

Lemma prov_handleDelete (event : DeleteEvent.t) :
  prov 0 [collisionError] (handleDelete event).
Proof.
  unfold handleDelete. destruct (onDelete _); [|apply prov_ret].
  apply prov_new. intros adminClientManager _.
  apply prov_new. intros userClientManager Huser.
  apply prov_bind; [apply prov_getCredentials; lia|]. intros userCredentials.
  apply prov_bind; [apply prov_getCredentials; lia|]. intros adminCredentials.
  destruct (String.eqb _ _); [apply prov_throw; now left|].
  apply prov_bind; [apply prov_getClient; lia|]. intros adminClient.
  apply prov_bind; [apply prov_client_query|]. intros _.
  apply prov_bind; [apply prov_client_query|]. intros _.
  apply prov_bind; [apply prov_call|]. intros _. apply prov_ret.
Qed.

(** X10.  A Create or a Delete rejects only with the collision error or with a
    value that a call to the outside threw in that run, unchanged: the
    handlers raise no other error of their own and wrap none. *)
Theorem create_delete_rejections (w : World) (e : Thrown) :
  (forall event : CreateEvent.t,
      fst (fst (run (handleCreate event) w)) = Rejected e ->
      e = collisionError \/ In e (raised (snd (run (handleCreate event) w))))
  /\ (forall event : DeleteEvent.t,
        fst (fst (run (handleDelete event) w)) = Rejected e ->
        e = collisionError \/ In e (raised (snd (run (handleDelete event) w)))).
Proof.
  split; intros event He.
  - destruct (run_provenance [collisionError] (handleCreate event) w
                (prov_handleCreate event) e He) as [[<-|[]]|Hin];
      [now left | now right].
  - destruct (run_provenance [collisionError] (handleDelete event) w
                (prov_handleDelete event) e He) as [[<-|[]]|Hin];
      [now left | now right].
Qed.
End MoreProvenance.

(** ** One connection per manager *)

Section ConnectOnce.
Context {World : Type} {B : Backend World}.

Lemma connects_by_snoc (r : nat) (t : Trace) (io : IO) (x : option Thrown) :
  connects_by r (t ++ [(io, x)])
  = connects_by r t
    + match io with
      | Connect c => if Nat.eqb (owner c) r then 1 else 0
      | _ => 0
      end.
Proof.
  induction t as [|[io' x'] t IH]; simpl.
  - destruct io; simpl; lia.
  - destruct io'; rewrite IH; lia.
Qed.

Lemma nth_error_update_nth_other {A} (n r : nat) (f : A -> A) (l : list A) :
  r <> n -> nth_error (update_nth n f l) r = nth_error l r.
Proof.
  revert n r. induction l as [|x l IH]; intros [|n] [|r] H; simpl; auto.
  contradiction.
Qed.

Lemma keeps_ret {A} I (a : A) : keeps I (ret (World := World) a).
Proof. intros s o s' Hs H. now inversion H; subst. Qed.

Lemma keeps_throw {A} I e : keeps I (throw (World := World) (A := A) e).
Proof. intros s o s' Hs H. now inversion H; subst. Qed.

Lemma keeps_bind {A C} I (m : M World A) (k : A -> M World C) :
  keeps I m -> (forall a, keeps I (k a)) -> keeps I (bind m k).
Proof.
  intros Hm Hk s o s' Hs H. unfold bind in H.
  destruct (m s) as [[a|e] s1] eqn:Em.
  - exact (Hk a _ _ _ (Hm _ _ _ Hs Em) H).
  - inversion H; subst. exact (Hm _ _ _ Hs Em).
Qed.

Lemma keeps_try_catch {A} I (m : M World A) (h : Thrown -> M World A) :
  keeps I m -> (forall e, keeps I (h e)) -> keeps I (try_catch m h).
Proof.
  intros Hm Hh s o s' Hs H. unfold try_catch in H.
  destruct (m s) as [[a|e] s1] eqn:Em.
  - inversion H; subst. exact (Hm _ _ _ Hs Em).
  - exact (Hh e _ _ _ (Hm _ _ _ Hs Em) H).
Qed.

Lemma once_same_heap (s s' : State World) (io : IO) (x : option Thrown) :
  (forall c, io <> Connect c) ->
  heap s' = heap s -> trace s' = trace s ++ [(io, x)] ->
  connects_once s -> connects_once s'.
Proof.
  intros Hio Hheap Htrace Hs r. rewrite Hheap, Htrace, connects_by_snoc.
  specialize (Hs r). destruct io; try lia. now contradiction (Hio c).
Qed.

Lemma once_call (io : IO) (f : World -> option Thrown * World) :
  (forall c, io <> Connect c) -> keeps connects_once (call io f).
Proof.
  intros Hio s o s' Hs H. unfold call in H.
  destruct (f (world s)) as [[e|] w1]; inversion H; subst;
    (eapply (once_same_heap s); [exact Hio | reflexivity | reflexivity | exact Hs]).
Qed.

Lemma once_ask {A} (io : IO) (f : World -> Thrown + A) :
  (forall c, io <> Connect c) -> keeps connects_once (ask io f).
Proof.
  intros Hio s o s' Hs H. unfold ask in H.
  destruct (f (world s)) as [e|a]; inversion H; subst;
    (eapply (once_same_heap s); [exact Hio | reflexivity | reflexivity | exact Hs]).
Qed.

Lemma once_deref (this : nat) : keeps connects_once (deref (World := World) this).
Proof.
  intros s o s' Hs H. unfold deref in H.
  destruct (nth_error (heap s) this); inversion H; subst; exact Hs.
Qed.

Lemma once_set_credentials (this : nat) (d : DbCredentials) :
  keeps connects_once (assign (World := World) this (Lazy.set_credentials d)).
Proof.
  intros s o s' Hs H. inversion H; subst. intros r. cbn [heap trace].
  specialize (Hs r). destruct (Nat.eq_dec r this) as [->|Hne].
  - rewrite nth_error_update_nth. destruct (nth_error (heap s) this); exact Hs.
  - rewrite nth_error_update_nth_other by exact Hne. exact Hs.
Qed.

Lemma once_new {C} (p : Lazy.Props) (k : nat -> M World C) :
  (forall r, keeps connects_once (k r)) -> keeps connects_once (bind (new p) k).
Proof.
  intros Hk s o s' Hs H. unfold bind, new in H.
  refine (Hk _ _ _ _ _ H). intros r. cbn [heap trace]. specialize (Hs r).
  destruct (nth_error (heap s) r) as [x|] eqn:Hr.
  - rewrite nth_error_app1 by (apply nth_error_Some; congruence). now rewrite Hr.
  - lia.
Qed.

Lemma once_getCredentials (this : nat) : keeps connects_once (getCredentials this).
Proof.
  unfold getCredentials. apply keeps_bind; [apply once_deref|]. intros o.
  destruct (Lazy.credentials o); [apply keeps_ret|].
  apply keeps_bind; [apply once_ask; discriminate|]. intros c.
  apply keeps_bind; [apply once_set_credentials | intros _; apply keeps_ret].
Qed.

(** Building the client and connecting, from a state in which the manager
    holds none. *)
Lemma once_connect (this : nat) (o : Lazy.t) (creds : DbCredentials)
    (s : State World) (r : Outcome PgClient) (s' : State World) :
  let c := Lazy.newClient this (Lazy.props o) creds in
  connects_once s ->
  (exists o', nth_error (heap s) this = Some o' /\ Lazy.client o' = None) ->
  (assign this (Lazy.set_client c) ;;; call (Connect c) (connect c) ;;; ret c) s = (r, s') ->
  connects_once s'.
Proof.
  intros c Hs (o' & Ho' & Hnone) H. unfold bind, assign, call, ret in H.
  cbn [world] in H.
  assert (Hgoal : forall x w1,
             connects_once
               (record (Connect c) x w1
                  {| world := world s;
                     heap := update_nth this (Lazy.set_client c) (heap s);
                     trace := trace s |})).
  { intros x w1 q. cbn [heap trace record]. rewrite connects_by_snoc.
    specialize (Hs q). subst c. cbn [owner Lazy.newClient].
    destruct (Nat.eqb_spec this q) as [<-|Hne].
    - rewrite nth_error_update_nth, Ho'. rewrite Ho', Hnone in Hs.
      cbn [option_map Lazy.client Lazy.set_client]. lia.
    - rewrite nth_error_update_nth_other by congruence. lia. }
  destruct (connect c (world s)) as [[e|] w1]; inversion H; subst; apply Hgoal.
Qed.

Lemma once_getClient (this : nat) : keeps connects_once (getClient this).
Proof.
  intros s r s' Hs H. unfold getClient in H. unfold bind at 1, deref in H.
  destruct (nth_error (heap s) this) as [o|] eqn:Ho;
    [|inversion H; subst; exact Hs].
  destruct (Lazy.client o) as [c0|] eqn:Hc; [inversion H; subst; exact Hs|].
  unfold bind at 1 in H.
  destruct (Lazy.credentials o) as [d|] eqn:Hd.
  - cbn [ret] in H. refine (once_connect this o d s r s' Hs _ H). now exists o.
  - match type of H with
    | context [match ?m s with _ => _ end] => destruct (m s) as [[d|e] s1] eqn:Em
    end.
    + assert (Hs1 : connects_once s1).
      { refine (keeps_bind connects_once _ _ (once_getCredentials this) _ _ _ _ Hs Em).
        intros a. apply keeps_bind; [apply once_set_credentials | intros _; apply keeps_ret]. }
      refine (once_connect this o d s1 r s' Hs1 _ H).
      (* the manager still holds no client after its credentials were set *)
      revert Em. unfold getCredentials, bind, deref, ask, assign, ret.
      rewrite Ho, Hd. destruct (getSecretValue _ _); [discriminate|].
      intros E. inversion E; subst. cbn [heap record].
      rewrite !nth_error_update_nth, Ho. eexists. split; [reflexivity | exact Hc].
    + inversion H; subst.
      refine (keeps_bind connects_once _ _ (once_getCredentials this) _ _ _ _ Hs Em).
      intros a. apply keeps_bind; [apply once_set_credentials | intros _; apply keeps_ret].
Qed.

Lemma once_end_ (this : nat) : keeps connects_once (end_ this).
Proof.
  unfold end_. apply keeps_bind; [apply once_deref|]. intros o.
  destruct (Lazy.client o); [apply once_call; discriminate | apply keeps_ret].
Qed.

Lemma once_query (c : PgClient) (sql : string) :
  keeps connects_once (client_query c sql).
Proof. apply once_call. discriminate. Qed.

Lemma once_update_query (this : nat) (sql : string) :
  keeps connects_once (client <- getClient this ;; client_query client sql).
Proof.
  apply keeps_bind; [apply once_getClient | intros c; apply once_query].
Qed.

Lemma once_handleCreate (event : CreateEvent.t) :
  keeps connects_once (handleCreate event).
Proof.
  unfold handleCreate. apply once_new. intros adminClientManager.
  apply once_new. intros userClientManager.
  apply keeps_bind; [apply once_getCredentials|]. intros userCredentials.
  apply keeps_bind; [apply once_getCredentials|]. intros adminCredentials.
  destruct (String.eqb _ _); [apply keeps_throw|].
  apply keeps_bind; [apply once_getClient|]. intros adminClient.
  apply keeps_bind.
  { unfold createUserStep. apply keeps_try_catch; [apply once_query|].
    intros e. destruct (negb (isPostgresError e)); [apply keeps_throw|].
    destruct (_ && _).
    - apply keeps_bind; [apply once_query | intros _; apply once_query].
    - destruct (_ && _); [|apply keeps_throw].
      apply keeps_bind; [apply once_query | intros _; apply once_query]. }
  intros _. apply keeps_bind; [apply once_getClient|]. intros userClient.
  apply keeps_bind.
  { unfold createDatabaseStep. apply keeps_try_catch; [apply once_query|].
    intros e. destruct (negb (isPostgresError e)); [apply keeps_throw|].
    destruct (_ && _); [apply once_query|].
    destruct (OnCreateIfExists.eqb _ _); [|apply keeps_throw].
    destruct (code_is _ _); [|apply keeps_ret].
    apply keeps_bind; [apply once_query | intros _; apply once_query]. }
  intros _. apply keeps_bind; [apply once_call; discriminate|]. intros _.
  apply keeps_bind; [apply once_call; discriminate|]. intros _. apply keeps_ret.
Qed.

Lemma once_handleUpdate (event : UpdateEvent.t) :
  keeps connects_once (handleUpdate event).
Proof.
  unfold handleUpdate. apply once_new. intros userClient.
  apply keeps_bind; [apply once_getCredentials|]. intros userCredentials.
  destruct (negb _); [apply keeps_throw|].
  apply once_new. intros adminClient.
  repeat (apply keeps_bind; [|intros _]).
  - unfold updateUserExists. destruct (onUpdateIfUserDoesNotExist _); [apply keeps_ret|].
    apply keeps_try_catch; [apply once_update_query|].
    intros e. destruct (negb (isPostgresError e)); [apply keeps_throw|].
    destruct (negb (code_is e _)); [apply keeps_throw | apply keeps_ret].
  - unfold updateUserPassword. destruct (onUpdateSetUserPassword _);
      [apply once_update_query | apply keeps_ret].
  - unfold updateUserPermissions. destruct (onUpdateSetUserPermissions _);
      [apply once_update_query | apply keeps_ret].
  - unfold updateDatabaseExists. destruct (onUpdateIfDatabaseDoesNotExist _);
      [apply keeps_ret|].
    apply keeps_try_catch; [apply once_update_query|].
    intros e. destruct (negb (isPostgresError e)); [apply keeps_throw|].
    destruct (negb (code_is e _)); [apply keeps_throw | apply keeps_ret].
  - unfold updateDatabaseOwnership. destruct (onUpdateSetDatabaseOwnership _);
      [apply once_update_query | apply keeps_ret].
  - apply once_end_.
  - apply once_end_.
  - apply keeps_ret.
Qed.

Lemma once_handleDelete (event : DeleteEvent.t) :
  keeps connects_once (handleDelete event).
Proof.
  unfold handleDelete. destruct (onDelete _); [|apply keeps_ret].
  apply once_new. intros adminClientManager.
  apply once_new. intros userClientManager.
  apply keeps_bind; [apply once_getCredentials|]. intros userCredentials.
  apply keeps_bind; [apply once_getCredentials|]. intros adminCredentials.
  destruct (String.eqb _ _); [apply keeps_throw|].
  apply keeps_bind; [apply once_getClient|]. intros adminClient.
  apply keeps_bind; [apply once_query|]. intros _.
  apply keeps_bind; [apply once_query|]. intros _.
  apply keeps_bind; [apply once_call; discriminate|]. intros _. apply keeps_ret.
Qed.

(** X11.  Whatever the event, the policies and the answers of the outside, no
    manager connects twice in one invocation of [handler]: a connection that
    was refused is not tried again, and one that was opened is reused by
    every later statement of that manager. *)
Theorem handler_connects_once (event : Json) (w : World) (r : nat) :
  connects_by r (snd (run (handler event) w)) <= 1.
Proof.
  assert (Hkeeps : keeps connects_once (handler event)).
  { unfold handler. destruct (decodeEvent event) as [e|[ev|ev|ev]];
      [apply keeps_throw | apply once_handleCreate | apply once_handleUpdate
      | apply once_handleDelete]. }
  unfold run. destruct (handler event _) as [o s'] eqn:E. cbn [snd].
  assert (Hs' : connects_once s').
  { refine (Hkeeps _ _ _ _ E). intros q. cbn [trace connects_by]. lia. }
  specialize (Hs' r). destruct (nth_error (heap s') r) as [o'|]; [|lia].
  destruct (Lazy.client o'); lia.
Qed.
End ConnectOnce.

(** ** Decoding *)

Section Decoding.

Lemma digits_all_digits (s : string) (acc : N) :
  (exists n, Zod.digits acc s = Some n) <-> all_digits s = true.
Proof.
  revert acc. induction s as [|c s IH]; intros acc; simpl.
  - split; [reflexivity | intros _; now exists acc].
  - destruct (Zod.is_digit c); simpl.
    + apply IH.
    + split; [intros [n Hn]; discriminate Hn | discriminate].
Qed.

(** X12.  The schema of [dbClusterPort] accepts exactly the non-empty strings of
    decimal digits: no sign, no blank, no empty string. *)
Theorem port_accepted (s : string) :
  (exists n, Zod.digit_string (Some (JString s)) = Some n)
  <-> s <> EmptyString /\ all_digits s = true.
Proof.
  unfold Zod.digit_string, Zod.string_. destruct s as [|c s].
  - split; [intros [n Hn]; discriminate Hn | intros [H _]; now contradiction H].
  - rewrite (digits_all_digits (String c s) 0). split.
    + intros H. split; [discriminate | exact H].
    + intros [_ H]. exact H.
Qed.

Lemma schema_missing_key (props : list (string * Json)) (k : string) :
  In k requiredKeys -> lookup k props = None ->
  customResourcePropertiesSchema (Some (JObject props)) = None.
Proof.
  unfold requiredKeys, customResourcePropertiesSchema. cbn [In].
  intros Hin Hk.
  repeat (destruct Hin as [<-|Hin]; [rewrite Hk; clear Hk|]); try contradiction;
    cbn [Zod.enum Zod.string_ Zod.digit_string];
    repeat match goal with
      | |- context [match ?x with Some _ => _ | None => _ end] => destruct x
      end; reflexivity.
Qed.

Lemma schema_bad_port (props : list (string * Json)) (s : string) :
  lookup "dbClusterPort" props = Some (JString s) ->
  s = EmptyString \/ all_digits s = false ->
  customResourcePropertiesSchema (Some (JObject props)) = None.
Proof.
  intros Hk Hbad. unfold customResourcePropertiesSchema. rewrite Hk.
  destruct (Zod.digit_string (Some (JString s))) as [n|] eqn:Hn.
  - exfalso. unfold Zod.digit_string, Zod.string_ in Hn.
    destruct s as [|c s]; [discriminate Hn|].
    destruct Hbad as [Hbad|Hbad]; [discriminate Hbad|].
    assert (Hall : all_digits (String c s) = true)
      by (apply (digits_all_digits (String c s) 0); now exists n).
    congruence.
  - destruct (Zod.string_ (lookup "dbClusterHostname" props)); reflexivity.
Qed.

Lemma decodeEvent_bad_properties (event : Json) :
  customResourcePropertiesSchema (field "ResourceProperties" event) = None ->
  decodeEvent event = inl ZodError.
Proof.
  intros H. unfold decodeEvent. destruct event as [s|f|]; try reflexivity.
  rewrite H. destruct (Zod.enum _ _) as [[| |]|]; try reflexivity;
    destruct (Zod.string_ _); reflexivity.
Qed.
End Decoding.

Section RejectedEvents.
Context {World : Type} {B : Backend World}.

(** X13.  Whatever the request type, an event whose [ResourceProperties] lack one
    of the twelve keys of the schema, or give a [dbClusterPort] that is not
    a non-empty string of digits, is rejected with the schema's error
    before anything outside is called: no secret is read and no connection
    opened. *)
Theorem handler_rejects_bad_properties (event : Json) (props : list (string * Json))
    (w : World) :
  field "ResourceProperties" event = Some (JObject props) ->
  (exists k, In k requiredKeys /\ lookup k props = None)
  \/ (exists s, lookup "dbClusterPort" props = Some (JString s)
                /\ (s = EmptyString \/ all_digits s = false)) ->
  run (handler event) w = (Rejected ZodError, w, []).
Proof.
  intros Hprops Hbad.
  assert (Hschema : customResourcePropertiesSchema (field "ResourceProperties" event) = None).
  { rewrite Hprops. destruct Hbad as [(k & Hin & Hk)|(s & Hk & Hs)].
    - exact (schema_missing_key props k Hin Hk).
    - exact (schema_bad_port props s Hk Hs). }
  unfold run, handler. now rewrite (decodeEvent_bad_properties event Hschema).
Qed.
End RejectedEvents.

Lemma handler_rejects_bad_properties_witness :
  run (handler (B := Pg.backend) MoreExamples.incomplete_delete) Pg.populated
  = (Rejected ZodError, Pg.populated, []).
Proof.
  refine (handler_rejects_bad_properties (B := Pg.backend)
            MoreExamples.incomplete_delete MoreExamples.incomplete_properties
            Pg.populated eq_refl _).
  left. exists "onCreateIfExists". split; [|reflexivity].
  unfold requiredKeys. cbn [In]. tauto.
Defined.

Section ExtraKeys.

Lemma lookup_app_some (k : string) (f extra : list (string * Json)) (v : Json) :
  lookup k f = Some v -> lookup k (f ++ extra) = Some v.
Proof.
  induction f as [|[k' v'] f IH]; simpl; [discriminate|].
  destruct (String.eqb k k'); [trivial | exact IH].
Qed.

Lemma string_app (k : string) (f extra : list (string * Json)) (s : string) :
  Zod.string_ (lookup k f) = Some s -> Zod.string_ (lookup k (f ++ extra)) = Some s.
Proof.
  destruct (lookup k f) as [v|] eqn:E; [|discriminate].
  now rewrite (lookup_app_some k f extra v E).
Qed.

Lemma digit_string_app (k : string) (f extra : list (string * Json)) (n : N) :
  Zod.digit_string (lookup k f) = Some n ->
  Zod.digit_string (lookup k (f ++ extra)) = Some n.
Proof.
  destruct (lookup k f) as [v|] eqn:E; [|discriminate].
  now rewrite (lookup_app_some k f extra v E).
Qed.

Lemma enum_app {A} (values : list (string * A)) (k : string)
    (f extra : list (string * Json)) (a : A) :
  Zod.enum values (lookup k f) = Some a ->
  Zod.enum values (lookup k (f ++ extra)) = Some a.
Proof.
  destruct (lookup k f) as [v|] eqn:E.
  - now rewrite (lookup_app_some k f extra v E).
  - destruct values as [|[n x] values]; discriminate.
Qed.

(** X14.  Keys the schema does not read are dropped, as are later bindings of a
    key it does read: properties that pass the schema pass it with the same
    result when more fields follow them.  The [secretLatestVersion] the
    construct appends is such a field. *)
Theorem schema_ignores_extra_keys (f extra : list (string * Json))
    (rp : CustomResourceProperties) :
  customResourcePropertiesSchema (Some (JObject f)) = Some rp ->
  customResourcePropertiesSchema (Some (JObject (f ++ extra))) = Some rp.
Proof.
  unfold customResourcePropertiesSchema.
  repeat match goal with
    | |- context [Zod.string_ (lookup ?k f)] =>
        let E := fresh "E" in
        destruct (Zod.string_ (lookup k f)) eqn:E; [|discriminate];
        rewrite (string_app k f extra _ E)
    | |- context [Zod.digit_string (lookup ?k f)] =>
        let E := fresh "E" in
        destruct (Zod.digit_string (lookup k f)) eqn:E;
        [rewrite (digit_string_app k f extra _ E)|discriminate]
    | |- context [Zod.enum ?vs (lookup ?k f)] =>
        let E := fresh "E" in
        destruct (Zod.enum vs (lookup k f)) eqn:E;
        [rewrite (enum_app vs k f extra _ E)|discriminate]
    end.
  trivial.
Qed.
End ExtraKeys.

Lemma schema_ignores_extra_keys_witness :
  customResourcePropertiesSchema
    (Some (JObject
             (MoreExamples.default_fields
              ++ [("secretLatestVersion", JString "v2"); ("onDelete", JString "Retain")])))
  = Some Examples.rp.
Proof.
  exact (schema_ignores_extra_keys MoreExamples.default_fields
           [("secretLatestVersion", JString "v2"); ("onDelete", JString "Retain")]
           Examples.rp eq_refl).
Defined.

(** ** The secret-version handler *)

Section Versions.
Import LatestSecretVersion.
Context {World : Type} {B : Backend World}.

Lemma find_first {A} (f : A -> bool) (l : list A) (v : A) :
  find f l = Some v <->
  exists before after,
    l = before ++ v :: after
    /\ (forall x, In x before -> f x = false) /\ f v = true.
Proof.
  split.
  - induction l as [|x l IH]; simpl; [discriminate|].
    destruct (f x) eqn:Hx.
    + intros H. inversion H; subst. exists [], l. repeat split; [|exact Hx].
      intros y [].
    + intros H. destruct (IH H) as (before & after & -> & Hb & Hv).
      exists (x :: before), after. repeat split; [|exact Hv].
      intros y [<-|Hy]; [exact Hx | exact (Hb y Hy)].
  - intros (before & after & -> & Hb & Hv).
    induction before as [|x before IH]; simpl.
    + now rewrite Hv.
    + rewrite (Hb x (or_introl eq_refl)). apply IH.
      intros y Hy. apply Hb. now right.
Qed.

(** X15.  A Create that resolves made one call, the listing of the secret's
    versions, and answers with the secret's ARN as [PhysicalResourceId] and,
    as [LatestVersionId], the non-empty id of the first version in the
    listing that is staged [AWSCURRENT]. *)
Theorem onCreate_resolved (event : OnCreateEvent.t) (w w' : World)
    (response : Response) (t : Trace) :
  let arn := secretArn (OnCreateEvent.ResourceProperties event) in
  run (onCreate event) w = (Resolved response, w', t) ->
  w' = w
  /\ t = [(ListSecretVersionIds arn, None)]
  /\ PhysicalResourceId response = arn
  /\ LatestVersionId (Data_ response) <> EmptyString
  /\ exists before v after,
       listSecretVersionIds arn w = inr (Some (before ++ v :: after))
       /\ (forall x, In x before -> isCurrent x = false)
       /\ isCurrent v = true
       /\ VersionId v = Some (LatestVersionId (Data_ response)).
Proof.
  intros arn. subst arn. unfold run, onCreate, bind, ask, throw, ret.
  cbn [world trace heap record app].
  destruct (listSecretVersionIds _ w) as [e|versions] eqn:Hlist; [discriminate|].
  unfold latestVersionIdOf. destruct versions as [vs|]; [|discriminate].
  destruct (find isCurrent vs) as [v|] eqn:Hfind; [|discriminate].
  destruct (VersionId v) as [[|c id]|] eqn:Hid; try discriminate.
  intros H. inversion H; subst. cbn [PhysicalResourceId Data_ LatestVersionId].
  repeat split; try discriminate.
  apply find_first in Hfind. destruct Hfind as (before & after & -> & Hb & Hv).
  exists before, v, after. repeat split; assumption.
Qed.

(** X16.  When the listing has no version staged [AWSCURRENT], or when the first
    such version has no id or an empty one (even if a later one has), a
    Create is rejected with ['No latest version found for secret <arn>']. *)
Theorem onCreate_no_latest_version (event : OnCreateEvent.t) (w : World)
    (versions : option (list SecretVersionsListEntry)) :
  let arn := secretArn (OnCreateEvent.ResourceProperties event) in
  listSecretVersionIds arn w = inr versions ->
  versions = None
  \/ (exists vs, versions = Some vs /\ forall x, In x vs -> isCurrent x = false)
  \/ (exists before v after,
         versions = Some (before ++ v :: after)
         /\ (forall x, In x before -> isCurrent x = false)
         /\ isCurrent v = true
         /\ (VersionId v = None \/ VersionId v = Some EmptyString)) ->
  run (onCreate event) w
  = (Rejected (Error ("No latest version found for secret " ++ arn)%string), w,
     [(ListSecretVersionIds arn, None)]).
Proof.
  intros arn Hlist Hcases. subst arn. unfold run, onCreate, bind, ask, throw, ret.
  cbn [world]. rewrite Hlist. cbn [world trace heap record app].
  assert (Hnone : latestVersionIdOf versions = None
                  \/ latestVersionIdOf versions = Some EmptyString).
  { destruct Hcases as [->|[(vs & -> & Hall)|(before & v & after & -> & Hb & Hv & Hid)]].
    - now left.
    - left. unfold latestVersionIdOf.
      destruct (find isCurrent vs) as [v|] eqn:Hfind; [|reflexivity].
      apply find_some in Hfind. destruct Hfind as [Hin Hcur].
      rewrite (Hall v Hin) in Hcur. discriminate.
    - unfold latestVersionIdOf.
      assert (Hfind : find isCurrent (before ++ v :: after) = Some v)
        by (apply find_first; exists before, after; repeat split; assumption).
      rewrite Hfind. destruct Hid as [->| ->]; [now left | now right]. }
  destruct Hnone as [-> | ->]; reflexivity.
Qed.

(** X17.  At most one of the three event schemas accepts an event, so the order in
    which [handler] tries them does not matter; and an event whose
    [ResourceProperties] lack [secretArn] or [datetime] (the latter is read
    by no handler) is accepted by none and rejected with
    ['Unexpected event type'] before anything is looked up. *)
Theorem version_handler_dispatch (event : Json) (w : World) :
  (onCreateSchema event <> None -> onUpdateSchema event = None /\ onDeleteSchema event = None)
  /\ (onUpdateSchema event <> None -> onDeleteSchema event = None)
  /\ (resourcePropertiesSchema (field "ResourceProperties" event) = None ->
      run (handler event) w = (Rejected (Error "Unexpected event type"), w, []))
  /\ (forall f, field "ResourceProperties" event = Some (JObject f) ->
                lookup "secretArn" f = None \/ lookup "datetime" f = None ->
                resourcePropertiesSchema (field "ResourceProperties" event) = None).
Proof.
  assert (Hlit : forall a b j, a <> b -> literal a j = true -> literal b j = false).
  { intros a b j Hab. unfold literal. destruct (Zod.string_ j) as [s|]; [|discriminate].
    intros Ha. apply String.eqb_eq in Ha. subst s. now apply String.eqb_neq. }
  split; [|split; [|split]].
  - unfold onCreateSchema, onUpdateSchema, onDeleteSchema.
    destruct event as [s|f|]; try (intros H; now contradiction H).
    destruct (resourcePropertiesSchema _); [|intros H; now contradiction H].
    destruct (literal "Create" _) eqn:Hc; [|intros H; now contradiction H].
    intros _. rewrite (Hlit "Create" "Update" _ ltac:(discriminate) Hc).
    rewrite (Hlit "Create" "Delete" _ ltac:(discriminate) Hc). now split.
  - unfold onUpdateSchema, onDeleteSchema.
    destruct event as [s|f|]; try (intros H; now contradiction H).
    destruct (resourcePropertiesSchema _); [|intros H; now contradiction H].
    destruct (literal "Update" _) eqn:Hu; [|intros H; now contradiction H].
    intros _. now rewrite (Hlit "Update" "Delete" _ ltac:(discriminate) Hu).
  - intros Hrp. unfold run, handler, onCreateSchema, onUpdateSchema, onDeleteSchema.
    destruct event as [s|f|]; try reflexivity. now rewrite Hrp.
  - intros f Hf Hmissing. rewrite Hf. unfold resourcePropertiesSchema.
    destruct Hmissing as [-> | ->]; cbn [Zod.string_];
      [reflexivity | destruct (Zod.string_ _); reflexivity].
Qed.
End Versions.

Lemma onCreate_resolved_witness :
  exists before v after,
    listSecretVersionIds (Backend := Mock.backend) "arn:user" Examples.rotated
    = inr (Some (before ++ v :: after))
    /\ (forall x, In x before -> LatestSecretVersion.isCurrent x = false)
    /\ LatestSecretVersion.isCurrent v = true
    /\ VersionId v = Some "v2".
Proof.
  exact (proj2 (proj2 (proj2 (proj2
           (onCreate_resolved (B := Mock.backend) MoreVersions.create_event
              Examples.rotated Examples.rotated
              {| LatestSecretVersion.PhysicalResourceId := "arn:user";
                 LatestSecretVersion.Data_ :=
                   {| LatestSecretVersion.LatestVersionId := "v2" |} |}
              [(ListSecretVersionIds "arn:user", None)] eq_refl))))).
Defined.

Lemma onCreate_no_latest_version_witness :
  run (LatestSecretVersion.onCreate (B := Mock.backend) MoreVersions.create_event)
    MoreVersions.anonymous_current
  = (Rejected (Error "No latest version found for secret arn:user"),
     MoreVersions.anonymous_current,
     [(ListSecretVersionIds "arn:user", None)]).
Proof.
  refine (onCreate_no_latest_version (B := Mock.backend) MoreVersions.create_event
            MoreVersions.anonymous_current _ eq_refl _).
  right. right.
  exists [ {| VersionId := Some "v1"; VersionStages := Some ["AWSPREVIOUS"] |} ],
    {| VersionId := None; VersionStages := Some ["AWSCURRENT"] |},
    [ {| VersionId := Some "v3"; VersionStages := Some ["AWSCURRENT"] |} ].
  split; [reflexivity|]. split; [|split; [reflexivity | now left]].
  intros x [<-|[]]. reflexivity.
Defined.

(** ** The identity token *)

Section Token.

Lemma split_at_slash (a a' r r' : string) :
  no_slash a = true -> no_slash a' = true ->
  (a ++ String "/" r)%string = (a' ++ String "/" r')%string ->
  a = a' /\ r = r'.
Proof.
  revert a'. induction a as [|c a IH]; intros [|c' a']; simpl; intros Ha Ha' H.
  - inversion H. now split.
  - inversion H; subst. now rewrite Ascii.eqb_refl in Ha'.
  - inversion H; subst. now rewrite Ascii.eqb_refl in Ha.
  - inversion H; subst.
    apply andb_true_iff in Ha, Ha'. destruct Ha as [_ Ha]. destruct Ha' as [_ Ha'].
    destruct (IH a' Ha Ha' H2) as [-> ->]. now split.
Qed.

(** X18.  The token determines what it was built from as long as neither host nor
    database name holds a ['/']: two requests with the same token then have
    the same host, the same database name and the same username, so the
    check of [handleUpdate] pins all three. *)
Theorem physicalResourceId_injective (rp rp' : CustomResourceProperties)
    (c c' : DbCredentials) :
  no_slash (dbClusterHostname rp) = true -> no_slash (databaseName rp) = true ->
  no_slash (dbClusterHostname rp') = true -> no_slash (databaseName rp') = true ->
  physicalResourceId rp c = physicalResourceId rp' c' ->
  dbClusterHostname rp = dbClusterHostname rp'
  /\ databaseName rp = databaseName rp'
  /\ username c = username c'.
Proof.
  intros Hh Hd Hh' Hd'. unfold physicalResourceId. cbn [String.concat].
  intros H. apply split_at_slash in H; [|assumption..]. destruct H as [-> H].
  apply split_at_slash in H; [|assumption..]. destruct H as [-> ->].
  repeat split.
Qed.
End Token.

Lemma physicalResourceId_injective_witness :
  dbClusterHostname Examples.rp = dbClusterHostname Examples.rp_all
  /\ databaseName Examples.rp = databaseName Examples.rp_all
  /\ username Examples.svc = username Examples.svc.
Proof.
  exact (physicalResourceId_injective Examples.rp Examples.rp_all Examples.svc
           Examples.svc eq_refl eq_refl eq_refl eq_refl eq_refl).
Defined.

(** With a ['/'] in a name the token no longer tells requests apart: database
    [b/c] on host [a] and database [c] on host [a/b] share the token
    [a/b/c/svc]. *)
Example physicalResourceId_ambiguous :
  String.concat "/" ["a"; "b/c"; "svc"] = String.concat "/" ["a/b"; "c"; "svc"].
Proof. reflexivity. Qed.

(** ** Updates that create what is missing *)

Section UpdateCreates.
Context {World : Type} {B : Backend World}.

(** X19.  An Update told to create the user if missing, everything else off: when
    [CREATE USER] is refused because the role exists (a Postgres error with
    code 42710) the refusal is dropped, the connection is closed and the
    Update resolves; when it is refused with anything else the Update is
    rejected with that value and the connection is left open. *)
Theorem handleUpdate_user_exists (event : UpdateEvent.t) (w w1 w2 : World)
    (userCredentials adminCredentials : DbCredentials) (e : Thrown) :
  let rp := UpdateEvent.ResourceProperties event in
  let id := UpdateEvent.PhysicalResourceId event in
  let c := Lazy.newClient 1 (adminProps rp) adminCredentials in
  let sql := Sql.createUser userCredentials in
  onUpdateIfUserDoesNotExist rp = IfDoesNotExist.Create ->
  onUpdateSetUserPassword rp = OnUpdateSet.Never ->
  onUpdateSetUserPermissions rp = OnUpdateSet.Never ->
  onUpdateIfDatabaseDoesNotExist rp = IfDoesNotExist.Ignore ->
  onUpdateSetDatabaseOwnership rp = OnUpdateSet.Never ->
  getSecretValue (userSecretArn rp) w = inr userCredentials ->
  getSecretValue (dbSecretArn rp) w = inr adminCredentials ->
  id = physicalResourceId rp userCredentials ->
  connect c w = (None, w1) ->
  query c sql w1 = (Some e, w2) ->
  (isPostgresErrorWithCode e PostgresErrorCodes.DUPLICATE_OBJECT = true ->
   forall w3, endClient c w2 = (None, w3) ->
   run (handleUpdate event) w
   = (Resolved {| PhysicalResourceId := id |}, w3,
      [(GetSecretValue (userSecretArn rp), None);
       (GetSecretValue (dbSecretArn rp), None);
       (Connect c, None); (Query c sql, Some e); (End c, None)]))
  /\ (isPostgresErrorWithCode e PostgresErrorCodes.DUPLICATE_OBJECT = false ->
      run (handleUpdate event) w
      = (Rejected e, w2,
         [(GetSecretValue (userSecretArn rp), None);
          (GetSecretValue (dbSecretArn rp), None);
          (Connect c, None); (Query c sql, Some e)])).
Proof.
  intros rp id c sql H1 H2 H3 H4 H5 Huser Hadmin Htoken Hc Hq.
  subst rp id c sql. open_event event. cbv beta delta [adminProps] in Hc, Hq.
  unfold isPostgresErrorWithCode.
  js_eval. rewrite H1, H2, H3, H4, H5, Huser. js_eval.
  rewrite Htoken, String.eqb_refl. js_eval. rewrite Hadmin. js_eval.
  rewrite Hc. js_eval. rewrite Hq. js_eval.
  destruct (isPostgresError e);
    destruct (code_is e PostgresErrorCodes.DUPLICATE_OBJECT);
    split; intros Hdup; try discriminate Hdup; js_eval; try reflexivity.
  intros w3 He. cbv beta delta [adminProps] in He. rewrite He. reflexivity.
Qed.

(** X20.  The same for the database: with only [onUpdateIfDatabaseDoesNotExist]
    set to [Create], the user connects to the target database and sends
    [CREATE DATABASE]; a refusal with code 42P04 is dropped and the Update
    resolves after closing that connection, any other refusal rejects the
    Update.  The admin's secret is never read. *)
Theorem handleUpdate_database_exists (event : UpdateEvent.t) (w w1 w2 : World)
    (userCredentials : DbCredentials) (e : Thrown) :
  let rp := UpdateEvent.ResourceProperties event in
  let id := UpdateEvent.PhysicalResourceId event in
  let c := Lazy.newClient 0 (userProps rp) userCredentials in
  let sql := Sql.createDatabase (databaseName rp) in
  onUpdateIfUserDoesNotExist rp = IfDoesNotExist.Ignore ->
  onUpdateSetUserPassword rp = OnUpdateSet.Never ->
  onUpdateSetUserPermissions rp = OnUpdateSet.Never ->
  onUpdateIfDatabaseDoesNotExist rp = IfDoesNotExist.Create ->
  onUpdateSetDatabaseOwnership rp = OnUpdateSet.Never ->
  getSecretValue (userSecretArn rp) w = inr userCredentials ->
  id = physicalResourceId rp userCredentials ->
  connect c w = (None, w1) ->
  query c sql w1 = (Some e, w2) ->
  (isPostgresErrorWithCode e PostgresErrorCodes.DUPLICATE_DATABASE = true ->
   forall w3, endClient c w2 = (None, w3) ->
   run (handleUpdate event) w
   = (Resolved {| PhysicalResourceId := id |}, w3,
      [(GetSecretValue (userSecretArn rp), None);
       (Connect c, None); (Query c sql, Some e); (End c, None)]))
  /\ (isPostgresErrorWithCode e PostgresErrorCodes.DUPLICATE_DATABASE = false ->
      run (handleUpdate event) w
      = (Rejected e, w2,
         [(GetSecretValue (userSecretArn rp), None);
          (Connect c, None); (Query c sql, Some e)])).
Proof.
  intros rp id c sql H1 H2 H3 H4 H5 Huser Htoken Hc Hq.
  subst rp id c sql. open_event event. cbv beta delta [userProps] in Hc, Hq.
  unfold isPostgresErrorWithCode.
  js_eval. rewrite H1, H2, H3, H4, H5, Huser. js_eval.
  rewrite Htoken, String.eqb_refl. js_eval.
  rewrite Hc. js_eval. rewrite Hq. js_eval.
  destruct (isPostgresError e);
    destruct (code_is e PostgresErrorCodes.DUPLICATE_DATABASE);
    split; intros Hdup; try discriminate Hdup; js_eval; try reflexivity.
  intros w3 He. cbv beta delta [userProps] in He. rewrite He. reflexivity.
Qed.
End UpdateCreates.

Section OpenConnections.
Context {World : Type} {B : Backend World}.

Ltac no_end Hno :=
  let c := fresh "c" in let x := fresh "x" in let Hin := fresh "Hin" in
  intros c x Hin; cbn [In] in Hin;
  first
    [ solve [ exfalso; eapply Hno; cbn [In];
              repeat (first [ left; reflexivity | right ]) ]
    | repeat (destruct Hin as [Hin|Hin]; [discriminate Hin|]); exact Hin ].

(** X21.  Connections are closed on the way to success only.  When a Create or a
    Delete is rejected, and not by a closing call itself, no closing call
    was made: whatever it had connected stays connected. *)
Theorem no_close_on_failure (w : World) (e : Thrown) :
  (forall (event : CreateEvent.t) (w' : World) (t : Trace),
      run (handleCreate event) w = (Rejected e, w', t) ->
      (forall c, ~ In (End c, Some e) t) ->
      forall c x, ~ In (End c, x) t)
  /\ (forall (event : DeleteEvent.t) (w' : World) (t : Trace),
        run (handleDelete event) w = (Rejected e, w', t) ->
        (forall c, ~ In (End c, Some e) t) ->
        forall c x, ~ In (End c, x) t).
Proof.
  split; intros event; open_event event.
  - js_eval. js_case; [intros w' tr H; inversion H; subst; intros Hno; no_end Hno|].
    js_case; [intros w' tr H; inversion H; subst; intros Hno; no_end Hno|].
    destruct (String.eqb _ _);
      [intros w' tr H; inversion H; subst; intros Hno; no_end Hno|].
    js_eval.
    destruct (onCreateIfExists _);
      repeat first
        [ js_case
        | match goal with
          | |- context [isPostgresError ?e] => destruct (isPostgresError e) eqn:?
          | |- context [code_is ?e ?c] => destruct (code_is e c) eqn:?
          end; js_eval ];
      intros w' tr H; try discriminate H; inversion H; subst; intros Hno; no_end Hno.
  - js_eval. destruct (onDelete _); js_eval; [|intros w' tr H; discriminate H].
    js_case; [intros w' tr H; inversion H; subst; intros Hno; no_end Hno|].
    js_case; [intros w' tr H; inversion H; subst; intros Hno; no_end Hno|].
    destruct (String.eqb _ _);
      [intros w' tr H; inversion H; subst; intros Hno; no_end Hno|].
    js_eval.
    repeat js_case;
      intros w' tr H; try discriminate H; inversion H; subst; intros Hno; no_end Hno.
Qed.
End OpenConnections.

Lemma handleUpdate_user_exists_witness :
  run (handleUpdate (B := Pg.backend) MoreStates.update_create_user) Pg.populated
  = (Resolved {| PhysicalResourceId := "db.local/app/svc" |}, Pg.populated,
     [(GetSecretValue "arn:user", None);
      (GetSecretValue "arn:admin", None);
      (Connect (Lazy.newClient 1 (adminProps Examples.rp) Examples.root), None);
      (Query (Lazy.newClient 1 (adminProps Examples.rp) Examples.root)
         "CREATE USER svc WITH PASSWORD 's3cret' CREATEDB LOGIN;",
       Some Examples.role_exists);
      (End (Lazy.newClient 1 (adminProps Examples.rp) Examples.root), None)]).
Proof.
  exact (proj1
           (handleUpdate_user_exists (B := Pg.backend) MoreStates.update_create_user
              Pg.populated
              (Pg.with_sessions
                 [Lazy.newClient 1 (adminProps Examples.rp) Examples.root] Pg.populated)
              (Pg.with_sessions
                 [Lazy.newClient 1 (adminProps Examples.rp) Examples.root] Pg.populated)
              Examples.svc Examples.root Examples.role_exists
              eq_refl eq_refl eq_refl eq_refl eq_refl eq_refl eq_refl eq_refl
              eq_refl eq_refl)
           eq_refl Pg.populated eq_refl).
Defined.

Lemma handleUpdate_database_exists_witness :
  run (handleUpdate (B := Pg.backend) MoreStates.update_create_database) Pg.populated
  = (Resolved {| PhysicalResourceId := "db.local/app/svc" |}, Pg.populated,
     [(GetSecretValue "arn:user", None);
      (Connect (Lazy.newClient 0 (userProps Examples.rp) Examples.svc), None);
      (Query (Lazy.newClient 0 (userProps Examples.rp) Examples.svc)
         "CREATE DATABASE app;",
       Some (DatabaseError PostgresErrorCodes.DUPLICATE_DATABASE
               "database already exists"));
      (End (Lazy.newClient 0 (userProps Examples.rp) Examples.svc), None)]).
Proof.
  exact (proj1
           (handleUpdate_database_exists (B := Pg.backend)
              MoreStates.update_create_database Pg.populated
              (Pg.with_sessions
                 [Lazy.newClient 0 (userProps Examples.rp) Examples.svc] Pg.populated)
              (Pg.with_sessions
                 [Lazy.newClient 0 (userProps Examples.rp) Examples.svc] Pg.populated)
              Examples.svc
              (DatabaseError PostgresErrorCodes.DUPLICATE_DATABASE
                 "database already exists")
              eq_refl eq_refl eq_refl eq_refl eq_refl eq_refl eq_refl eq_refl eq_refl)
           eq_refl Pg.populated eq_refl).
Defined.

(** ** The user connects before its database is created *)

Section CreateOrder.
Context {World : Type} {B : Backend World}.
Variable X : Type.
Variable obs : World -> X.
Hypothesis connect_obs : forall c w, obs (snd (connect c w)) = obs w.
Hypothesis createUser_obs :
  forall c u w, obs (snd (query c (Sql.createUser u) w)) = obs w.
Hypothesis alterUserPassword_obs :
  forall c u w, obs (snd (query c (Sql.alterUserPassword u) w)) = obs w.
Hypothesis alterUserPermissions_obs :
  forall c u w, obs (snd (query c (Sql.alterUserPermissions u) w)) = obs w.
Hypothesis dropUser_obs :
  forall c u w, obs (snd (query c (Sql.dropUser u) w)) = obs w.

Ltac observe :=
  repeat match goal with
    | H : ?f ?w = (?x, ?w') |- _ =>
        lazymatch goal with
        | _ : obs w' = obs w |- _ => fail
        | _ => idtac
        end;
        assert (obs w' = obs w)
          by (change w' with (snd (x, w')); rewrite <- H;
              first [ apply connect_obs | apply createUser_obs
                    | apply alterUserPassword_obs | apply alterUserPermissions_obs
                    | apply dropUser_obs ])
    end.

(** What the calls to connect and the statements on roles leave unchanged
    is, when a Create resolves, still as it was at the start at the moment
    the user's connection to the target database succeeds. *)
Lemma handleCreate_user_connects (event : CreateEvent.t) (w w' : World)
    (response : Response) (t : Trace) :
  let rp := CreateEvent.ResourceProperties event in
  run (handleCreate event) w = (Resolved response, w', t) ->
  exists userCredentials wc wc',
    getSecretValue (userSecretArn rp) w = inr userCredentials
    /\ obs wc = obs w
    /\ connect (Lazy.newClient 1 (userProps rp) userCredentials) wc = (None, wc').
Proof.
  open_event event. js_eval.
  js_case; [intros HR; discriminate HR|].
  js_case; [intros HR; discriminate HR|].
  destruct (String.eqb _ _); [intros HR; discriminate HR|]. js_eval.
  js_case; [intros HR; discriminate HR|]. observe.
  destruct (onCreateIfExists _); js_case; observe;
    repeat first
      [ match goal with
        | |- context [connect (Lazy.newClient 1 ?p ?d) ?wc] =>
            destruct (connect (Lazy.newClient 1 p d) wc) as [[?|] wc'] eqn:Huser;
            js_eval;
            [ intros HR; discriminate HR
            | intros _; exists d, wc, wc';
              split; [reflexivity | split; [congruence | exact Huser]] ]
        | |- context [isPostgresError ?e] => destruct (isPostgresError e); js_eval
        | |- context [code_is ?e ?c] => destruct (code_is e c); js_eval
        | |- _ = (Resolved _, _, _) -> _ => intros HR; discriminate HR
        end
      | js_case; observe ].
Qed.
End CreateOrder.

Module PgCreate.
Import Pg.

Lemma two_names_role (sep suf : string) (mk : string -> string -> Statement)
    (rest : string) :
  (forall a b, role_statement (mk a b) = true) ->
  match two_names sep suf mk rest with
  | Some st => role_statement st = true
  | None => True
  end.
Proof.
  intros Hmk. unfold two_names.
  destruct (split_on sep rest) as [[a r]|]; [|exact I].
  destruct (strip_suffix suf r); simpl; [apply Hmk | exact I].
Qed.

Lemma name_then_role (suf : string) (mk : string -> Statement) (rest : string) :
  (forall a, role_statement (mk a) = true) ->
  match name_then suf mk rest with
  | Some st => role_statement st = true
  | None => True
  end.
Proof.
  intros Hmk. unfold name_then.
  destruct (strip_suffix suf rest); simpl; [apply Hmk | exact I].
Qed.

Lemma parse_createUser (u : DbCredentials) : reads_role (Sql.createUser u).
Proof.
  unfold reads_role, parse, Sql.createUser.
  cbn -[two_names]. apply two_names_role. reflexivity.
Qed.

Lemma parse_alterUserPassword (u : DbCredentials) :
  reads_role (Sql.alterUserPassword u).
Proof.
  unfold reads_role, parse, Sql.alterUserPassword.
  cbn -[alter_user]. unfold alter_user.
  destruct (strip_suffix _ _); [reflexivity|].
  apply two_names_role. reflexivity.
Qed.

Lemma parse_alterUserPermissions (u : DbCredentials) :
  reads_role (Sql.alterUserPermissions u).
Proof.
  unfold reads_role, parse, Sql.alterUserPermissions.
  cbn -[alter_user]. unfold alter_user.
  destruct (strip_suffix _ _); [reflexivity|].
  apply two_names_role. reflexivity.
Qed.

Lemma parse_dropUser (u : DbCredentials) : reads_role (Sql.dropUser u).
Proof.
  unfold reads_role, parse, Sql.dropUser.
  change ("DROP USER " ++ username u ++ ";")%string
    with (String "D" (String "R" (String "O" (String "P" (String " "
           (String "U" (String "S" (String "E" (String "R" (String " "
              (username u ++ ";")))))))))))%string.
  generalize (username u ++ ";")%string. intros rest.
  cbn -[name_then strip_prefix].
  repeat (cbn -[name_then strip_prefix Ascii.eqb];
          match goal with
          | |- context [strip_prefix (String ?a ?p) (String ?b ?s)] =>
              change (strip_prefix (String a p) (String b s))
                with (if Ascii.eqb a b then strip_prefix p s else None);
              let v := eval vm_compute in (Ascii.eqb a b) in
              change (Ascii.eqb a b) with v; cbv iota
          | |- context [strip_prefix EmptyString ?s] =>
              change (strip_prefix EmptyString s) with (Some s); cbv iota
          end).
  destruct (strip_prefix "IF EXISTS " rest); apply name_then_role; reflexivity.
Qed.

Lemma exec_role (me : option Role) (current : string) (st : Statement) (w : World) :
  role_statement st = true -> databases (snd (exec me current st w)) = databases w.
Proof.
  destruct st; intros Hrole; try discriminate Hrole; cbn [exec fails];
    repeat match goal with
      | |- context [if ?b then _ else _] => destruct b
      end; reflexivity.
Qed.

Lemma pg_query_role (c : PgClient) (sql : string) (w : World) :
  reads_role sql -> databases (snd (pg_query c sql w)) = databases w.
Proof.
  unfold reads_role, pg_query. intros Hrole.
  destruct (negb _); [reflexivity|].
  destruct (parse sql) as [st|]; [|reflexivity].
  now apply exec_role.
Qed.

Lemma pg_connect_databases (c : PgClient) (w : World) :
  databases (snd (pg_connect c w)) = databases w.
Proof.
  unfold pg_connect, fails.
  destruct (find_role _ _); [|reflexivity].
  repeat match goal with
    | |- context [if ?b then _ else _] => destruct b
    end; reflexivity.
Qed.

(** X22.  On the model of PostgreSQL, where a connection to a database that does
    not exist is refused: a Create resolves only on a cluster that held the
    target database before the request.  The user's manager connects to the
    target database before [CREATE DATABASE] is sent, and nothing sent
    before that connection creates a database. *)
Theorem handleCreate_needs_database (event : CreateEvent.t) (w w' : World)
    (response : Response) (t : Trace) :
  run (handleCreate (B := backend) event) w = (Resolved response, w', t) ->
  has_database (databaseName (CreateEvent.ResourceProperties event)) (databases w)
  = true.
Proof.
  intros Hrun.
  destruct (handleCreate_user_connects (B := backend) _ databases
              pg_connect_databases
              (fun c u w => pg_query_role c _ w (parse_createUser u))
              (fun c u w => pg_query_role c _ w (parse_alterUserPassword u))
              (fun c u w => pg_query_role c _ w (parse_alterUserPermissions u))
              (fun c u w => pg_query_role c _ w (parse_dropUser u))
              event w w' response t Hrun)
    as (u & wc & wc' & _ & Hobs & Hconnect).
  apply PgFacts.pg_connect_ok in Hconnect.
  destruct Hconnect as (r & _ & _ & _ & Hdb & _).
  rewrite <- Hobs. exact Hdb.
Qed.
End PgCreate.

Lemma handleCreate_needs_database_witness :
  Pg.has_database "app" (Pg.databases Pg.populated) = true.
Proof.
  exact (PgCreate.handleCreate_needs_database (Examples.create OnCreateIfExists.Adopt)
           Pg.populated Pg.populated {| PhysicalResourceId := "db.local/app/svc" |}
           (snd (run (handleCreate (B := Pg.backend)
                        (Examples.create OnCreateIfExists.Adopt)) Pg.populated))
           eq_refl).
Defined.
